(** * toporesolve: the multi-context disambiguation engine

    A shallow embedding of
    - [oss-geoparser/src/clustering/context_clusterer.py]
      (class [ContextClusterer]),
    - [oss-geoparser/src/disambiguation/multi_context_rag.py]
      (class [MultiContextDisambiguator]), and
    - the per-mention step of [OSSGeoparser.geoparse_document] in
      [oss-geoparser/src/geoparser.py],
    followed by the properties of the engine stated in the specification.

    Modelling conventions.
    - Python [int] is [Z]; Python [float] is the kernel's binary64 [float],
      with the same correctly rounded operations.  A length or a support
      becomes a float through [Uint63]: lists are shorter than 2^53, where
      that is exact and [n / m] on integers is the binary64 quotient.
    - Python [str] is [string]; a character is a code point below 256.
    - A Python [set] of strings is a [gset string]; [elements] stands for
      the order in which Python lists a set.
    - An exception is a value of [exn]; code that can raise returns [res].
    - The reasoning service, the candidate retriever and the zero-match
      tracker are collaborators: the first two are fields of the engine
      object, and what the engine does to them is recorded in a [World].
    - Logging is left out; so is the wording of the prompt, which no
      decision of the engine reads. *)

From Stdlib Require Import ZArith List String Ascii Bool Lia Permutation Sorted Floats.
From stdpp Require Import base gmap sets list strings.

Set Default Proof Using "Type".
Set Warnings "-register-all,-inexact-float".
Local Open Scope string_scope.
Local Open Scope list_scope.
Local Open Scope Z_scope.

(* ===================================================================== *)
(** * Python runtime values                                               *)
(* ===================================================================== *)

Module Py.

(** ** Exceptions and results *)

Inductive exn_kind : Type :=
| JSONDecodeError
| AttributeError
| IndexError
| ValueError
| OverflowError
| OtherException (name : string).

(** [exn_msg e] is [str(e)]. *)
Record exn : Type := Exn { exn_kind_of : exn_kind; exn_msg : string }.

Inductive res (A : Type) : Type :=
| Returns (a : A)
| Raises (e : exn).
Arguments Returns {A} a.
Arguments Raises {A} e.

Definition res_bind {A B} (r : res A) (k : A -> res B) : res B :=
  match r with
  | Returns a => k a
  | Raises e => Raises e
  end.

#[export] Instance res_ret : MRet res := @Returns.
#[export] Instance res_mbind : MBind res := fun A B k r => res_bind r k.

(** ** Floats *)

(** [float(n)] for a non-negative machine-sized integer. *)
Definition float_of_Z (z : Z) : float := PrimFloat.of_uint63 (Uint63.of_Z z).

Definition float_of_nat (n : nat) : float := float_of_Z (Z.of_nat n).

(** [min(a, b)] on floats: Python returns [b] only when [b < a]. *)
Definition py_min (a b : float) : float :=
  if PrimFloat.ltb b a then b else a.

(** The integer nearest to [m * 2^e], ties going to the even one. *)
Definition round_half_even (m : positive) (e : Z) : Z :=
  match e with
  | Zneg p =>
      let d := Z.pow_pos 2 p in
      let q := Z.pos m / d in
      let r := Z.pos m mod d in
      match 2 * r ?= d with
      | Lt => q
      | Gt => q + 1
      | Eq => if Z.even q then q else q + 1
      end
  | _ => Z.pos m * 2 ^ e
  end.

(** [round(x)] with one argument: an [int], or an exception when [x] is
    not finite. *)
Definition py_round (x : float) : res Z :=
  match Prim2SF x with
  | S754_zero _ => Returns 0
  | S754_finite s m e =>
      Returns (if s then - round_half_even m e else round_half_even m e)
  | S754_infinity _ =>
      Raises (Exn OverflowError "cannot convert float infinity to integer")
  | S754_nan =>
      Raises (Exn ValueError "cannot convert float NaN to integer")
  end.

(** The integer a float is equal to, when there is one. *)
Definition float_integer_value (x : float) : option Z :=
  match Prim2SF x with
  | S754_zero _ => Some 0
  | S754_finite s m e =>
      match e with
      | Zneg p =>
          if Z.pos m mod Z.pow_pos 2 p =? 0
          then Some (if s then - (Z.pos m / Z.pow_pos 2 p)
                     else Z.pos m / Z.pow_pos 2 p)
          else None
      | _ => Some (if s then - (Z.pos m * 2 ^ e) else Z.pos m * 2 ^ e)
      end
  | _ => None
  end.

(** ** Strings *)

Definition code (c : ascii) : N := N_of_ascii c.

Definition in_range (lo hi : N) (c : ascii) : bool :=
  ((lo <=? code c) && (code c <=? hi))%N.

(** [c.isspace()] below code point 256. *)
Definition is_space (c : ascii) : bool :=
  in_range 9 13 c || in_range 28 32 c
  || (code c =? 133)%N || (code c =? 160)%N.

Definition is_ascii_upper (c : ascii) : bool := in_range 65 90 c.
Definition is_ascii_lower (c : ascii) : bool := in_range 97 122 c.
Definition is_ascii_digit (c : ascii) : bool := in_range 48 57 c.

(** [c.lower()] below code point 256: the ASCII capitals and the
    Latin-1 capitals, the multiplication sign apart. *)
Definition lower_char (c : ascii) : ascii :=
  if is_ascii_upper c
     || (in_range 192 222 c && negb (code c =? 215)%N)
  then ascii_of_N (code c + 32)
  else c.

Fixpoint py_lower (s : string) : string :=
  match s with
  | EmptyString => EmptyString
  | String c r => String (lower_char c) (py_lower r)
  end.

Fixpoint lstrip (s : string) : string :=
  match s with
  | EmptyString => EmptyString
  | String c r => if is_space c then lstrip r else s
  end.

Fixpoint rev_string (acc s : string) : string :=
  match s with
  | EmptyString => acc
  | String c r => rev_string (String c acc) r
  end.

(** [s.strip()] *)
Definition py_strip (s : string) : string :=
  rev_string "" (lstrip (rev_string "" (lstrip s))).

(** [sub in s], for a non-empty [sub]. *)
Fixpoint py_contains (sub s : string) : bool :=
  String.prefix sub s
  || match s with
     | EmptyString => false
     | String _ r => py_contains sub r
     end.

(** [s.split(sep)], for a non-empty [sep]: [skip] counts the characters
    of a separator still to be passed over, [cur] is the piece being
    read, backwards. *)
Fixpoint split_from (sep : string) (skip : nat) (cur s : string)
  : list string :=
  match s with
  | EmptyString => [rev_string "" cur]
  | String c r =>
      match skip with
      | S k => split_from sep k cur r
      | O =>
          if String.prefix sep s
          then rev_string "" cur
                 :: split_from sep (Nat.pred (String.length sep)) "" r
          else split_from sep O (String c cur) r
      end
  end.

Definition py_split (sep s : string) : list string :=
  split_from sep O "" s.

(** [s.replace(old, new)], for a non-empty [old]. *)
Fixpoint replace_from (old new : string) (skip : nat) (s : string)
  : string :=
  match s with
  | EmptyString => EmptyString
  | String c r =>
      match skip with
      | S k => replace_from old new k r
      | O =>
          if String.prefix old s
          then new +:+ replace_from old new (Nat.pred (String.length old)) r
          else String c (replace_from old new O r)
      end
  end.

Definition py_replace (old new s : string) : string :=
  replace_from old new O s.

(** [l[i]] on a list: negative indices count from the end. *)
Definition py_index {A} (l : list A) (i : Z) : res A :=
  let n := Z.of_nat (length l) in
  let j := if i <? 0 then n + i else i in
  if (0 <=? j) && (j <? n)
  then match l !! Z.to_nat j with
       | Some a => Returns a
       | None => Raises (Exn IndexError "list index out of range")
       end
  else Raises (Exn IndexError "list index out of range").

(** [l[:k]] *)
Definition py_take {A} (k : Z) (l : list A) : list A :=
  if k <? 0
  then firstn (Z.to_nat (Z.of_nat (length l) + k)) l
  else firstn (Z.to_nat k) l.

(** [list.sort(key=..., reverse=True)]: the stable sort into descending
    order of the key, so that of two elements with equal keys the one
    that came first stays first.  [lt a b] is [key(a) < key(b)]. *)
Section Sort.
Context {A : Type} (lt : A -> A -> bool).

Fixpoint insert_desc (x : A) (l : list A) : list A :=
  match l with
  | [] => [x]
  | y :: l' => if lt x y then y :: insert_desc x l' else x :: l
  end.

Fixpoint sort_desc (l : list A) : list A :=
  match l with
  | [] => []
  | x :: l' => insert_desc x (sort_desc l')
  end.
End Sort.

(** ** Parsed JSON: the values [json.loads] builds *)

Inductive json : Type :=
| JNull
| JBool (b : bool)
| JInt (z : Z)
| JFloat (x : float)
| JStr (s : string)
| JArr (items : list json)
| JObj (fields : list (string * json)).

(** [d.get(k)] on the items of a dict; [None] is [JNull]. *)
Fixpoint dict_lookup (k : string) (fields : list (string * json))
  : option json :=
  match fields with
  | [] => None
  | (k', v) :: rest => if String.eqb k k' then Some v else dict_lookup k rest
  end.

Definition dict_get (k : string) (fields : list (string * json)) : json :=
  match dict_lookup k fields with
  | Some v => v
  | None => JNull
  end.

(** [d.get(k, default)] *)
Definition dict_get_default (k : string) (default : json)
           (fields : list (string * json)) : json :=
  match dict_lookup k fields with
  | Some v => v
  | None => default
  end.

(** [type(v).__name__] *)
Definition type_name (v : json) : string :=
  match v with
  | JNull => "NoneType"
  | JBool _ => "bool"
  | JInt _ => "int"
  | JFloat _ => "float"
  | JStr _ => "str"
  | JArr _ => "list"
  | JObj _ => "dict"
  end.

Definition no_attribute (v : json) (attr : string) : exn :=
  Exn AttributeError
      ("'" +:+ type_name v +:+ "' object has no attribute '" +:+ attr +:+ "'").

(** Equality of numbers: [bool] is an [int], and an [int] equals a
    [float] when the float has exactly that value. *)
Definition num_eq (a b : json) : bool :=
  let as_int v :=
    match v with
    | JBool b => Some (if b then 1 else 0)
    | JInt z => Some z
    | JFloat x => float_integer_value x
    | _ => None
    end in
  match a, b with
  | JFloat x, JFloat y => PrimFloat.eqb x y
  | _, _ =>
      match as_int a, as_int b with
      | Some x, Some y => x =? y
      | _, _ => false
      end
  end.

(** [a == b] *)
Fixpoint py_eq (a b : json) {struct a} : bool :=
  match a, b with
  | JNull, JNull => true
  | JStr s, JStr t => String.eqb s t
  | JArr l, JArr m =>
      (fix items_eq (l m : list json) : bool :=
         match l, m with
         | [], [] => true
         | x :: l', y :: m' => py_eq x y && items_eq l' m'
         | _, _ => false
         end) l m
  | JObj f, JObj g =>
      Nat.eqb (length f) (length g)
      && (fix fields_eq (f : list (string * json)) : bool :=
            match f with
            | [] => true
            | (k, v) :: f' =>
                match dict_lookup k g with
                | Some w => py_eq v w
                | None => false
                end && fields_eq f'
            end) f
  | (JBool _ | JInt _ | JFloat _), (JBool _ | JInt _ | JFloat _) =>
      num_eq a b
  | _, _ => false
  end.

(** ** More of the string methods *)

(** [s.find(sub)]: the first place [sub] starts at, or -1. *)
Fixpoint find_from (sub s : string) (i : Z) : Z :=
  if String.prefix sub s then i
  else match s with
       | EmptyString => -1
       | String _ r => find_from sub r (i + 1)
       end.

Definition py_find (sub s : string) : Z := find_from sub s 0.

(** [s.rfind(sub)]: the last place [sub] starts at, or -1. *)
Fixpoint rfind_from (sub s : string) (i last : Z) : Z :=
  let last := if String.prefix sub s then i else last in
  match s with
  | EmptyString => last
  | String _ r => rfind_from sub r (i + 1) last
  end.

Definition py_rfind (sub s : string) : Z := rfind_from sub s 0 (-1).

(** A bound of a slice of a sequence of length [n]: a negative index
    counts from the end, and what falls outside is brought back. *)
Definition slice_bound (n i : Z) : Z :=
  let j := if i <? 0 then i + n else i in
  Z.max 0 (Z.min n j).

(** [s[lo:hi]] *)
Definition py_slice (s : string) (lo hi : Z) : string :=
  let n := Z.of_nat (String.length s) in
  let a := slice_bound n lo in
  let b := slice_bound n hi in
  String.substring (Z.to_nat a) (Z.to_nat (b - a)) s.

(** [s[lo:]] *)
Definition py_slice_from (s : string) (lo : Z) : string :=
  py_slice s lo (Z.of_nat (String.length s)).

(** [s.endswith(suffix)] *)
Definition py_endswith (suffix s : string) : bool :=
  String.prefix (rev_string "" suffix) (rev_string "" s).

(** [c.isdigit()] below code point 256: the ten digits and the
    superscripts one, two and three. *)
Definition is_digit_char (c : ascii) : bool :=
  is_ascii_digit c
  || (code c =? 178)%N || (code c =? 179)%N || (code c =? 185)%N.

(** [s.isdigit()] *)
Fixpoint all_digits (s : string) : bool :=
  match s with
  | EmptyString => true
  | String c r => is_digit_char c && all_digits r
  end.

Definition py_isdigit (s : string) : bool :=
  negb (String.eqb s "") && all_digits s.

End Py.

(* ===================================================================== *)
(** * The two patterns of the informativeness score                      *)
(* ===================================================================== *)

Module Re.
Import Py.

(** [\w] on text, below code point 256: letters, digits and other
    numeric characters, and the underscore. *)
Definition is_word (c : ascii) : bool :=
  is_ascii_digit c || is_ascii_upper c || is_ascii_lower c
  || (code c =? 95)%N || (code c =? 170)%N
  || in_range 178 179 c || (code c =? 181)%N
  || in_range 185 186 c || in_range 188 190 c
  || in_range 192 214 c || in_range 216 246 c || in_range 248 255 c.

(** [\d] on text, below code point 256. *)
Definition is_digit (c : ascii) : bool := is_ascii_digit c.

Definition word_at (s : string) : bool :=
  match s with
  | EmptyString => false
  | String c _ => is_word c
  end.

(** [\b] between a character that is ([prev]) or is not a word
    character and the rest of the text. *)
Definition boundary (prev : bool) (rest : string) : bool :=
  xorb prev (word_at rest).

Fixpoint skip_chars (n : nat) (s : string) : string :=
  match n, s with
  | S k, String _ r => skip_chars k r
  | _, _ => s
  end.

(** The first [n] characters exist and all satisfy [p]. *)
Fixpoint all_prefix (p : ascii -> bool) (n : nat) (s : string) : bool :=
  match n, s with
  | O, _ => true
  | S k, String c r => p c && all_prefix p k r
  | S _, EmptyString => false
  end.

(** How many leading characters satisfy [p]. *)
Fixpoint run_length (p : ascii -> bool) (s : string) : nat :=
  match s with
  | String c r => if p c then S (run_length p r) else O
  | EmptyString => O
  end.

(** [\b\d{2,4}\b] tried at the head of [s]: the length of the match.
    The quantifier is greedy and gives back one digit at a time. *)
Definition match_number (prev : bool) (s : string) : option nat :=
  if boundary prev s then
    let ends_at (m : nat) := all_prefix is_digit m s && boundary true (skip_chars m s) in
    if ends_at 4%nat then Some 4%nat
    else if ends_at 3%nat then Some 3%nat
    else if ends_at 2%nat then Some 2%nat
    else None
  else None.

(** The longest [m <= n], [m >= 1], with a boundary after [m]
    characters of [r]. *)
Fixpoint longest_ending (r : string) (n : nat) : option nat :=
  match n with
  | O => None
  | S k => if boundary true (skip_chars n r) then Some n else longest_ending r k
  end.

(** [\b[A-Z][a-z]+\b] tried at the head of [s]. *)
Definition match_capitalized (prev : bool) (s : string) : option nat :=
  if boundary prev s then
    match s with
    | String c r =>
        if is_ascii_upper c
        then option_map S (longest_ending r (run_length is_ascii_lower r))
        else None
    | EmptyString => None
    end
  else None.

(** [len(re.findall(pattern, text))]: matches are looked for from left
    to right and do not overlap.  [prev] tells whether the character
    before [s] is a word character, [skip] how many characters of the
    last match are still ahead. *)
Fixpoint count_from (matcher : bool -> string -> option nat)
         (prev : bool) (skip : nat) (s : string) : nat :=
  match s with
  | EmptyString => O
  | String c r =>
      match skip with
      | S k => count_from matcher (is_word c) k r
      | O =>
          match matcher prev s with
          | Some m => S (count_from matcher (is_word c) (Nat.pred m) r)
          | None => count_from matcher (is_word c) O r
          end
      end
  end.

Definition count_numbers (s : string) : nat :=
  count_from match_number false O s.

Definition count_capitalized (s : string) : nat :=
  count_from match_capitalized false O s.

End Re.

(* ===================================================================== *)
(** * Evidence model ([parsers/xml_parser.py])                            *)
(* ===================================================================== *)

Module Evidence.

(** Single context where a location is mentioned. *)
Record LocationContext : Type := {
  text : string;
  nearby_locations : list string;
  position_in_doc : float
}.

(** A location mentioned in a document with all its contexts. *)
Record LocationMention : Type := {
  name : string;
  mention_count : Z;
  contexts : list LocationContext;
  document_id : string;
  all_doc_locations : list string
}.

(** [==] of two lists of strings. *)
Fixpoint str_list_eqb (l m : list string) : bool :=
  match l, m with
  | [], [] => true
  | x :: l', y :: m' => String.eqb x y && str_list_eqb l' m'
  | _, _ => false
  end.

(** The [__eq__] a dataclass generates: field by field. *)
Definition context_eqb (a b : LocationContext) : bool :=
  String.eqb (text a) (text b)
  && str_list_eqb (nearby_locations a) (nearby_locations b)
  && PrimFloat.eqb (position_in_doc a) (position_in_doc b).

(** [ctx in selected] *)
Definition context_in (ctx : LocationContext) (l : list LocationContext)
  : bool :=
  existsb (context_eqb ctx) l.

End Evidence.

(* ===================================================================== *)
(** * Context clustering ([clustering/context_clusterer.py])             *)
(* ===================================================================== *)

Module Clusterer.
Import Py Re Evidence.

(** A cluster of contexts referring to the same geographic location. *)
Record ContextCluster : Type := {
  cluster_members : list LocationContext;   (* field [contexts] *)
  cluster_nearby : gset string;             (* field [nearby_locations] *)
  support : Z;
  confidence : string
}.

Record ContextClusterer : Type := {
  similarity_threshold : float;
  min_cluster_size : Z
}.

(** [_cluster_similarity]: Jaccard similarity. *)
Definition _cluster_similarity (set1 set2 : gset string) : float :=
  if bool_decide (set1 = ∅) && bool_decide (set2 = ∅) then 1.0%float
  else if bool_decide (set1 = ∅) || bool_decide (set2 = ∅) then 0.0%float
  else
    let intersection := size (set1 ∩ set2) in
    let union := size (set1 ∪ set2) in
    if (0 <? union)%nat
    then (float_of_nat intersection / float_of_nat union)%float
    else 0.0%float.

(** The search for the best cluster, lines 79-88: the index of
    [best_cluster], with [best_similarity] and the running index. *)
Definition best_step (self : ContextClusterer) (nearby_set : gset string)
           (acc : option nat * float * nat) (cluster : ContextCluster)
  : option nat * float * nat :=
  let '(best_cluster, best_similarity, i) := acc in
  let similarity := _cluster_similarity nearby_set (cluster_nearby cluster) in
  if PrimFloat.leb (similarity_threshold self) similarity
     && PrimFloat.ltb best_similarity similarity
  then (Some i, similarity, S i)
  else (best_cluster, best_similarity, S i).

Definition best_cluster_index (self : ContextClusterer)
           (nearby_set : gset string) (clusters : list ContextCluster)
  : option nat :=
  fst (fst (fold_left (best_step self nearby_set) clusters
                      (None, 0.0%float, O))).

(** [best_cluster.contexts.append(context)] and the two updates after. *)
Definition add_to_cluster (context : LocationContext)
           (nearby_set : gset string) (c : ContextCluster)
  : ContextCluster :=
  {| cluster_members := cluster_members c ++ [context];
     cluster_nearby := cluster_nearby c ∪ nearby_set;
     support := support c + 1;
     confidence := confidence c |}.

(** One turn of the loop over [mention.contexts], lines 75-104. *)
Definition place_context (self : ContextClusterer)
           (clusters : list ContextCluster) (context : LocationContext)
  : list ContextCluster :=
  let nearby_set : gset string := list_to_set (nearby_locations context) in
  match best_cluster_index self nearby_set clusters with
  | Some i => alter (add_to_cluster context nearby_set) i clusters
  | None =>
      clusters ++ [ {| cluster_members := [context];
                       cluster_nearby := nearby_set;
                       support := 1;
                       confidence := "low" |} ]
  end.

(** Lines 111-119. *)
Definition assign_confidence (total_contexts : Z) (cluster : ContextCluster)
  : ContextCluster :=
  let proportion :=
    (float_of_Z (support cluster) / float_of_Z total_contexts)%float in
  {| cluster_members := cluster_members cluster;
     cluster_nearby := cluster_nearby cluster;
     support := support cluster;
     confidence :=
       if PrimFloat.leb 0.6%float proportion then "high"
       else if PrimFloat.leb 0.3%float proportion then "medium"
       else "low" |}.

Definition support_lt (a b : ContextCluster) : bool :=
  support a <? support b.

Definition cluster_contexts (self : ContextClusterer)
           (mention : LocationMention) : list ContextCluster :=
  match contexts mention with
  | [] => []
  | [only] =>
      [ {| cluster_members := contexts mention;
           cluster_nearby := list_to_set (nearby_locations only);
           support := 1;
           confidence := "high" |} ]
  | _ =>
      let clusters := fold_left (place_context self) (contexts mention) [] in
      let clusters := sort_desc support_lt clusters in
      let total_contexts := Z.of_nat (length (contexts mention)) in
      map (assign_confidence total_contexts) clusters
  end.

(** [_context_informativeness_score] *)
Definition _context_informativeness_score (context : LocationContext)
  : float :=
  let score := 0.0%float in
  let score :=
    (score + float_of_nat (length (nearby_locations context)) * 2.0)%float in
  let score :=
    (score + py_min (float_of_nat (String.length (text context)) / 500.0)
                    1.0)%float in
  let numbers := count_numbers (text context) in
  let score := (score + float_of_nat numbers * 0.5)%float in
  let cap_words := count_capitalized (text context) in
  let score :=
    (score + py_min (float_of_nat cap_words / 10.0) 1.0)%float in
  score.

Definition score_lt (a b : float * LocationContext) : bool :=
  PrimFloat.ltb (fst a) (fst b).

Definition len {A} (l : list A) : Z := Z.of_nat (length l).

(** The first loop of [select_representative_contexts], lines 152-161. *)
Fixpoint diversity_pass (max_contexts : Z)
         (scored_contexts : list (float * LocationContext))
         (selected : list LocationContext) (used_positions : gset Z)
  : res (list LocationContext * gset Z) :=
  match scored_contexts with
  | [] => Returns (selected, used_positions)
  | (_, ctx) :: rest =>
      if len selected >=? max_contexts
      then Returns (selected, used_positions)
      else
        position_bucket ← py_round (position_in_doc ctx * 10.0)%float;
        if negb (bool_decide (position_bucket ∈ used_positions))
           || (len selected <? max_contexts / 2)
        then diversity_pass max_contexts rest (selected ++ [ctx])
                            ({[position_bucket]} ∪ used_positions)
        else diversity_pass max_contexts rest selected used_positions
  end.

(** The second loop, lines 164-168. *)
Fixpoint fill_pass (max_contexts : Z)
         (scored_contexts : list (float * LocationContext))
         (selected : list LocationContext) : list LocationContext :=
  match scored_contexts with
  | [] => selected
  | (_, ctx) :: rest =>
      if len selected >=? max_contexts then selected
      else if negb (context_in ctx selected)
           then fill_pass max_contexts rest (selected ++ [ctx])
           else fill_pass max_contexts rest selected
  end.

Definition select_representative_contexts (cluster : ContextCluster)
           (max_contexts : Z) : res (list LocationContext) :=
  if len (cluster_members cluster) <=? max_contexts
  then Returns (cluster_members cluster)
  else
    let scored_contexts :=
      map (fun ctx => (_context_informativeness_score ctx, ctx))
          (cluster_members cluster) in
    let scored_contexts := sort_desc score_lt scored_contexts in
    '(selected, _) ← diversity_pass max_contexts scored_contexts [] ∅;
    let selected := fill_pass max_contexts scored_contexts selected in
    Returns (py_take max_contexts selected).

Definition sum_support (clusters : list ContextCluster) : Z :=
  fold_left (fun acc c => acc + support c) clusters 0.

Definition detect_multiple_referents (self : ContextClusterer)
           (mention : LocationMention) : bool * list ContextCluster :=
  let clusters := cluster_contexts self mention in
  match clusters with
  | _ :: second :: _ =>
      let total_contexts := sum_support clusters in
      let second_cluster_proportion :=
        (float_of_Z (support second) / float_of_Z total_contexts)%float in
      let has_multiple := PrimFloat.leb 0.2%float second_cluster_proportion in
      (has_multiple, clusters)
  | _ => (false, clusters)
  end.

(** [build_cooccurrence_network], lines 241-263: the dict of dicts as a
    map of maps.  [count_nearby] is the body of the innermost loop on
    the row of the mention. *)
Definition count_nearby (nearby : string) (row : gmap string Z)
  : gmap string Z :=
  let row :=
    if bool_decide (is_Some (row !! nearby)) then row
    else <[nearby := 0]> row in
  alter (fun n => n + 1) nearby row.

Definition add_mention (network : gmap string (gmap string Z))
           (mention : LocationMention) : gmap string (gmap string Z) :=
  let network :=
    if bool_decide (is_Some (network !! name mention)) then network
    else <[name mention := ∅]> network in
  fold_left
    (fun network context =>
       fold_left
         (fun network nearby =>
            alter (count_nearby nearby) (name mention) network)
         (nearby_locations context) network)
    (contexts mention) network.

Definition build_cooccurrence_network (mentions : list LocationMention)
  : gmap string (gmap string Z) :=
  fold_left add_mention mentions ∅.

End Clusterer.

(* ===================================================================== *)
(** * The zero-match tracker ([utils/zero_match_analytics.py])            *)
(* ===================================================================== *)

Module Tracker.
Import Py Clusterer.

(** The value the [defaultdict] keeps for a name. *)
Record ZeroMatch : Type := {
  count : Z;
  contexts : list string
}.

(** [self.zero_matches], in the order the names came in. *)
Definition ZeroMatchTracker : Type := list (string * ZeroMatch).

Definition new_entry : ZeroMatch := {| count := 0; contexts := [] |}.

(** [self.zero_matches[toponym]], read. *)
Fixpoint entry_of (toponym : string) (self : ZeroMatchTracker)
  : option ZeroMatch :=
  match self with
  | [] => None
  | (k, v) :: rest =>
      if String.eqb k toponym then Some v else entry_of toponym rest
  end.

(** An update of [self.zero_matches[toponym]]: a name that is not there
    yet comes in last, with the default value. *)
Fixpoint on_entry (toponym : string) (f : ZeroMatch -> ZeroMatch)
         (self : ZeroMatchTracker) : ZeroMatchTracker :=
  match self with
  | [] => [(toponym, f new_entry)]
  | (k, v) :: rest =>
      if String.eqb k toponym then (k, f v) :: rest
      else (k, v) :: on_entry toponym f rest
  end.

(** [context[:200] + "..." if len(context) > 200 else context] *)
Definition truncated (context : string) : string :=
  if 200 <? Z.of_nat (String.length context)
  then String.substring 0 200 context +:+ "..."
  else context.

Definition record_zero_match (self : ZeroMatchTracker) (toponym : string)
           (context : option string) : ZeroMatchTracker :=
  let self :=
    on_entry toponym
             (fun d => {| count := count d + 1; contexts := contexts d |})
             self in
  match context with
  | Some context =>
      if negb (String.eqb context "")
         && (len (contexts (default new_entry (entry_of toponym self))) <? 3)
      then on_entry toponym
                    (fun d => {| count := count d;
                                 contexts := contexts d ++ [truncated context] |})
                    self
      else self
  | None => self
  end.

(** [get_statistics]: the two totals. *)
Definition total_unique_toponyms (self : ZeroMatchTracker) : Z := len self.

Definition total_occurrences (self : ZeroMatchTracker) : Z :=
  fold_left (fun acc d => acc + count d.2) self 0.

Record ReviewItem : Type := {
  item_toponym : string;
  frequency : Z;
  item_contexts : list string
}.

Definition frequency_lt (a b : ReviewItem) : bool :=
  frequency a <? frequency b.

Definition generate_review_report (self : ZeroMatchTracker)
           (min_frequency : Z) : list ReviewItem :=
  let filtered :=
    map (fun '(name, data) =>
           {| item_toponym := name; frequency := count data;
              item_contexts := contexts data |})
        (List.filter (fun '(_, data) => min_frequency <=? count data) self) in
  sort_desc frequency_lt filtered.

Definition get_top_n (self : ZeroMatchTracker) (n : Z) : list ReviewItem :=
  py_take n (generate_review_report self 1).

End Tracker.

(* ===================================================================== *)
(** * The disambiguator ([disambiguation/multi_context_rag.py])          *)
(* ===================================================================== *)

Module Disambiguator.
Import Py Evidence Clusterer.

(** A candidate is the dict the retriever returns, as its items. *)
Definition Candidate : Type := list (string * json).

(** Result of disambiguation with full provenance.  [reasoning] holds
    whatever the response carried under that key, a string as a rule. *)
Record DisambiguationResult : Type := {
  toponym : string;
  selected_candidate : option Candidate;
  result_confidence : string;                 (* field [confidence] *)
  reasoning : json;
  clusters_detected : Z;
  has_multiple_referents : bool;
  all_candidates : list Candidate;
  contexts_used : list string;
  result_nearby : list string;                (* field [nearby_locations] *)
  source_location : option (list (string * json))
}.

(** What the engine has done to its collaborators: the prompts sent to
    the reasoning service, oldest first, and the zero matches recorded. *)
Record World : Type := {
  llm_requests : list string;
  zero_matches : list (string * option string)
}.

(** A computation that acts on the collaborators and may raise. *)
Definition M (A : Type) : Type := World -> res A * World.

#[export] Instance M_ret : MRet M := fun A a w => (Returns a, w).
#[export] Instance M_bind : MBind M := fun A B k m w =>
  match m w with
  | (Returns a, w') => k a w'
  | (Raises e, w') => (Raises e, w')
  end.

Definition lift {A} (r : res A) : M A := fun w => (r, w).

(** Library code the engine calls and this development leaves open:
    [json.loads], the text an f-string gives a value that is not a
    string, and the wording of the prompt. *)
Class Runtime : Type := {
  json_loads : string -> res json;
  py_repr : json -> string;
  _build_multi_context_prompt :
    string -> list LocationContext -> list Candidate -> list string ->
    option (list (string * json)) -> string -> string
}.

(** The engine object.  [llm_create n model prompt] is the content of
    the first choice of the [n]-th completion the service is asked
    for, or what raising it, or reading it, raises. *)
Record MultiContextDisambiguator : Type := {
  neo4j_get_candidates : string -> Z -> res (list Candidate);
  llm_create : nat -> string -> string -> res string;
  clusterer : ContextClusterer;
  model : string;
  max_contexts_per_cluster : Z;
  max_candidates : Z;
  zero_match_tracker : bool
}.

Section Engine.
Context `{Runtime}.
Variable self : MultiContextDisambiguator.

(** [f"{v}"] *)
Definition py_format (v : json) : string :=
  match v with
  | JStr s => s
  | _ => py_repr v
  end.

(** [self.llm_client.chat.completions.create(...)] *)
Definition call_llm (prompt : string) : M string :=
  fun w =>
    (llm_create self (length (llm_requests w)) (model self) prompt,
     {| llm_requests := llm_requests w ++ [prompt];
        zero_matches := zero_matches w |}).

(** [self.zero_match_tracker.record_zero_match(name, context=...)] *)
Definition record_zero_match (toponym : string) (context : option string)
  : M unit :=
  fun w =>
    (Returns tt,
     {| llm_requests := llm_requests w;
        zero_matches := zero_matches w ++ [(toponym, context)] |}).

Definition fence : string := "```".
Definition json_fence : string := "```json".

(** Lines 241-245. *)
Definition extract_json (response_text : string) : res string :=
  if py_contains json_fence response_text then
    after ← py_index (py_split json_fence response_text) 1;
    inside ← py_index (py_split fence after) 0;
    Returns (py_strip inside)
  else if py_contains fence response_text then
    after ← py_index (py_split fence response_text) 1;
    inside ← py_index (py_split fence after) 0;
    Returns (py_strip inside)
  else Returns response_text.

(** Lines 252-270. *)
Definition decide_selection (candidates : list Candidate)
           (llm_decision : json) : res (option Candidate * json) :=
  match llm_decision with
  | JObj fields =>
      let selected_id := dict_get "selected_id" fields in
      let reasoning :=
        dict_get_default "reasoning" (JStr "No reasoning provided") fields in
      match dict_get_default "confidence" (JStr "medium") fields with
      | JStr confidence =>
          let llm_confidence := py_lower confidence in
          match selected_id with
          | JNull => Returns (None, reasoning)
          | _ =>
              if String.eqb llm_confidence "low"
              then Returns
                     (None,
                      JStr ("Low confidence: " +:+ py_format reasoning))
              else
                let selected :=
                  find (fun c => py_eq (dict_get "id" c) selected_id)
                       candidates in
                Returns (selected, reasoning)
          end
      | other => Raises (no_attribute other "lower")
      end
  | other => Raises (no_attribute other "get")
  end.

(** Lines 235-247: from the content of the reply to the parsed
    decision. *)
Definition parse_response (content : string) : res json :=
  response_text ← extract_json (py_strip content);
  json_loads response_text.

(** The body of the [try], lines 235-270, after the call. *)
Definition read_response (candidates : list Candidate) (content : string)
  : res (option Candidate * json) :=
  llm_decision ← parse_response content;
  decide_selection candidates llm_decision.

Definition max_retries : Z := 2.

Definition stricter (prompt : string) : string :=
  py_replace
    "Return ONLY the JSON"
    "Return ONLY valid JSON with no markdown formatting, no backticks, no explanation"
    prompt.

(** The loop [for attempt in range(max_retries)], lines 218-288. *)
Fixpoint attempt_loop (candidates : list Candidate) (attempts : list Z)
         (prompt : string) : M (option Candidate * json) :=
  match attempts with
  | [] => mret (None, JStr "Failed to get valid LLM response")
  | attempt :: rest =>
      fun w =>
        let '(reply, w) := call_llm prompt w in
        match reply ≫= read_response candidates with
        | Returns decision => (Returns decision, w)
        | Raises e =>
            match exn_kind_of e with
            | JSONDecodeError =>
                if attempt <? max_retries - 1
                then attempt_loop candidates rest (stricter prompt) w
                else (Returns
                        (None,
                         JStr ("LLM response parsing failed: "
                               +:+ exn_msg e)), w)
            | _ =>
                (Returns (None, JStr ("LLM error: " +:+ exn_msg e)), w)
            end
        end
  end.

(** [range(n)] *)
Definition py_range (n : Z) : list Z :=
  map Z.of_nat (seq 0 (Z.to_nat n)).

Definition _disambiguate_with_llm (toponym : string)
           (contexts : list LocationContext) (candidates : list Candidate)
           (nearby : list string)
           (source : option (list (string * json)))
           (cluster_confidence : string) : M (option Candidate * json) :=
  let prompt :=
    _build_multi_context_prompt toponym contexts candidates nearby source
                                cluster_confidence in
  attempt_loop candidates (py_range max_retries) prompt.

Definition _calculate_confidence (cluster_confidence : string)
           (num_candidates num_contexts : Z)
           (has_multiple_referents : bool) : string :=
  if String.eqb cluster_confidence "high"
     && negb has_multiple_referents && (num_candidates <=? 5)
  then "high"
  else if String.eqb cluster_confidence "low"
          || has_multiple_referents || (20 <? num_candidates)
  then "low"
  else "medium".

(** Lines 106-111: the cluster to disambiguate. *)
Definition target_of (clusters : list ContextCluster)
           (cluster_id : option Z) : res (option ContextCluster) :=
  match cluster_id with
  | Some i =>
      if i <? len clusters
      then c ← py_index clusters i; Returns (Some c)
      else Returns (head clusters)
  | None => Returns (head clusters)
  end.

Definition disambiguate (mention : LocationMention)
           (source : option (list (string * json)))
           (cluster_id : option Z) : M DisambiguationResult :=
  let clusters := cluster_contexts (clusterer self) mention in
  let '(has_multiple, _) :=
    detect_multiple_referents (clusterer self) mention in
  target ← lift (target_of clusters cluster_id);
  match target with
  | None =>
      mret {| toponym := name mention;
              selected_candidate := None;
              result_confidence := "low";
              reasoning := JStr "No valid contexts found";
              clusters_detected := 0;
              has_multiple_referents := false;
              all_candidates := [];
              contexts_used := [];
              result_nearby := [];
              source_location := None |}
  | Some target_cluster =>
      representative_contexts ←
        lift (select_representative_contexts
                target_cluster (max_contexts_per_cluster self));
      candidates ←
        lift (neo4j_get_candidates self (name mention)
                                   (max_candidates self));
      match candidates with
      | [] =>
          _ ← (if zero_match_tracker self
               then record_zero_match
                      (name mention)
                      (text <$> head representative_contexts)
               else mret tt);
          mret {| toponym := name mention;
                  selected_candidate := None;
                  result_confidence := "low";
                  reasoning :=
                    JStr "No candidates found in knowledge graph";
                  clusters_detected := len clusters;
                  has_multiple_referents := has_multiple;
                  all_candidates := [];
                  contexts_used := text <$> representative_contexts;
                  result_nearby :=
                    elements (cluster_nearby target_cluster);
                  source_location := None |}
      | _ =>
          '(selected, why) ←
            _disambiguate_with_llm
              (name mention) representative_contexts candidates
              (elements (cluster_nearby target_cluster)) source
              (confidence target_cluster);
          let overall :=
            _calculate_confidence
              (confidence target_cluster) (len candidates)
              (len representative_contexts) has_multiple in
          mret {| toponym := name mention;
                  selected_candidate := selected;
                  result_confidence := overall;
                  reasoning := why;
                  clusters_detected := len clusters;
                  has_multiple_referents := has_multiple;
                  all_candidates := candidates;
                  contexts_used := text <$> representative_contexts;
                  result_nearby :=
                    elements (cluster_nearby target_cluster);
                  source_location := source |}
      end
  end.

(** [feature_code == k], the code being optional. *)
Definition code_is (feature_code : option string) (k : string) : bool :=
  match feature_code with
  | Some c => String.eqb c k
  | None => false
  end.

(** [_explain_feature_type], lines 419-464. *)
Definition _explain_feature_type (feature_class : string)
           (feature_code : option string) : string :=
  if String.eqb feature_class "P" then
    if existsb (code_is feature_code)
               ["PPL"; "PPLA"; "PPLA2"; "PPLA3"; "PPLA4"]
    then "CITY/TOWN (populated place)"
    else if code_is feature_code "PPLC"
    then "CAPITAL CITY (national capital)"
    else "POPULATED PLACE (city/town/village)"
  else if String.eqb feature_class "A" then
    if code_is feature_code "ADM1"
    then "STATE/PROVINCE (first-level administrative division)"
    else if code_is feature_code "ADM2"
    then "COUNTY/DISTRICT (second-level administrative division)"
    else if code_is feature_code "PCLI"
    then "COUNTRY (independent political entity)"
    else if code_is feature_code "ADMD"
    then "ADMINISTRATIVE DIVISION"
    else "ADMINISTRATIVE AREA"
  else if String.eqb feature_class "H"
  then "WATER FEATURE (river, lake, ocean, etc.)"
  else if String.eqb feature_class "T"
  then "TERRAIN FEATURE (mountain, valley, etc.)"
  else if String.eqb feature_class "L"
  then "LANDSCAPE/REGION (park, forest, etc.)"
  else if String.eqb feature_class "S"
  then "STRUCTURE/FACILITY (building, monument, etc.)"
  else feature_class +:+ " (see GeoNames classification)".

(** The loop of [disambiguate_all_clusters], lines 501-506: one request
    for each cluster, by its index. *)
Fixpoint disambiguate_each (mention : LocationMention)
         (source : option (list (string * json))) (indices : list Z)
         (results : list DisambiguationResult)
  : M (list DisambiguationResult) :=
  match indices with
  | [] => mret results
  | i :: rest =>
      result ← disambiguate mention source (Some i);
      disambiguate_each mention source rest (results ++ [result])
  end.

Definition disambiguate_all_clusters (mention : LocationMention)
           (source : option (list (string * json)))
  : M (list DisambiguationResult) :=
  let clusters := cluster_contexts (clusterer self) mention in
  let '(has_multiple, _) :=
    detect_multiple_referents (clusterer self) mention in
  if negb has_multiple || (len clusters =? 1)
  then result ← disambiguate mention source None; mret [result]
  else disambiguate_each mention source (py_range (len clusters)) [].

End Engine.

End Disambiguator.

(* ===================================================================== *)
(** * The filter of ungroundable toponyms ([utils/toponym_filter.py])     *)
(* ===================================================================== *)

Module Filter.
Import Py Evidence Clusterer.

(** Reasons why a toponym cannot be grounded. *)
Inductive FilterReason : Type :=
| GENERIC_DESCRIPTOR
| RELATIVE_REFERENCE
| NON_SPECIFIC
| AMBIGUOUS_ABBREVIATION
| TOO_SHORT
| NUMERIC_ONLY
| LIKELY_PERSON_NAME
| BLACKLISTED
| AMBIGUOUS_TERM.

(** [reason.value] *)
Definition value (reason : FilterReason) : string :=
  match reason with
  | GENERIC_DESCRIPTOR => "generic_descriptor"
  | RELATIVE_REFERENCE => "relative_reference"
  | NON_SPECIFIC => "non_specific"
  | AMBIGUOUS_ABBREVIATION => "ambiguous_abbreviation"
  | TOO_SHORT => "too_short"
  | NUMERIC_ONLY => "numeric_only"
  | LIKELY_PERSON_NAME => "likely_person_name"
  | BLACKLISTED => "blacklisted"
  | AMBIGUOUS_TERM => "ambiguous_term"
  end.

Record ToponymFilter : Type := {
  strict_mode : bool;
  generic_descriptors : gset string;
  relative_references : gset string;
  non_specific : gset string;
  ambiguous_abbreviations : gset string;
  blacklist : gset string;
  person_indicators : gset string;
  ambiguous_terms : gset string
}.

(** [x in s] on a set of strings. *)
Definition member (x : string) (s : gset string) : bool :=
  bool_decide (x ∈ s).

(** The terms [_load_ambiguous_terms] adds from the lines of a file:
    comments and empty lines are passed over. *)
Definition _load_ambiguous_terms (terms : gset string)
           (lines : list string) : gset string :=
  fold_left
    (fun terms line =>
       let term := py_lower (py_strip line) in
       if negb (String.eqb term "") && negb (String.prefix "#" term)
       then {[term]} ∪ terms
       else terms)
    lines terms.

(** [ToponymFilter(strict_mode, ambiguous_terms_file)]; [lines] is what
    the file holds, when there is one that can be opened. *)
Definition new (strict_mode : bool) (lines : option (list string))
  : ToponymFilter :=
  let ambiguous_terms : gset string :=
    list_to_set
      ["fort"; "river"; "lake"; "mountain"; "hill"; "creek"; "island";
       "bay"; "valley"; "falls"; "rapids"; "portage"; "pass"; "bridge";
       "city"; "town"; "village"; "settlement"; "post"; "station"; "camp";
       "north"; "south"; "east"; "west"; "central"; "upper"; "lower";
       "new"; "old"; "great"; "little"; "big"; "small";
       "union"; "junction"; "center"; "centre"; "cross"; "corner";
       "point"; "head"; "mouth"; "landing"; "springs"; "wells"] in
  {| strict_mode := strict_mode;
     generic_descriptors :=
       list_to_set
         ["the river"; "the lake"; "the mountain"; "the hill"; "the valley";
          "the creek"; "the stream"; "the bay"; "the island";
          "the peninsula"; "the rapids"; "the falls"; "the portage";
          "the trail"; "the road"; "the bridge"; "the pass"; "the canyon";
          "the plateau"; "the ridge"; "the forest"; "the woods";
          "the prairie"; "the plains"; "the desert"; "the coast";
          "the shore"; "the beach"; "the harbor"; "the port";
          "the settlement"; "the village"; "the town"; "the city";
          "the fort"; "the post"; "the station"; "the camp";
          "the encampment"];
     relative_references :=
       list_to_set
         ["north"; "south"; "east"; "west"; "northeast"; "northwest";
          "southeast"; "southwest"; "northern"; "southern"; "eastern";
          "western"; "here"; "there"; "yonder"; "beyond"; "above"; "below";
          "upstream"; "downstream"; "upriver"; "downriver"];
     non_specific :=
       list_to_set
         ["the place"; "the area"; "the region"; "the district";
          "the territory"; "the country"; "the land"; "the locality";
          "the vicinity"; "the neighborhood"; "the site"; "the spot";
          "the location"; "the position"];
     ambiguous_abbreviations :=
       list_to_set
         ["N.Y."; "U.S."; "U.K."; "B.C."; "D.C."; "Calif."; "Penn.";
          "Mass."; "Conn."; "N.C."; "S.C."; "N.D."; "S.D."; "La."; "Ont.";
          "Que."; "N.W.T."; "Alta."; "Sask."; "Man."; "N.B."; "P.E.I.";
          "N.S."];
     blacklist :=
       list_to_set
         ["the"; "a"; "an"; "and"; "or"; "but"; "in"; "on"; "at"; "to";
          "from"; "up"; "down"; "out"; "over"; "under"; "about"; "after";
          "before"];
     person_indicators :=
       list_to_set
         ["mr."; "mrs."; "ms."; "miss"; "dr."; "prof."; "sir"; "lady";
          "lord"; "capt."; "captain"; "lt."; "col."; "gen."; "rev.";
          "father"; "brother"];
     ambiguous_terms :=
       match lines with
       | Some lines => _load_ambiguous_terms ambiguous_terms lines
       | None => ambiguous_terms
       end |}.

Definition _is_generic_geographic_term (term : string) : bool :=
  member term
    (list_to_set
       ["river"; "lake"; "mountain"; "hill"; "valley"; "creek"; "stream";
        "bay"; "island"; "rapids"; "falls"; "portage"; "trail"; "road";
        "bridge"; "pass"; "canyon"; "plateau"; "ridge"; "forest"; "woods";
        "prairie"; "plains"; "desert"; "coast"; "shore"; "beach"; "harbor";
        "settlement"; "village"; "town"; "city"; "fort"; "post"; "station"]).

Definition expansions : list (string * list string) :=
  [("N.Y.", ["new york"]);
   ("U.S.", ["united states"; "america"]);
   ("U.K.", ["united kingdom"; "britain"; "england"]);
   ("B.C.", ["british columbia"]);
   ("D.C.", ["district of columbia"; "washington"]);
   ("Calif.", ["california"]);
   ("Penn.", ["pennsylvania"]);
   ("Mass.", ["massachusetts"]);
   ("Ont.", ["ontario"]);
   ("Que.", ["quebec"]);
   ("Sask.", ["saskatchewan"]);
   ("Man.", ["manitoba"]);
   ("Alta.", ["alberta"])].

Fixpoint expansions_of (abbrev : string)
         (table : list (string * list string)) : option (list string) :=
  match table with
  | [] => None
  | (k, v) :: rest =>
      if String.eqb k abbrev then Some v else expansions_of abbrev rest
  end.

Definition _context_disambiguates_abbreviation (abbrev context : string)
  : bool :=
  let context_lower := py_lower context in
  match expansions_of abbrev expansions with
  | Some forms => existsb (fun expansion => py_contains expansion context_lower)
                          forms
  | None => false
  end.

Definition str_len (s : string) : Z := Z.of_nat (String.length s).

Definition person_verbs : list string :=
  [" said"; " stated"; " reported"; " wrote"; " argued"; " claimed"].

Definition _likely_person_name (self : ToponymFilter)
           (toponym context : string) : bool :=
  let context_lower := py_lower context in
  let toponym_lower := py_lower toponym in
  let pos := py_find toponym_lower context_lower in
  if pos =? -1 then false
  else
    let start := Z.max 0 (pos - 50) in
    let prefix := py_slice context_lower start pos in
    if existsb
         (fun indicator =>
            py_contains indicator prefix
            && (pos - start - py_rfind indicator prefix <? 20))
         (elements (person_indicators self))
    then true
    else
      let end_ := Z.min (str_len context) (pos + str_len toponym + 2) in
      if py_endswith "'s" (py_slice context pos end_)
      then existsb
             (fun indicator =>
                py_contains indicator (py_slice_from prefix (-30)))
             (elements (person_indicators self))
      else
        let suffix_end :=
          Z.min (str_len context) (pos + str_len toponym + 30) in
        let suffix :=
          py_slice context_lower (pos + str_len toponym) suffix_end in
        existsb (fun verb => py_contains verb suffix) person_verbs.

(** [if context and ...]: a context that is there and not empty. *)
Definition given (context : option string) : option string :=
  match context with
  | Some (String a r) => Some (String a r)
  | _ => None
  end.

Definition is_groundable (self : ToponymFilter) (toponym : string)
           (context : option string) : bool * option FilterReason :=
  let normalized := py_lower (py_strip toponym) in
  if member normalized (blacklist self) then (false, Some BLACKLISTED)
  else if str_len normalized <=? 1 then (false, Some TOO_SHORT)
  else if py_isdigit (py_replace "," "" (py_replace "." "" normalized))
  then (false, Some NUMERIC_ONLY)
  else if member normalized (generic_descriptors self)
  then (false, Some GENERIC_DESCRIPTOR)
  else if String.prefix "the " normalized
          && _is_generic_geographic_term (py_slice_from normalized 4)
  then (false, Some GENERIC_DESCRIPTOR)
  else if member normalized (relative_references self)
  then (false, Some RELATIVE_REFERENCE)
  else if member normalized (non_specific self)
  then (false, Some NON_SPECIFIC)
  else if (strict_mode self
           || match context with None => true | Some _ => false end)
          && member toponym (ambiguous_abbreviations self)
          && negb match given context with
                  | Some c => _context_disambiguates_abbreviation toponym c
                  | None => false
                  end
  then (false, Some AMBIGUOUS_ABBREVIATION)
  else if match given context with
          | Some c => _likely_person_name self toponym c
          | None => false
          end
  then (false, Some LIKELY_PERSON_NAME)
  else if member normalized (ambiguous_terms self)
  then (false, Some AMBIGUOUS_TERM)
  else (true, None).

(** An element of [filtered]. *)
Record Filtered : Type := {
  mention : LocationMention;
  reason : string;
  filtered_name : string     (* key ['name'] *)
}.

(** One turn of the loop of [filter_mentions]. *)
Definition filter_step (self : ToponymFilter)
           (acc : list LocationMention * list Filtered)
           (m : LocationMention) : list LocationMention * list Filtered :=
  let '(groundable, filtered) := acc in
  let context := text <$> head (contexts m) in
  let '(is_ok, why) := is_groundable self (name m) context in
  if is_ok then (groundable ++ [m], filtered)
  else (groundable,
        filtered ++ [ {| mention := m;
                         reason := match why with
                                   | Some r => value r
                                   | None => "unknown"
                                   end;
                         filtered_name := name m |} ]).

Definition filter_mentions (self : ToponymFilter)
           (mentions : list LocationMention)
  : list LocationMention * list Filtered :=
  fold_left (filter_step self) mentions ([], []).

(** [stats[reason].append(name)]: a reason that is new comes in last. *)
Fixpoint add_example (why name : string)
         (stats : list (string * list string))
  : list (string * list string) :=
  match stats with
  | [] => [(why, [name])]
  | (k, names) :: rest =>
      if String.eqb k why then (k, names ++ [name]) :: rest
      else (k, names) :: add_example why name rest
  end.

(** [get_filter_statistics]: for each reason its count and its first
    ten names. *)
Definition get_filter_statistics (filtered : list Filtered)
  : list (string * (Z * list string)) :=
  let stats :=
    fold_left (fun stats item =>
                 add_example (reason item) (filtered_name item) stats)
              filtered [] in
  map (fun '(why, names) => (why, (len names, py_take 10 names))) stats.

End Filter.

(* ===================================================================== *)
(** * One mention of [OSSGeoparser.geoparse_document] ([geoparser.py])    *)
(* ===================================================================== *)

Module Geoparser.
Import Py Evidence Clusterer Disambiguator.

(** An element of [results]: a serialized result, or the entry the
    [except] clause appends. *)
Inductive Entry : Type :=
| Serialized (r : DisambiguationResult)
| ErrorEntry (toponym : string) (why : string).



(** The body of the loop over the mentions, lines 181-216, when
    [disambiguate_all_clusters] is off: the entry appended to [results]
    and the increment of [multi_referent_count]. *)
Definition process_mention `{Runtime} (self : MultiContextDisambiguator)
           (mention : LocationMention)
           (source : option (list (string * json)))
           (w : World) : Entry * Z * World :=
  match disambiguate self mention source None w with
  | (Returns result, w') =>
      (Serialized result,
       if has_multiple_referents result then 1 else 0, w')
  | (Raises e, w') =>
      (ErrorEntry (name mention) ("Processing error: " +:+ exn_msg e),
       0, w')
  end.

(** Complete geoparse result for a document. *)
Record GeoparseResult : Type := {
  result_document_id : string;                  (* field [document_id] *)
  total_mentions : Z;
  filtered_mentions : Z;
  processed_mentions : Z;
  multi_referent_detected : Z;
  results : list Entry;
  filter_statistics : option (list (string * (Z * list string)))
}.

(** The orchestrator, as far as [geoparse_document] uses it once the
    file is parsed. *)
Record OSSGeoparser : Type := {
  disambiguator : MultiContextDisambiguator;
  filter_enabled : bool;
  filter_ : option Filter.ToponymFilter         (* attribute [filter] *)
}.

(** The body of the loop when [disambiguate_all_clusters] is on: the
    entries appended to [results] and the increment of
    [multi_referent_count]. *)
Definition process_mention_clusters `{Runtime}
           (self : MultiContextDisambiguator) (mention : LocationMention)
           (source : option (list (string * json)))
           (w : World) : list Entry * Z * World :=
  match disambiguate_all_clusters self mention source w with
  | (Returns cluster_results, w') =>
      (Serialized <$> cluster_results,
       if 1 <? len cluster_results then 1 else 0, w')
  | (Raises e, w') =>
      ([ErrorEntry (name mention) ("Processing error: " +:+ exn_msg e)],
       0, w')
  end.

(** One turn of the loop over the mentions, lines 178-216. *)
Definition mention_step `{Runtime} (self : OSSGeoparser)
           (source : option (list (string * json))) (all_clusters : bool)
           (acc : list Entry * Z * World) (mention : LocationMention)
  : list Entry * Z * World :=
  let '(results, multi_referent_count, w) := acc in
  if all_clusters then
    let '(entries, k, w') :=
      process_mention_clusters (disambiguator self) mention source w in
    (results ++ entries, multi_referent_count + k, w')
  else
    let '(entry, k, w') :=
      process_mention (disambiguator self) mention source w in
    (results ++ [entry], multi_referent_count + k, w').

(** Step 2, lines 160-172: the mentions to go on with, the number
    filtered out and the statistics. *)
Definition filter_stage (self : OSSGeoparser)
           (mentions : list LocationMention)
  : res (list LocationMention * Z
         * option (list (string * (Z * list string)))) :=
  if filter_enabled self then
    match filter_ self with
    | Some f =>
        let '(groundable, filtered) := Filter.filter_mentions f mentions in
        Returns (groundable, len filtered,
                 Some (Filter.get_filter_statistics filtered))
    | None => Raises (no_attribute JNull "filter_mentions")
    end
  else Returns (mentions, 0, None).

(** [geoparse_document] from the mentions the parser found in the file
    on: [document_id] is the base name of the path, [all_clusters] the
    argument [disambiguate_all_clusters]. *)
Definition geoparse_document `{Runtime} (self : OSSGeoparser)
           (document_id : string) (mentions : list LocationMention)
           (source : option (list (string * json))) (all_clusters : bool)
           (w : World) : res GeoparseResult * World :=
  match mentions with
  | [] =>
      (Returns {| result_document_id := document_id;
                  total_mentions := 0;
                  filtered_mentions := 0;
                  processed_mentions := 0;
                  multi_referent_detected := 0;
                  results := [];
                  filter_statistics := None |}, w)
  | _ =>
      match filter_stage self mentions with
      | Raises e => (Raises e, w)
      | Returns (mentions, filtered_count, filter_stats) =>
          let '(results, multi_referent_count, w') :=
            fold_left (mention_step self source all_clusters) mentions
                      ([], 0, w) in
          (Returns {| result_document_id := document_id;
                      total_mentions := len mentions + filtered_count;
                      filtered_mentions := filtered_count;
                      processed_mentions := len mentions;
                      multi_referent_detected := multi_referent_count;
                      results := results;
                      filter_statistics := filter_stats |}, w')
      end
  end.

(** The value under ['toponym']. *)
Definition entry_toponym (e : Entry) : string :=
  match e with
  | Serialized r => toponym r
  | ErrorEntry name _ => name
  end.

End Geoparser.

(* ===================================================================== *)
(** * Notions of the specification                                        *)
(* ===================================================================== *)

Module Spec.
Import Py Re Evidence Clusterer Disambiguator Geoparser.

(** The occurrences of all the clusters, end to end. *)
Definition members_of (clusters : list ContextCluster)
  : list LocationContext :=
  concat (map cluster_members clusters).

(** A cluster counts its members and has at least one. *)
Definition counted (c : ContextCluster) : Prop :=
  support c = len (cluster_members c) /\ cluster_members c <> [].

(** [key a < key b], the comparison a sort by [key] makes, and the order
    it leaves behind: [a] before [b] when [key b <= key a]. *)
Definition key_lt {A} (key : A -> Z) (a b : A) : bool := key a <? key b.

Definition above {A} (key : A -> Z) (a b : A) : Prop := key b <= key a.



(** The position of an occurrence has a bucket: ten times the position
    is a finite number, so that [round] gives an integer. *)
Definition has_bucket (c : LocationContext) : Prop :=
  exists bucket, py_round (position_in_doc c * 10.0)%float = Returns bucket.

(** A structured response reports confidence "low". *)
Definition reports_low (fields : list (string * json)) : Prop :=
  exists c, dict_lookup "confidence" fields = Some (JStr c)
            /\ py_lower c = "low".



(** [cluster_id] was not given, or is not negative. *)
Definition absent_or_natural (cluster_id : option Z) : Prop :=
  forall i, cluster_id = Some i -> 0 <= i.

(** The world after [extra] more requests to the reasoning service. *)
Definition after_requests (w : World) (extra : list string) : World :=
  {| llm_requests := llm_requests w ++ extra;
     zero_matches := zero_matches w |}.

(** The result [disambiguate] builds once the exchange with the
    reasoning service has given [out]. *)
Definition llm_result (mention : LocationMention)
           (source : option (list (string * json)))
           (clusters : list ContextCluster) (has_multiple : bool)
           (target : ContextCluster) (reps : list LocationContext)
           (candidates : list Candidate) (out : option Candidate * json)
  : DisambiguationResult :=
  {| toponym := name mention;
     selected_candidate := out.1;
     result_confidence :=
       _calculate_confidence (confidence target) (len candidates)
                             (len reps) has_multiple;
     reasoning := out.2;
     clusters_detected := len clusters;
     has_multiple_referents := has_multiple;
     all_candidates := candidates;
     contexts_used := text <$> reps;
     result_nearby := elements (cluster_nearby target);
     source_location := source |}.

(** No two occurrences of the list are equal field by field. *)
Definition unlike_members (l : list LocationContext) : Prop :=
  NoDup l
  /\ forall a b, a ∈ l -> b ∈ l -> context_eqb a b = true -> a = b.

(** The comparison [0.2 <= s / t] in binary64 agrees with the exact one,
    [t <= 5 s]: at one pair, along a row of [fuel] supports from [s] on,
    and over [fuel] totals from [t] on, each with the supports from 0 to
    the total. *)
Definition fifth_agrees (s t : Z) : bool :=
  Bool.eqb
    (PrimFloat.leb 0.2%float (float_of_Z s / float_of_Z t)%float)
    (t <=? 5 * s).

Fixpoint fifth_row (fuel : nat) (s t : Z) : bool :=
  match fuel with
  | O => true
  | S fuel' => fifth_agrees s t && fifth_row fuel' (s + 1) t
  end.

Fixpoint fifth_rows (fuel : nat) (t : Z) : bool :=
  match fuel with
  | O => true
  | S fuel' => fifth_row (Z.to_nat t + 1) 0 t && fifth_rows fuel' (t + 1)
  end.

(** *** Scenario A *)

(** A nearby set of two names, listed in either order. *)
Definition pair_of (swap : bool) (a b : string) : list string :=
  if swap then [b; a] else [a; b].

Definition in_ontario (t : string) (p : float) (swap : bool)
  : LocationContext :=
  {| text := t;
     nearby_locations := pair_of swap "Ontario" "Canada";
     position_in_doc := p |}.

Definition in_england (t : string) (p : float) (swap : bool)
  : LocationContext :=
  {| text := t;
     nearby_locations := pair_of swap "England" "Thames";
     position_in_doc := p |}.

(** "London", with the English occurrence at place [i] among the four
    Canadian ones. *)
Definition london (four : list LocationContext) (one : LocationContext)
           (i : nat) : LocationMention :=
  {| name := "London";
     mention_count := 5;
     contexts := take i four ++ one :: drop i four;
     document_id := "doc";
     all_doc_locations := ["London"; "Ontario"; "Canada"; "England"; "Thames"] |}.

Definition default_clusterer : ContextClusterer :=
  {| similarity_threshold := 0.3%float; min_cluster_size := 1 |}.

(** *** Collaborators for the examples *)

Definition dq : string := String "034"%char EmptyString.

Definition quoted (s : string) : string := dq +:+ s +:+ dq.

(** The text of a decision record. *)
Definition decision_text (selected_id confidence why : string) : string :=
  "{" +:+ quoted "selected_id" +:+ ": " +:+ quoted selected_id +:+ ", "
      +:+ quoted "confidence" +:+ ": " +:+ quoted confidence +:+ ", "
      +:+ quoted "reasoning" +:+ ": " +:+ quoted why +:+ "}".

(** What [json.loads] makes of it. *)
Definition decision_value (selected_id confidence why : string) : json :=
  JObj [("selected_id", JStr selected_id);
        ("confidence", JStr confidence);
        ("reasoning", JStr why)].

(** A runtime whose [json.loads] knows the texts of [table] and finds
    every other text malformed. *)
Definition table_runtime (table : list (string * json)) : Runtime :=
  {| json_loads := fun s =>
       match dict_lookup s table with
       | Some v => Returns v
       | None =>
           Raises (Exn JSONDecodeError
                       "Expecting value: line 1 column 1 (char 0)")
       end;
     py_repr := fun _ => "<value>";
     _build_multi_context_prompt := fun toponym _ _ _ _ _ =>
       "You are disambiguating the place name " +:+ toponym |}.

Definition candidate (id title admin1 : string) : Candidate :=
  [("id", JStr id); ("title", JStr title); ("admin1", JStr admin1)].

Definition london_on : Candidate := candidate "c1" "London" "Ontario".
Definition london_uk : Candidate := candidate "c2" "London" "England".

(** An engine with the default settings, a retriever that answers
    [retrieved] and a service whose [n]-th reply is [reply n]. *)
Definition engine (retrieved : res (list Candidate))
           (reply : nat -> res string) : MultiContextDisambiguator :=
  {| neo4j_get_candidates := fun _ _ => retrieved;
     llm_create := fun n _ _ => reply n;
     clusterer := default_clusterer;
     model := "openai/gpt-oss-120b";
     max_contexts_per_cluster := 3;
     max_candidates := 10;
     zero_match_tracker := false |}.

Definition fresh : World := {| llm_requests := []; zero_matches := [] |}.

(** "London" mentioned once. *)
Definition london_once : LocationMention :=
  {| name := "London";
     mention_count := 1;
     contexts := [in_ontario "He settled at London in 1826." 0.5%float false];
     document_id := "doc";
     all_doc_locations := ["London"; "Ontario"; "Canada"] |}.

(** "London" of scenario A, the English occurrence second. *)
Definition london_twice : LocationMention :=
  london [in_ontario "a" 0.1%float false; in_ontario "c" 0.5%float false;
          in_ontario "d" 0.7%float false; in_ontario "e" 0.9%float false]
         (in_england "b" 0.3%float false) 1.

(** Four mentions of a name in one paragraph: the parser gives each the
    text of the paragraph, its position and the same nearby names. *)
Definition same_paragraph : LocationContext :=
  in_ontario "London lies on the Thames; from London the road runs east."
             0.5%float false.

Definition four_alike : ContextCluster :=
  {| cluster_members :=
       [same_paragraph; same_paragraph; same_paragraph; same_paragraph];
     cluster_nearby := list_to_set (nearby_locations same_paragraph);
     support := 4;
     confidence := "high" |}.

(** The mention they make up. *)
Definition london_in_one_paragraph : LocationMention :=
  {| name := "London";
     mention_count := 4;
     contexts :=
       [same_paragraph; same_paragraph; same_paragraph; same_paragraph];
     document_id := "doc";
     all_doc_locations := ["London"; "Ontario"; "Canada"] |}.

(** *** Notions for the clusters *)

(** All the names listed near the occurrences of a list. *)
Definition nearby_names (l : list LocationContext) : gset string :=
  ⋃ (map (fun c => list_to_set (nearby_locations c)) l).

(** An occurrence with no name near it. *)
Definition bare (c : LocationContext) : Prop := nearby_locations c = [].

(** The nearby set of a cluster is made of the names near its members. *)
Definition gathers (c : ContextCluster) : Prop :=
  cluster_nearby c = nearby_names (cluster_members c).

(** A cluster of occurrences that have no nearby names, with an empty
    nearby set, or of occurrences that all have some. *)
Definition sorted_out (c : ContextCluster) : Prop :=
  (cluster_nearby c = ∅ /\ Forall bare (cluster_members c))
  \/ (cluster_nearby c <> ∅ /\ Forall (fun x => ~ bare x) (cluster_members c)).

(** How many clusters have an empty nearby set. *)
Definition empty_clusters (clusters : list ContextCluster) : nat :=
  length (filter (fun c => cluster_nearby c = ∅) clusters).

(** *** Notions for the text of a reply *)

(** The character [c] does not occur in [s]. *)
Fixpoint free_of (c : ascii) (s : string) : bool :=
  match s with
  | EmptyString => true
  | String a r => negb (Ascii.eqb a c) && free_of c r
  end.

Definition backtick : ascii := "`"%char.

(** [s] ends with [suffix]. *)
Fixpoint ends_with (suffix s : string) : bool :=
  String.eqb s suffix
  || match s with
     | EmptyString => false
     | String _ r => ends_with suffix r
     end.

(** *** Notions for the feature types *)

(** The classes that have labels of their own. *)
Definition known_class (c : string) : bool :=
  existsb (String.eqb c) ["P"; "A"; "H"; "T"; "L"; "S"].

Definition see_classification : string := " (see GeoNames classification)".

(** The class a label was written for. *)
Definition class_of_label (label : string) : option string :=
  if existsb (String.eqb label)
       ["CITY/TOWN (populated place)"; "CAPITAL CITY (national capital)";
        "POPULATED PLACE (city/town/village)"]
  then Some "P"
  else if existsb (String.eqb label)
       ["STATE/PROVINCE (first-level administrative division)";
        "COUNTY/DISTRICT (second-level administrative division)";
        "COUNTRY (independent political entity)";
        "ADMINISTRATIVE DIVISION"; "ADMINISTRATIVE AREA"]
  then Some "A"
  else if String.eqb label "WATER FEATURE (river, lake, ocean, etc.)"
  then Some "H"
  else if String.eqb label "TERRAIN FEATURE (mountain, valley, etc.)"
  then Some "T"
  else if String.eqb label "LANDSCAPE/REGION (park, forest, etc.)"
  then Some "L"
  else if String.eqb label "STRUCTURE/FACILITY (building, monument, etc.)"
  then Some "S"
  else None.

(** *** Notions for the co-occurrence network *)

(** The names listed near the occurrences of the mentions called [m],
    with their repetitions. *)
Definition listed_near (m : string) (mentions : list LocationMention)
  : list string :=
  mentions ≫= (fun mention =>
    if String.eqb (name mention) m
    then contexts mention ≫= nearby_locations
    else []).

(** How many times [n] is in [l]. *)
Definition times (n : string) (l : list string) : Z :=
  len (filter (fun x => x = n) l).

(** *** Notions for the zero-match tracker *)

(** The tracker after the zero matches of a log, oldest first. *)
Definition replay (log : list (string * option string))
  : Tracker.ZeroMatchTracker :=
  fold_left (fun self '(toponym, context) =>
               Tracker.record_zero_match self toponym context)
            log [].

(** The contexts recorded with [toponym], the absent and empty ones
    left out. *)
Definition contexts_of (toponym : string)
           (log : list (string * option string)) : list string :=
  log ≫= (fun '(t, c) =>
    match c with
    | Some (String a r) => if String.eqb t toponym then [String a r] else []
    | _ => []
    end).

(** How many records of the log are about [toponym]. *)
Definition records_of (toponym : string)
           (log : list (string * option string)) : Z :=
  len (filter (fun r => r.1 = toponym) log).

(** What one record makes of the entry of its name. *)
Definition recorded (context : option string) (d : Tracker.ZeroMatch) : Tracker.ZeroMatch :=
  {| Tracker.count := Tracker.count d + 1;
     Tracker.contexts :=
       match context with
       | Some (String a r) =>
           if len (Tracker.contexts d) <? 3
           then Tracker.contexts d ++ [Tracker.truncated (String a r)]
           else Tracker.contexts d
       | _ => Tracker.contexts d
       end |}.

(** The entry of a name after a log of zero matches. *)
Definition entry_after (t : string) (log : list (string * option string))
  : Tracker.ZeroMatch :=
  {| Tracker.count := records_of t log;
     Tracker.contexts := take 3 (Tracker.truncated <$> contexts_of t log) |}.

(** *** Notions for a document *)

(** The filter lets the mention through. *)
Definition passes (self : Filter.ToponymFilter) (m : LocationMention)
  : bool :=
  (Filter.is_groundable self (name m) (text <$> head (contexts m))).1.

(** The names a table of statistics counts, all reasons together. *)
Definition names_counted (stats : list (string * (Z * list string))) : Z :=
  foldr (fun row acc => row.2.1 + acc) 0 stats.

(** The mentions that [geoparse_document] goes on with. *)
Definition processed (self : OSSGeoparser) (mentions : list LocationMention)
  : list LocationMention :=
  if filter_enabled self
  then match filter_ self with
       | Some f => List.filter (passes f) mentions
       | None => []
       end
  else mentions.



(** *** Notions for a request *)

(** The result for a mention that has no occurrence. *)
Definition no_context_result (mention : LocationMention)
  : DisambiguationResult :=
  {| toponym := name mention;
     selected_candidate := None;
     result_confidence := "low";
     reasoning := JStr "No valid contexts found";
     clusters_detected := 0;
     has_multiple_referents := false;
     all_candidates := [];
     contexts_used := [];
     result_nearby := [];
     source_location := None |}.

(** The result when the retriever knows no candidate. *)
Definition no_candidate_result (mention : LocationMention)
           (clusters : list ContextCluster) (has_multiple : bool)
           (target : ContextCluster) (reps : list LocationContext)
  : DisambiguationResult :=
  {| toponym := name mention;
     selected_candidate := None;
     result_confidence := "low";
     reasoning := JStr "No candidates found in knowledge graph";
     clusters_detected := len clusters;
     has_multiple_referents := has_multiple;
     all_candidates := [];
     contexts_used := text <$> reps;
     result_nearby := elements (cluster_nearby target);
     source_location := None |}.

(** The world after one more zero match is recorded. *)
Definition after_zero_match (w : World) (toponym : string)
           (context : option string) : World :=
  {| llm_requests := llm_requests w;
     zero_matches := zero_matches w ++ [(toponym, context)] |}.

(** The engine [self] talking to another reasoning service. *)
Definition with_service (self : MultiContextDisambiguator)
           (service : nat -> string -> string -> res string)
  : MultiContextDisambiguator :=
  {| neo4j_get_candidates := neo4j_get_candidates self;
     llm_create := service;
     clusterer := clusterer self;
     model := model self;
     max_contexts_per_cluster := max_contexts_per_cluster self;
     max_candidates := max_candidates self;
     zero_match_tracker := zero_match_tracker self |}.



(** What a request comes to, stage by stage: the cluster aimed at, its
    representatives, the candidates, the exchange with the service. *)
Definition request_outcome `{Runtime} (self : MultiContextDisambiguator)
           (mention : LocationMention)
           (source : option (list (string * json)))
           (cluster_id : option Z) (w : World)
           (outcome : res DisambiguationResult * World) : Prop :=
  let clusters := cluster_contexts (clusterer self) mention in
  let has_multiple := (detect_multiple_referents (clusterer self) mention).1 in
  match target_of clusters cluster_id with
  | Raises e => outcome = (Raises e, w)
  | Returns None => outcome = (Returns (no_context_result mention), w)
  | Returns (Some target) =>
      match select_representative_contexts
              target (max_contexts_per_cluster self) with
      | Raises e => outcome = (Raises e, w)
      | Returns reps =>
          match neo4j_get_candidates self (name mention)
                                     (max_candidates self) with
          | Raises e => outcome = (Raises e, w)
          | Returns [] =>
              outcome
              = (Returns (no_candidate_result mention clusters has_multiple
                                              target reps),
                 if zero_match_tracker self
                 then after_zero_match w (name mention)
                                       (text <$> head reps)
                 else w)
          | Returns candidates =>
              exists out extra,
                (length extra <= 2)%nat
                /\ (forall c, out.1 = Some c -> c ∈ candidates)
                /\ outcome
                   = (Returns (llm_result mention source clusters
                                          has_multiple target reps
                                          candidates out),
                      after_requests w extra)
          end
      end
  end.

End Spec.

(* ===================================================================== *)
(** * Properties                                                          *)
(* ===================================================================== *)

Import Py Re Evidence Clusterer Disambiguator Geoparser Spec.

(** ** The Python operations at work *)

Example py_round_ties :
  (py_round 0.5%float, py_round 1.5%float, py_round 2.5%float,
   py_round (-2.5)%float, py_round (0.15 * 10)%float,
   py_round (0.449 * 10)%float)
  = (Returns 0, Returns 2, Returns 2, Returns (-2), Returns 2, Returns 4).
Proof. vm_compute. reflexivity. Qed.

Example py_round_not_finite :
  py_round (0 / 0)%float
  = Raises (Exn ValueError "cannot convert float NaN to integer").
Proof. vm_compute. reflexivity. Qed.

Example py_index_from_the_end :
  py_index [10; 20; 30] (-1) = Returns 30
  /\ py_index [10; 20; 30] 1 = Returns 20
  /\ py_index [10; 20; 30] (-4)
     = Raises (Exn IndexError "list index out of range").
Proof. repeat split. Qed.

Example py_split_fence :
  py_split "```" "before```json{}```after" = ["before"; "json{}"; "after"].
Proof. reflexivity. Qed.

Example extract_json_fenced :
  extract_json "Sure.
```json
{}
```
Done." = Returns "{}"
  /\ extract_json "  plain text" = Returns "  plain text".
Proof. split; reflexivity. Qed.

Example py_replace_all :
  py_replace "ab" "X" "cabababd" = "cXXXd".
Proof. reflexivity. Qed.

Example sort_desc_is_stable :
  sort_desc (key_lt fst) [(1, "a"); (2, "b"); (1, "c"); (2, "d")]
  = [(2, "b"); (2, "d"); (1, "a"); (1, "c")].
Proof. reflexivity. Qed.

Example py_eq_across_types :
  py_eq (JInt 0) (JBool false) = true
  /\ py_eq (JInt 1) (JFloat 1.0%float) = true
  /\ py_eq (JInt 0) (JStr "0") = false
  /\ py_eq (JNull) (JInt 0) = false.
Proof. repeat split; vm_compute; reflexivity. Qed.

Example similarity_of_half :
  _cluster_similarity {["Ontario"; "Canada"]} {["Ontario"]} = 0.5%float
  /\ _cluster_similarity ∅ ∅ = 1.0%float
  /\ _cluster_similarity ∅ {["Ontario"]} = 0.0%float.
Proof. repeat split; vm_compute; reflexivity. Qed.

(** ** The stable descending sort *)

Section SortFacts.
Context {A : Type} (lt : A -> A -> bool).

Lemma insert_desc_perm (x : A) (l : list A) : insert_desc lt x l ≡ₚ x :: l.
Proof.
  induction l as [|y l IH]; simpl; [reflexivity|].
  destruct (lt x y); [|reflexivity].
  rewrite IH. apply perm_swap.
Qed.

Lemma sort_desc_perm (l : list A) : sort_desc lt l ≡ₚ l.
Proof.
  induction l as [|x l IH]; simpl; [reflexivity|].
  rewrite insert_desc_perm. by rewrite IH.
Qed.

End SortFacts.

Section SortByKey.
Context {A : Type} (key : A -> Z).

Lemma sorted_map_above (f : A -> A) (l : list A) :
  (forall a, key (f a) = key a) ->
  StronglySorted (above key) l -> StronglySorted (above key) (map f l).
Proof.
  intros Hf. induction 1 as [|y l Hl IH Hy]; simpl; constructor; [exact IH|].
  apply Forall_map. eapply Forall_impl; [exact Hy|].
  unfold above. intros a Ha. simpl. by rewrite !Hf.
Qed.

Lemma insert_desc_sorted (x : A) (l : list A) :
  StronglySorted (above key) l ->
  StronglySorted (above key) (insert_desc (key_lt key) x l).
Proof.
  induction 1 as [|y l Hl IH Hy]; simpl.
  - repeat constructor.
  - unfold key_lt at 1. destruct (Z.ltb_spec (key x) (key y)) as [Hlt|Hge].
    + constructor; [exact IH|].
      rewrite insert_desc_perm. constructor; [unfold above; lia|exact Hy].
    + constructor; [by constructor|].
      constructor; [exact Hge|].
      eapply Forall_impl; [exact Hy|]. unfold above. intros; simpl in *; lia.
Qed.

Lemma sort_desc_sorted (l : list A) :
  StronglySorted (above key) (sort_desc (key_lt key) l).
Proof.
  induction l; simpl; [constructor|by apply insert_desc_sorted].
Qed.
End SortByKey.

(** ** Invariants of the clustering loop *)

Lemma members_of_app (l1 l2 : list ContextCluster) :
  members_of (l1 ++ l2) = members_of l1 ++ members_of l2.
Proof. unfold members_of. by rewrite map_app, concat_app. Qed.

Lemma members_of_perm (l1 l2 : list ContextCluster) :
  l1 ≡ₚ l2 -> members_of l1 ≡ₚ members_of l2.
Proof.
  unfold members_of. induction 1; simpl.
  - reflexivity.
  - by apply Permutation_app_head.
  - rewrite !app_assoc. apply Permutation_app_tail, Permutation_app_comm.
  - etransitivity; eassumption.
Qed.

Lemma members_of_alter (context : LocationContext) (s : gset string)
      (i : nat) (clusters : list ContextCluster) :
  (i < length clusters)%nat ->
  members_of (alter (add_to_cluster context s) i clusters)
  ≡ₚ members_of clusters ++ [context].
Proof.
  unfold members_of, alter.
  revert i. induction clusters as [|c clusters IH]; intros i Hi; simpl in Hi.
  - lia.
  - destruct i as [|i]; simpl.
    + rewrite <- !app_assoc. apply Permutation_app_head, Permutation_app_comm.
    + rewrite IH by lia. by rewrite app_assoc.
Qed.

Lemma best_step_index (self : ContextClusterer) (s : gset string)
      (clusters : list ContextCluster) (b : option nat) (f : float) (n : nat)
      (j : nat) :
  (forall k, b = Some k -> (k < n)%nat) ->
  (fold_left (best_step self s) clusters (b, f, n)).1.1 = Some j ->
  (j < n + length clusters)%nat.
Proof.
  revert b f n. induction clusters as [|c clusters IH]; intros b f n Hb; simpl.
  - intros Hj. specialize (Hb j Hj). lia.
  - destruct (PrimFloat.leb _ _ && PrimFloat.ltb _ _); intros Hj.
    + apply IH in Hj; [lia|]. intros k [= <-]. lia.
    + apply IH in Hj; [lia|]. intros k Hk. specialize (Hb k Hk). lia.
Qed.

Lemma best_cluster_index_lt (self : ContextClusterer) (s : gset string)
      (clusters : list ContextCluster) (i : nat) :
  best_cluster_index self s clusters = Some i -> (i < length clusters)%nat.
Proof.
  unfold best_cluster_index. intros Hi.
  by apply (best_step_index self s clusters None 0%float 0%nat i).
Qed.

Lemma place_context_members (self : ContextClusterer)
      (clusters : list ContextCluster) (context : LocationContext) :
  members_of (place_context self clusters context)
  ≡ₚ members_of clusters ++ [context].
Proof.
  unfold place_context.
  destruct (best_cluster_index _ _ _) as [i|] eqn:Hbest.
  - apply members_of_alter. eapply best_cluster_index_lt, Hbest.
  - rewrite members_of_app. unfold members_of at 2. simpl. reflexivity.
Qed.

Lemma place_context_counted (self : ContextClusterer)
      (clusters : list ContextCluster) (context : LocationContext) :
  Forall counted clusters ->
  Forall counted (place_context self clusters context).
Proof.
  intros Hall. unfold place_context.
  destruct (best_cluster_index _ _ _) as [i|].
  - apply Forall_alter; [exact Hall|].
    intros c _ [Hs Hne]. split; simpl.
    + unfold len in *. rewrite length_app. simpl. lia.
    + by destruct (cluster_members c).
  - apply Forall_app. split; [exact Hall|].
    repeat constructor. discriminate.
Qed.

Lemma fold_place_context (self : ContextClusterer)
      (l : list LocationContext) (clusters : list ContextCluster) :
  Forall counted clusters ->
  let out := fold_left (place_context self) l clusters in
  members_of out ≡ₚ members_of clusters ++ l /\ Forall counted out.
Proof.
  revert clusters. induction l as [|c l IH]; intros clusters Hall; simpl.
  - by rewrite app_nil_r.
  - destruct (IH (place_context self clusters c)) as [H1 H2].
    { by apply place_context_counted. }
    split; [|exact H2].
    rewrite H1, place_context_members. by rewrite <- app_assoc.
Qed.

Lemma members_of_assign (total : Z) (clusters : list ContextCluster) :
  members_of (map (assign_confidence total) clusters) = members_of clusters.
Proof.
  unfold members_of. rewrite map_map. reflexivity.
Qed.

Lemma cluster_contexts_counted (self : ContextClusterer)
      (mention : LocationMention) :
  Forall counted (cluster_contexts self mention).
Proof.
  unfold cluster_contexts.
  destruct (contexts mention) as [|c [|c' l]] eqn:E.
  - constructor.
  - repeat constructor. simpl. discriminate.
  - apply Forall_map.
    assert (Forall counted
              (sort_desc support_lt
                 (fold_left (place_context self) (c :: c' :: l) []))) as Hs.
    { rewrite sort_desc_perm. apply fold_place_context. constructor. }
    eapply Forall_impl; [exact Hs|]. intros x Hx. exact Hx.
Qed.

Lemma cluster_contexts_members (self : ContextClusterer)
      (mention : LocationMention) :
  members_of (cluster_contexts self mention) ≡ₚ contexts mention.
Proof.
  unfold cluster_contexts.
  destruct (contexts mention) as [|c [|c' l]] eqn:E.
  - reflexivity.
  - reflexivity.
  - rewrite members_of_assign.
    rewrite (members_of_perm _ _ (sort_desc_perm _ _)).
    by destruct (fold_place_context self (c :: c' :: l) []) as [-> _];
      [constructor|].
Qed.

(** C4: the clusters that [cluster_contexts] returns partition the
    occurrences of the mention: put end to end, the member lists are a
    rearrangement of [mention.contexts], so that every occurrence is in
    exactly one cluster, none twice and none left out; and no cluster is
    empty, each having as many members as its support says. *)
Theorem cluster_contexts_partition (self : ContextClusterer)
        (mention : LocationMention) :
  concat (map cluster_members (cluster_contexts self mention))
  ≡ₚ contexts mention
  /\ Forall (fun c => cluster_members c <> []
                      /\ support c = len (cluster_members c))
            (cluster_contexts self mention).
Proof.
  split; [apply cluster_contexts_members|].
  eapply Forall_impl; [apply cluster_contexts_counted|].
  intros c [Hsupport Hne]. by split.
Qed.

(** C10: a mention with exactly one occurrence gives exactly one
    cluster, which holds that occurrence, with support 1 and confidence
    "high". *)
Theorem single_occurrence_cluster (self : ContextClusterer)
        (mention : LocationMention) (only : LocationContext) :
  contexts mention = [only] ->
  exists c, cluster_contexts self mention = [c]
            /\ cluster_members c = [only]
            /\ support c = 1
            /\ confidence c = "high".
Proof.
  intros E. unfold cluster_contexts. rewrite E.
  eexists. split; [reflexivity|]. simpl. auto.
Qed.

Lemma single_occurrence_cluster_witness :
  contexts london_once = [in_ontario "He settled at London in 1826." 0.5%float false]
  /\ exists c, cluster_contexts default_clusterer london_once = [c]
               /\ cluster_members c
                  = [in_ontario "He settled at London in 1826." 0.5%float false]
               /\ support c = 1
               /\ confidence c = "high".
Proof.
  split; [reflexivity|].
  apply (single_occurrence_cluster default_clusterer london_once). reflexivity.
Defined.

(** ** Supports *)

Lemma sum_support_from (clusters : list ContextCluster) (acc : Z) :
  Forall counted clusters ->
  fold_left (fun acc c => acc + support c) clusters acc
  = acc + len (members_of clusters).
Proof.
  revert acc. induction clusters as [|c clusters IH]; intros acc Hall; simpl.
  - unfold len. simpl. lia.
  - inversion Hall as [|? ? [Hc _] Hrest]; subst.
    rewrite IH by assumption. unfold members_of, len in *. simpl.
    rewrite length_app. lia.
Qed.

Lemma sum_support_total (self : ContextClusterer) (mention : LocationMention) :
  sum_support (cluster_contexts self mention) = len (contexts mention).
Proof.
  unfold sum_support. rewrite sum_support_from by apply cluster_contexts_counted.
  unfold len.
  by rewrite (Permutation_length (cluster_contexts_members self mention)).
Qed.

Lemma cluster_contexts_sorted (self : ContextClusterer)
      (mention : LocationMention) :
  StronglySorted (above support) (cluster_contexts self mention).
Proof.
  unfold cluster_contexts.
  destruct (contexts mention) as [|c [|c' l]].
  - constructor.
  - repeat constructor.
  - apply (sorted_map_above support); [reflexivity|].
    apply (sort_desc_sorted support).
Qed.

(** ** A fifth, in binary64 and exactly *)

Lemma fifth_row_spec (fuel : nat) (s t x : Z) :
  fifth_row fuel s t = true -> s <= x < s + Z.of_nat fuel ->
  fifth_agrees x t = true.
Proof.
  revert s. induction fuel as [|fuel IH]; intros s Hrow Hx; [lia|].
  simpl in Hrow. apply andb_prop in Hrow as [Hs Hrest].
  destruct (Z.eq_dec x s) as [->|Hne]; [exact Hs|].
  apply (IH (s + 1)); [exact Hrest|lia].
Qed.

Lemma fifth_rows_spec (fuel : nat) (t0 t x : Z) :
  fifth_rows fuel t0 = true -> 0 <= t0 -> t0 <= t < t0 + Z.of_nat fuel ->
  0 <= x <= t -> fifth_agrees x t = true.
Proof.
  revert t0. induction fuel as [|fuel IH]; intros t0 Hrows H0 Ht Hx; [lia|].
  simpl in Hrows. apply andb_prop in Hrows as [Hrow Hrest].
  destruct (Z.eq_dec t t0) as [->|Hne].
  - apply (fifth_row_spec _ 0 _ _ Hrow). lia.
  - apply (IH (t0 + 1)); [exact Hrest|lia|lia|exact Hx].
Qed.

Lemma fifth_rows_1000 : fifth_rows 1000 1 = true.
Proof. vm_compute. reflexivity. Qed.

(** Up to a thousand occurrences, "at least 0.2" in binary64 is "at
    least a fifth". *)
Lemma fifth_exact (s t : Z) :
  1 <= t <= 1000 -> 0 <= s <= t ->
  PrimFloat.leb 0.2%float (float_of_Z s / float_of_Z t)%float = true
  <-> t <= 5 * s.
Proof.
  intros Ht Hs.
  pose proof (fifth_rows_spec 1000 1 t s fifth_rows_1000) as Hagree.
  unfold fifth_agrees in Hagree.
  specialize (Hagree ltac:(lia) ltac:(lia) Hs).
  apply Bool.eqb_prop in Hagree. rewrite Hagree. apply Z.leb_le.
Qed.

Lemma support_within (clusters : list ContextCluster) (c : ContextCluster) :
  Forall counted clusters -> c ∈ clusters ->
  0 <= support c <= sum_support clusters.
Proof.
  intros Hall Hc. unfold sum_support.
  induction Hall as [|c0 l [Hc0 _] Hl IH]; [by apply elem_of_nil in Hc|].
  simpl. rewrite !sum_support_from by assumption.
  rewrite sum_support_from in IH by assumption.
  apply elem_of_cons in Hc as [->|Hin]; unfold len in *; [lia|].
  specialize (IH Hin). lia.
Qed.

(** C5: [detect_multiple_referents] hands back the clusters of
    [cluster_contexts], and says True exactly when there is a second
    cluster, no later cluster has more support than it and the first has
    at least as much, and its support divided by the number of
    occurrences is at least 0.2 in binary64; up to a thousand
    occurrences that is: five times its support is at least the number
    of occurrences.  In scenario A ("London", five
    occurrences, four near Ontario and Canada and one near England and
    the Thames, in any order, threshold 0.3) there are two clusters, of
    support 4 with confidence "high" and of support 1, and the answer is
    True. *)
Theorem detect_multiple_referents_spec :
  (forall (self : ContextClusterer) (mention : LocationMention),
      (detect_multiple_referents self mention).2
      = cluster_contexts self mention
      /\ ((detect_multiple_referents self mention).1 = true <->
          exists first second rest,
            cluster_contexts self mention = first :: second :: rest
            /\ support second <= support first
            /\ Forall (fun c => support c <= support second) rest
            /\ PrimFloat.leb
                 0.2%float
                 (float_of_Z (support second)
                  / float_of_Z (len (contexts mention)))%float = true))
  /\ (forall (self : ContextClusterer) (mention : LocationMention),
         len (contexts mention) <= 1000 ->
         (detect_multiple_referents self mention).1 = true <->
         exists first second rest,
           cluster_contexts self mention = first :: second :: rest
           /\ len (contexts mention) <= 5 * support second)
  /\ (forall (t1 t2 t3 t4 t5 : string) (p1 p2 p3 p4 p5 : float)
             (s1 s2 s3 s4 s5 : bool) (i : nat),
         (i <= 4)%nat ->
         let mention :=
           london [in_ontario t1 p1 s1; in_ontario t2 p2 s2;
                   in_ontario t3 p3 s3; in_ontario t4 p4 s4]
                  (in_england t5 p5 s5) i in
         let out := detect_multiple_referents default_clusterer mention in
         map support out.2 = [4; 1]
         /\ map confidence out.2 = ["high"; "low"]
         /\ out.1 = true).
Proof.
  assert (forall (self : ContextClusterer) (mention : LocationMention),
             (detect_multiple_referents self mention).2
             = cluster_contexts self mention
             /\ ((detect_multiple_referents self mention).1 = true <->
                 exists first second rest,
                   cluster_contexts self mention = first :: second :: rest
                   /\ support second <= support first
                   /\ Forall (fun c => support c <= support second) rest
                   /\ PrimFloat.leb
                        0.2%float
                        (float_of_Z (support second)
                         / float_of_Z (len (contexts mention)))%float = true))
    as Hgeneral; [|split; [exact Hgeneral|split]].
  - intros self mention.
    pose proof (sum_support_total self mention) as Htotal.
    pose proof (cluster_contexts_sorted self mention) as Hsorted.
    unfold detect_multiple_referents.
    destruct (cluster_contexts self mention) as [|c0 [|c1 rest]] eqn:E;
      simpl; (split; [reflexivity|]).
    + split; [discriminate|]. intros (? & ? & ? & [=] & _).
    + split; [discriminate|]. intros (? & ? & ? & [=] & _).
    + rewrite Htotal. split.
      * intros Hflag. exists c0, c1, rest. split; [reflexivity|].
        inversion Hsorted as [|? ? Htail Hhead]; subst.
        inversion Htail as [|? ? _ Hsecond]; subst.
        inversion Hhead; subst. auto.
      * intros (a & b & r & [= <- <- <-] & _ & _ & Hflag). exact Hflag.
  - intros self mention Hsmall.
    destruct (Hgeneral self mention) as [_ Hiff]. rewrite Hiff. clear Hiff.
    pose proof (sum_support_total self mention) as Htotal.
    pose proof (cluster_contexts_counted self mention) as Hcounted.
    split.
    + intros (c0 & c1 & rest & E & _ & _ & Hfifth).
      exists c0, c1, rest. split; [exact E|].
      rewrite E in Htotal, Hcounted.
      destruct (support_within (c0 :: c1 :: rest) c1 Hcounted) as [H0 Hle];
        [apply list_elem_of_further, list_elem_of_here|].
      inversion Hcounted as [|? ? _ Htail]; subst.
      inversion Htail as [|? ? [Hs1 Hne1] _]; subst.
      assert (1 <= support c1).
      { unfold len in Hs1. destruct (cluster_members c1); [done|].
        simpl in Hs1. lia. }
      apply fifth_exact; [lia|lia|exact Hfifth].
    + intros (c0 & c1 & rest & E & Hfifth).
      pose proof (cluster_contexts_sorted self mention) as Hsorted.
      exists c0, c1, rest. split; [exact E|].
      rewrite E in Htotal, Hcounted, Hsorted.
      inversion Hsorted as [|? ? Htail Hhead]; subst.
      inversion Htail as [|? ? _ Hsecond]; subst.
      inversion Hhead; subst.
      split; [assumption|]. split; [assumption|].
      destruct (support_within (c0 :: c1 :: rest) c1 Hcounted) as [H0 Hle];
        [apply list_elem_of_further, list_elem_of_here|].
      inversion Hcounted as [|? ? _ Htail']; subst.
      inversion Htail' as [|? ? [Hs1 Hne1] _]; subst.
      assert (1 <= support c1).
      { unfold len in Hs1. destruct (cluster_members c1); [done|].
        simpl in Hs1. lia. }
      apply fifth_exact; [lia|lia|exact Hfifth].
  - intros t1 t2 t3 t4 t5 p1 p2 p3 p4 p5 s1 s2 s3 s4 s5 i Hi.
    do 5 (destruct i as [|i]; [destruct s1, s2, s3, s4, s5; vm_compute; auto|]).
    lia.
Qed.

(** Scenario A at one instance of C5. *)
Lemma detect_multiple_referents_spec_witness :
  let mention :=
    london [in_ontario "a" 0.1%float false; in_ontario "b" 0.2%float true;
            in_ontario "c" 0.6%float false; in_ontario "d" 0.9%float false]
           (in_england "e" 0.4%float false) 2 in
  (2 <= 4)%nat
  /\ map support (detect_multiple_referents default_clusterer mention).2
     = [4; 1]
  /\ (detect_multiple_referents default_clusterer mention).1 = true.
Proof.
  split; [lia|].
  pose proof (proj2 (proj2 detect_multiple_referents_spec)
                "a" "b" "c" "d" "e"
                0.1%float 0.2%float 0.6%float 0.9%float 0.4%float
                false true false false false 2%nat) as H.
  destruct H as (H1 & _ & H3); [lia|]. split; [exact H1|exact H3].
Defined.

(** ** Binary64 facts used by the score *)






(** What the two patterns count. *)
Example count_numbers_example :
  count_numbers "In 1885 the 7 men of 12345 left; 12a and 99 stayed" = 2%nat.
Proof. reflexivity. Qed.

Example count_capitalized_example :
  count_capitalized "London McDonald USA Fort Qu'Appelle A Bc9 Xy_ Zed" = 5%nat.
Proof. reflexivity. Qed.



(** ** The selector returns when every position has a bucket *)

Lemma diversity_pass_returns (max_contexts : Z)
      (scored : list (float * LocationContext))
      (selected : list LocationContext) (used : gset Z) :
  Forall (fun sc => has_bucket sc.2) scored ->
  exists out, diversity_pass max_contexts scored selected used = Returns out.
Proof.
  intros Hall. revert selected used.
  induction Hall as [|[sc ctx] scored [bucket Hb] _ IH]; intros selected used;
    simpl.
  - eauto.
  - destruct (len selected >=? max_contexts); [eauto|].
    simpl in Hb. rewrite Hb. simpl.
    destruct (negb _ || _); apply IH.
Qed.

Lemma select_returns (cluster : ContextCluster) (max_contexts : Z) :
  Forall has_bucket (cluster_members cluster) ->
  exists reps,
    select_representative_contexts cluster max_contexts = Returns reps.
Proof.
  intros Hall. unfold select_representative_contexts.
  destruct (len _ <=? _); [eauto|].
  destruct (diversity_pass_returns
              max_contexts
              (sort_desc score_lt
                 (map (fun ctx => (_context_informativeness_score ctx, ctx))
                      (cluster_members cluster)))
              [] ∅) as [[selected used] Hout].
  { rewrite sort_desc_perm. apply Forall_map.
    eapply Forall_impl; [exact Hall|]. auto. }
  rewrite Hout. simpl. eauto.
Qed.

Lemma cluster_members_subset (self : ContextClusterer)
      (mention : LocationMention) (c : ContextCluster) (ctx : LocationContext) :
  c ∈ cluster_contexts self mention -> ctx ∈ cluster_members c ->
  ctx ∈ contexts mention.
Proof.
  intros Hc Hctx. rewrite <- (cluster_contexts_members self mention).
  unfold members_of.
  apply list_elem_of_In, in_concat. exists (cluster_members c).
  split; [|by apply list_elem_of_In].
  apply in_map, list_elem_of_In, Hc.
Qed.

Lemma cluster_has_buckets (self : ContextClusterer)
      (mention : LocationMention) (c : ContextCluster) :
  Forall has_bucket (contexts mention) ->
  c ∈ cluster_contexts self mention ->
  Forall has_bucket (cluster_members c).
Proof.
  rewrite !Forall_forall. intros Hall Hc ctx Hctx.
  eapply Hall, cluster_members_subset; eassumption.
Qed.

Lemma cluster_contexts_nonempty (self : ContextClusterer)
      (mention : LocationMention) :
  contexts mention <> [] -> cluster_contexts self mention <> [].
Proof.
  intros Hne Hnil.
  pose proof (cluster_contexts_members self mention) as Hp.
  rewrite Hnil in Hp. simpl in Hp.
  apply Permutation_nil in Hp. congruence.
Qed.

(** ** The exchange with the reasoning service *)

Section EngineFacts.
Context `{Runtime} (self : MultiContextDisambiguator).

Lemma after_requests_nil (w : World) : after_requests w [] = w.
Proof. destruct w. unfold after_requests. simpl. by rewrite app_nil_r. Qed.

Lemma after_requests_cons (w : World) (p : string) (extra : list string) :
  after_requests (after_requests w [p]) extra = after_requests w (p :: extra).
Proof.
  unfold after_requests. simpl. by rewrite <- app_assoc.
Qed.

Lemma attempt_loop_step (candidates : list Candidate) (attempt : Z)
      (rest : list Z) (prompt : string) (w : World) :
  attempt_loop self candidates (attempt :: rest) prompt w
  = match llm_create self (length (llm_requests w)) (model self) prompt
          ≫= read_response candidates with
    | Returns decision => (Returns decision, after_requests w [prompt])
    | Raises e =>
        match exn_kind_of e with
        | JSONDecodeError =>
            if attempt <? max_retries - 1
            then attempt_loop self candidates rest (stricter prompt)
                              (after_requests w [prompt])
            else (Returns
                    (None,
                     JStr ("LLM response parsing failed: " +:+ exn_msg e)),
                  after_requests w [prompt])
        | _ =>
            (Returns (None, JStr ("LLM error: " +:+ exn_msg e)),
             after_requests w [prompt])
        end
    end.
Proof. reflexivity. Qed.



(** A low-confidence record selects nothing. *)
Lemma decide_selection_low (candidates : list Candidate)
      (fields : list (string * json)) :
  reports_low fields ->
  exists why, decide_selection candidates (JObj fields) = Returns (None, why).
Proof.
  intros (c & Hc & Hlow). unfold decide_selection, dict_get_default.
  rewrite Hc, Hlow. simpl.
  destruct (dict_get "selected_id" fields); eauto.
Qed.

(** A selection comes from a record that does not report "low" and
    names the identifier of the candidate selected. *)
Lemma decide_selection_some (candidates : list Candidate) (decision : json)
      (c : Candidate) (why : json) :
  decide_selection candidates decision = Returns (Some c, why) ->
  exists fields,
    decision = JObj fields
    /\ ~ reports_low fields
    /\ c ∈ candidates
    /\ py_eq (dict_get "id" c) (dict_get "selected_id" fields) = true.
Proof.
  unfold decide_selection.
  destruct decision as [| | | | |?|fields]; try discriminate.
  intros Hsel. exists fields. split; [reflexivity|].
  assert (reports_low fields ->
          exists why', decide_selection candidates (JObj fields)
                       = Returns (None, why')) as Hlow
      by apply decide_selection_low.
  split.
  - intros Hl. destruct (Hlow Hl) as [why' Hw].
    unfold decide_selection in Hw. rewrite Hw in Hsel. discriminate.
  - destruct (dict_get_default "confidence" _ fields); try discriminate.
    destruct (dict_get "selected_id" fields) eqn:Hid; try discriminate;
      destruct (String.eqb _ "low"); try discriminate;
      injection Hsel as Hfind _;
      apply find_some in Hfind; destruct Hfind as [Hin Heq];
      (split; [by apply list_elem_of_In|exact Heq]).
Qed.

(** The loop never raises; it asks the service at most once per
    attempt; and a selection is what some reply that parsed decided. *)
Lemma attempt_loop_run (candidates : list Candidate) (attempts : list Z)
      (prompt : string) (w : World) :
  exists out extra,
    attempt_loop self candidates attempts prompt w
    = (Returns out, after_requests w extra)
    /\ (length extra <= length attempts)%nat
    /\ (forall c, out.1 = Some c ->
          exists i p content decision,
            extra !! i = Some p
            /\ llm_create self (length (llm_requests w) + i)%nat
                          (model self) p = Returns content
            /\ parse_response content = Returns decision
            /\ decide_selection candidates decision = Returns out).
Proof.
  revert prompt w.
  induction attempts as [|attempt rest IH]; intros prompt w.
  - exists (None, JStr "Failed to get valid LLM response"), [].
    rewrite after_requests_nil. repeat split; [simpl; lia|discriminate].
  - rewrite attempt_loop_step.
    destruct (llm_create self (length (llm_requests w)) (model self) prompt)
      as [content|e0] eqn:Hreply; simpl.
    + change (Returns content ≫= read_response candidates)
        with (read_response candidates content).
      destruct (read_response candidates content) as [decision|e] eqn:Hread.
      * exists decision, [prompt]. repeat split; [simpl; lia|].
        intros c Hc. unfold read_response in Hread.
        destruct (parse_response content) as [d|?] eqn:Hparse;
          [|discriminate].
        exists 0%nat, prompt, content, d.
        rewrite Nat.add_0_r. repeat split; assumption.
      * destruct (exn_kind_of e);
          try (eexists (None, _), [prompt];
               repeat split; [simpl; lia|discriminate]).
        destruct (attempt <? max_retries - 1).
        -- destruct (IH (stricter prompt) (after_requests w [prompt]))
             as (out & extra & Hrun & Hlen & Hsel).
           exists out, (prompt :: extra).
           rewrite Hrun, after_requests_cons.
           repeat split; [simpl; lia|].
           intros c Hc. destruct (Hsel c Hc) as (i & p & ct & d & H1 & H2 & H3).
           exists (S i), p, ct, d. split; [exact H1|].
           split; [|exact H3].
           simpl in H2. rewrite length_app in H2. simpl in H2.
           by replace (length (llm_requests w) + S i)%nat
             with (length (llm_requests w) + 1 + i)%nat by lia.
        -- eexists (None, _), [prompt].
           repeat split; [simpl; lia|discriminate].
    + change (Raises e0 ≫= read_response candidates) with (@Raises (option Candidate * json) e0).
      destruct (exn_kind_of e0);
        try (eexists (None, _), [prompt];
             repeat split; [simpl; lia|discriminate]).
      destruct (attempt <? max_retries - 1).
      * destruct (IH (stricter prompt) (after_requests w [prompt]))
          as (out & extra & Hrun & Hlen & Hsel).
        exists out, (prompt :: extra).
        rewrite Hrun, after_requests_cons.
        repeat split; [simpl; lia|].
        intros c Hc. destruct (Hsel c Hc) as (i & p & ct & d & H1 & H2 & H3).
        exists (S i), p, ct, d. split; [exact H1|].
        split; [|exact H3].
        simpl in H2. rewrite length_app in H2. simpl in H2.
        by replace (length (llm_requests w) + S i)%nat
          with (length (llm_requests w) + 1 + i)%nat by lia.
      * eexists (None, _), [prompt].
        repeat split; [simpl; lia|discriminate].
Qed.





End EngineFacts.

(** ** The cluster that is disambiguated *)

Lemma py_index_natural {A} (l : list A) (i : Z) (a : A) :
  0 <= i -> l !! Z.to_nat i = Some a -> py_index l i = Returns a.
Proof.
  intros Hi Ha. unfold py_index.
  pose proof (lookup_lt_Some _ _ _ Ha) as Hlt.
  destruct (Z.ltb_spec i 0); [lia|].
  destruct (Z.leb_spec 0 i); [|lia].
  destruct (Z.ltb_spec i (Z.of_nat (length l))); [|lia].
  simpl. by rewrite Ha.
Qed.

Lemma target_of_absent (clusters : list ContextCluster) :
  target_of clusters None = Returns (head clusters).
Proof. reflexivity. Qed.

Lemma target_of_valid (clusters : list ContextCluster) (i : Z) :
  0 <= i < len clusters ->
  target_of clusters (Some i) = Returns (clusters !! Z.to_nat i)
  /\ is_Some (clusters !! Z.to_nat i).
Proof.
  intros [H0 Hlt]. unfold target_of, len in *.
  destruct (Z.ltb_spec i (Z.of_nat (length clusters))); [|lia].
  destruct (lookup_lt_is_Some_2 clusters (Z.to_nat i)) as [c Hc]; [lia|].
  rewrite (py_index_natural _ _ _ H0 Hc), Hc. simpl. eauto.
Qed.

Lemma target_of_beyond (clusters : list ContextCluster) (i : Z) :
  len clusters <= i ->
  target_of clusters (Some i) = Returns (head clusters).
Proof.
  intros Hge. unfold target_of.
  by destruct (Z.ltb_spec i (len clusters)); [lia|].
Qed.

Lemma target_of_some (clusters : list ContextCluster) (cluster_id : option Z) :
  clusters <> [] -> absent_or_natural cluster_id ->
  exists target,
    target_of clusters cluster_id = Returns (Some target)
    /\ target ∈ clusters.
Proof.
  intros Hne Hid.
  assert (exists c, head clusters = Some c /\ c ∈ clusters) as (c0 & Hc0 & Hin0).
  { destruct clusters as [|c ?]; [done|]. exists c. split; [done|].
    apply list_elem_of_here. }
  destruct cluster_id as [i|];
    [|by exists c0; rewrite target_of_absent, Hc0].
  specialize (Hid i eq_refl).
  destruct (Z.lt_ge_cases i (len clusters)) as [Hlt|Hge].
  - destruct (target_of_valid clusters i) as [Ht [c Hc]]; [lia|].
    exists c. rewrite Ht, Hc. split; [done|].
    by eapply list_elem_of_lookup_2.
  - exists c0. by rewrite target_of_beyond, Hc0.
Qed.

(** ** One disambiguation request *)


Section DisambiguateFacts.
Context `{Runtime} (self : MultiContextDisambiguator).

Ltac unfold_request :=
  unfold disambiguate, _disambiguate_with_llm;
  unfold mbind, M_bind, lift, mret, M_ret.


(** A candidate in the result was selected by a reply of the service
    to this request that parsed. *)
Lemma disambiguate_selected (mention : LocationMention)
      (source : option (list (string * json))) (cluster_id : option Z)
      (w w' : World) (r : DisambiguationResult) (c : Candidate) :
  disambiguate self mention source cluster_id w = (Returns r, w') ->
  selected_candidate r = Some c ->
  exists candidates n p content decision,
    (length (llm_requests w) <= n)%nat
    /\ llm_requests w' !! n = Some p
    /\ llm_create self n (model self) p = Returns content
    /\ parse_response content = Returns decision
    /\ decide_selection candidates decision = Returns (Some c, reasoning r).
Proof.
  unfold_request.
  destruct (detect_multiple_referents _ _) as [has_multiple ?].
  destruct (target_of _ _) as [[target|]|]; [| |discriminate].
  2:{ intros [= <- <-]. discriminate. }
  destruct (select_representative_contexts _ _) as [reps|]; [|discriminate].
  destruct (neo4j_get_candidates _ _ _) as [candidates|]; [|discriminate].
  destruct candidates as [|c0 candidates].
  { destruct (zero_match_tracker self); intros [= <- <-]; discriminate. }
  destruct (attempt_loop_run
              self (c0 :: candidates) (py_range max_retries)
              (_build_multi_context_prompt
                 (name mention) reps (c0 :: candidates)
                 (elements (cluster_nearby target)) source
                 (confidence target)) w)
    as ([sel why] & extra & Hrun & _ & Hsel).
  rewrite Hrun. intros [= <- <-]. simpl. intros ->.
  destruct (Hsel c eq_refl) as (i & p & content & decision & H1 & H2 & H3 & H4).
  exists (c0 :: candidates), (length (llm_requests w) + i)%nat, p, content,
         decision.
  split; [lia|]. split; [|by repeat split].
  simpl. rewrite lookup_app_r by lia.
  by replace (length (llm_requests w) + i - length (llm_requests w))%nat
    with i by lia.
Qed.



End DisambiguateFacts.

(** ** Precision first *)

(** C1: when every reply of the reasoning service to a request that
    parses as a structured record reports confidence "low" (in any
    letter case), the result of the request has no selected candidate,
    whatever identifier the record names. *)
Theorem low_confidence_never_selected {R : Runtime}
        (self : MultiContextDisambiguator) (mention : LocationMention)
        (source : option (list (string * json))) (cluster_id : option Z)
        (w w' : World) (r : DisambiguationResult) :
  disambiguate self mention source cluster_id w = (Returns r, w') ->
  (forall n prompt content fields,
      (length (llm_requests w) <= n)%nat ->
      llm_requests w' !! n = Some prompt ->
      llm_create self n (model self) prompt = Returns content ->
      parse_response content = Returns (JObj fields) ->
      reports_low fields) ->
  selected_candidate r = None.
Proof.
  intros Hrun Hlow.
  destruct (selected_candidate r) as [c|] eqn:Hsel; [|reflexivity].
  destruct (disambiguate_selected self mention source cluster_id w w' r c
                                  Hrun Hsel)
    as (candidates & n & p & content & decision
        & Hn & Hp & Hreply & Hparse & Hdecide).
  apply decide_selection_some in Hdecide as (fields & -> & Hnot & _).
  exfalso. apply Hnot. by eapply Hlow.
Qed.

(** Scenario C: the service names "c2", which is in the list, with
    confidence "low". *)
Lemma low_confidence_never_selected_witness :
  let text := decision_text "c2" "low" "plausible but uncertain" in
  let R := table_runtime
             [(text, decision_value "c2" "low" "plausible but uncertain")] in
  let self := engine (Returns [london_on; london_uk])
                     (fun _ => Returns text) in
  exists r w',
    @disambiguate R self london_once None None fresh = (Returns r, w')
    /\ all_candidates r = [london_on; london_uk]
    /\ result_confidence r = "high"
    /\ selected_candidate r = None.
Proof.
  intros text R self. eexists _, _.
  split; [vm_compute; reflexivity|].
  split; [reflexivity|]. split; [reflexivity|].
  eapply (@low_confidence_never_selected R self london_once None None fresh).
  - vm_compute. reflexivity.
  - intros n prompt content fields _ _ Hreply Hparse.
    injection Hreply as <-. vm_compute in Hparse. injection Hparse as <-.
    exists "low". split; reflexivity.
Defined.

(** ** The retry bound *)




(** ** Failures of the collaborators *)




(** ** An identifier that no candidate has *)




(** ** The cluster index *)

(** C9 at cluster index -1, scenario A: the clusters have support 4 and
    1; the guard [cluster_id < len(clusters)] lets -1 through and the
    request is about the last cluster, the English one, not about the
    largest; at -3 the request raises IndexError. *)
Theorem negative_cluster_id_targets_last :
  let R := table_runtime [] in
  let self := engine (Returns [london_on; london_uk])
                     (fun _ => Returns "London, Ontario seems right.") in
  let clusters := cluster_contexts default_clusterer london_twice in
  map support clusters = [4; 1]
  /\ target_of clusters (Some (-1)) = Returns (clusters !! 1%nat)
  /\ target_of clusters (Some (-1)) <> Returns (head clusters)
  /\ (exists r w',
         @disambiguate R self london_twice None (Some (-1)) fresh
         = (Returns r, w')
         /\ contexts_used r = ["b"]
         /\ result_nearby r = ["England"; "Thames"])
  /\ (exists r w',
         @disambiguate R self london_twice None None fresh = (Returns r, w')
         /\ contexts_used r = ["a"; "c"; "d"]
         /\ result_nearby r = ["Ontario"; "Canada"])
  /\ (exists e,
         @disambiguate R self london_twice None (Some (-3)) fresh
         = (Raises e, fresh)
         /\ exn_kind_of e = IndexError).
Proof.
  intros R self clusters.
  split; [vm_compute; reflexivity|].
  split; [vm_compute; reflexivity|].
  split; [vm_compute; discriminate|].
  split; [eexists _, _; split; [vm_compute; reflexivity|split; reflexivity]|].
  split; [eexists _, _; split; [vm_compute; reflexivity|split; reflexivity]|].
  eexists. split; [vm_compute; reflexivity|reflexivity].
Qed.

(** ** The selector on occurrences that are unlike each other *)

Lemma float_eqb_refl (x : float) :
  Prim2SF x <> S754_nan -> PrimFloat.eqb x x = true.
Proof.
  intros Hx. rewrite FloatAxioms.eqb_spec. unfold SFeqb, SFcompare.
  destruct (Prim2SF x) as [s|s| |s m e]; [reflexivity|by destruct s|done|].
  destruct s; rewrite Z.compare_refl; simpl;
    by rewrite ?Pos.compare_cont_refl.
Qed.

Lemma str_list_eqb_refl (l : list string) : str_list_eqb l l = true.
Proof. induction l; simpl; [done|]. by rewrite String.eqb_refl. Qed.

Lemma context_eqb_refl (c : LocationContext) :
  has_bucket c -> context_eqb c c = true.
Proof.
  intros [bucket Hb]. unfold context_eqb.
  rewrite String.eqb_refl, str_list_eqb_refl. simpl.
  apply float_eqb_refl. intros Hnan.
  unfold py_round in Hb. rewrite mul_spec, Hnan in Hb. discriminate.
Qed.

Lemma context_in_app (c : LocationContext) (l k : list LocationContext) :
  context_in c (l ++ k) = context_in c l || context_in c k.
Proof. apply existsb_app. Qed.

Lemma context_in_elem (c : LocationContext) (l : list LocationContext) :
  context_in c l = true -> exists x, x ∈ l /\ context_eqb c x = true.
Proof.
  unfold context_in. rewrite existsb_exists.
  intros (x & Hin & Heq). exists x. by rewrite list_elem_of_In.
Qed.

(** The first loop selects, in order, some of the occurrences it is
    given, and no more than [max_contexts] in all. *)
Lemma diversity_pass_spec (max_contexts : Z)
      (scored : list (float * LocationContext))
      (selected selected' : list LocationContext) (used used' : gset Z) :
  diversity_pass max_contexts scored selected used
  = Returns (selected', used') ->
  exists extra,
    selected' = selected ++ extra
    /\ extra `sublist_of` scored.*2
    /\ (len selected <= max_contexts -> len selected' <= max_contexts).
Proof.
  revert selected used.
  induction scored as [|[sc ctx] scored IH]; intros selected used; simpl.
  - intros [= <- <-]. exists []. by rewrite app_nil_r.
  - destruct (Z.geb_spec (len selected) max_contexts) as [Hfull|Hroom].
    { intros [= <- <-]. exists []. rewrite app_nil_r.
      split; [done|]. split; [apply sublist_nil_l|done]. }
    destruct (py_round _) as [bucket|]; [|discriminate]. simpl.
    destruct (negb _ || _); intros Hrest; apply IH in Hrest
      as (extra & -> & Hsub & Hlen).
    + exists (ctx :: extra). rewrite <- app_assoc. split; [done|].
      split; [by apply sublist_skip|].
      intros _. rewrite app_assoc. apply Hlen.
      unfold len in *. rewrite length_app. simpl. lia.
    + exists extra. split; [done|]. split; [by apply sublist_cons|done].
Qed.

(** The second loop adds occurrences it is given, none that is already
    selected, up to [max_contexts]; it stops short of [max_contexts]
    only when every occurrence it was given is [in selected]. *)
Lemma fill_pass_spec (max_contexts : Z)
      (scored : list (float * LocationContext))
      (selected : list LocationContext) :
  Forall (fun sc => has_bucket sc.2) scored ->
  exists extra,
    fill_pass max_contexts scored selected = selected ++ extra
    /\ (forall x, x ∈ extra -> x ∈ scored.*2)
    /\ (len selected <= max_contexts ->
        len (selected ++ extra) <= max_contexts)
    /\ (NoDup selected -> NoDup (selected ++ extra))
    /\ (max_contexts <= len (selected ++ extra)
        \/ forall x, x ∈ scored.*2 ->
                     context_in x (selected ++ extra) = true).
Proof.
  intros Hall. revert selected.
  induction Hall as [|[sc ctx] scored Hctx _ IH]; intros selected; simpl.
  - exists []. rewrite app_nil_r.
    split; [done|]. split; [intros x Hx; by apply elem_of_nil in Hx|].
    split; [done|]. split; [done|].
    right. intros x Hx. by apply elem_of_nil in Hx.
  - destruct (Z.geb_spec (len selected) max_contexts) as [Hfull|Hroom].
    { exists []. rewrite app_nil_r.
      split; [done|]. split; [intros x Hx; by apply elem_of_nil in Hx|].
      split; [done|]. split; [done|]. left. lia. }
    simpl in Hctx. pose proof (context_eqb_refl ctx Hctx) as Hrefl.
    destruct (context_in ctx selected) eqn:Hin; simpl.
    + destruct (IH selected) as (extra & -> & Hsub & Hlen & Hnodup & Hend).
      exists extra. split; [done|].
      split; [intros x Hx; apply list_elem_of_further; auto|].
      split; [done|]. split; [done|].
      destruct Hend as [Hk|Hall']; [by left|right].
      intros x Hx. apply elem_of_cons in Hx as [->|Hx]; [|auto].
      by rewrite context_in_app, Hin.
    + destruct (IH (selected ++ [ctx]))
        as (extra & -> & Hsub & Hlen & Hnodup & Hend).
      exists (ctx :: extra).
      replace (selected ++ ctx :: extra) with ((selected ++ [ctx]) ++ extra)
        by by rewrite <- app_assoc.
      split; [done|]. split; [|split; [|split]].
      * intros x Hx. apply elem_of_cons in Hx as [->|Hx];
          [apply list_elem_of_here|apply list_elem_of_further; auto].
      * intros _. apply Hlen. unfold len in *. rewrite length_app. simpl. lia.
      * intros Hsel. apply Hnodup. apply NoDup_app. split; [done|].
        split; [|apply NoDup_singleton].
        intros x Hx Hx'. apply list_elem_of_singleton in Hx' as ->.
        assert (context_in ctx selected = true) as Hyes; [|congruence].
        unfold context_in. apply existsb_exists. exists ctx.
        by rewrite <- list_elem_of_In.
      * destruct Hend as [Hk|Hall']; [by left|right].
        intros x Hx. apply elem_of_cons in Hx as [->|Hx]; [|auto].
        rewrite !context_in_app. apply orb_true_iff. left.
        apply orb_true_iff. right.
        unfold context_in. simpl. by rewrite Hrefl.
Qed.

Lemma scored_contexts (l : list LocationContext) :
  (map (fun ctx => (_context_informativeness_score ctx, ctx)) l).*2 = l.
Proof. induction l as [|c l IH]; [done|]. simpl. f_equal. exact IH. Qed.

(** The selector on a cluster no two occurrences of which are equal
    field by field, and whose positions have buckets: with
    [max_contexts] at least 1 it returns exactly
    min(max_contexts, cluster size) occurrences of the cluster, none of
    them twice. *)
Theorem select_unlike_exact (cluster : ContextCluster) (max_contexts : Z) :
  1 <= max_contexts ->
  unlike_members (cluster_members cluster) ->
  Forall has_bucket (cluster_members cluster) ->
  exists reps,
    select_representative_contexts cluster max_contexts = Returns reps
    /\ len reps = Z.min max_contexts (len (cluster_members cluster))
    /\ NoDup reps
    /\ (forall x, x ∈ reps -> x ∈ cluster_members cluster).
Proof.
  intros Hk [Hnodup Hunlike] Hbuckets.
  unfold select_representative_contexts.
  destruct (Z.leb_spec (len (cluster_members cluster)) max_contexts)
    as [Hfew|Hmany].
  { exists (cluster_members cluster). repeat split; [lia|done|done]. }
  set (scored := sort_desc score_lt
                   (map (fun ctx => (_context_informativeness_score ctx, ctx))
                        (cluster_members cluster))).
  assert (scored.*2 ≡ₚ cluster_members cluster) as Hperm.
  { unfold scored. by rewrite sort_desc_perm, scored_contexts. }
  assert (Forall (fun sc => has_bucket sc.2) scored) as Hscored.
  { assert (Forall has_bucket scored.*2) as Hb2 by by rewrite Hperm.
    apply (proj1 (Forall_fmap snd has_bucket scored)) in Hb2. exact Hb2. }
  destruct (diversity_pass_returns max_contexts scored [] ∅ Hscored)
    as [[selected used] Hfirst].
  rewrite Hfirst. simpl.
  apply diversity_pass_spec in Hfirst as (extra0 & -> & Hsub0 & Hlen0).
  simpl in *.
  destruct (fill_pass_spec max_contexts scored extra0 Hscored)
    as (extra & -> & Hsub & Hlen & Hnd & Hend).
  assert (NoDup scored.*2) as Hnodup' by by rewrite Hperm.
  assert (NoDup extra0) as Hnd0 by by eapply sublist_NoDup.
  assert (forall x, x ∈ extra0 ++ extra -> x ∈ cluster_members cluster)
    as Hmembers.
  { intros x Hx. rewrite <- Hperm. apply elem_of_app in Hx as [Hx|Hx]; [|auto].
    by eapply elem_of_sublist. }
  assert (len (extra0 ++ extra) = max_contexts) as Hexact.
  { assert (len (extra0 ++ extra) <= max_contexts)
      by (apply Hlen, Hlen0; unfold len; simpl; lia).
    destruct Hend as [Hge|Hall]; [lia|]. exfalso.
    assert (cluster_members cluster ⊆+ extra0 ++ extra) as Hincl.
    { apply NoDup_submseteq; [exact Hnodup|]. intros x Hx.
      rewrite <- Hperm in Hx.
      destruct (context_in_elem _ _ (Hall x Hx)) as (y & Hy & Heq).
      rewrite Hperm in Hx.
      by rewrite (Hunlike x y Hx (Hmembers y Hy) Heq). }
    apply submseteq_length in Hincl. unfold len in *. lia. }
  exists (py_take max_contexts (extra0 ++ extra)).
  assert (py_take max_contexts (extra0 ++ extra) = extra0 ++ extra) as ->.
  { unfold py_take. destruct (Z.ltb_spec max_contexts 0); [lia|].
    apply firstn_all2. unfold len in Hexact. lia. }
  repeat split; [lia|by apply Hnd|exact Hmembers].
Qed.

Lemma select_unlike_exact_witness :
  exists reps,
    select_representative_contexts
      {| cluster_members :=
           [in_ontario "a" 0.1%float false; in_ontario "c" 0.5%float false;
            in_ontario "d" 0.5%float false; in_ontario "e" 0.9%float false];
         cluster_nearby := {["Ontario"; "Canada"]};
         support := 4;
         confidence := "high" |} 3 = Returns reps
    /\ len reps = 3.
Proof.
  destruct (select_unlike_exact
              {| cluster_members :=
                   [in_ontario "a" 0.1%float false;
                    in_ontario "c" 0.5%float false;
                    in_ontario "d" 0.5%float false;
                    in_ontario "e" 0.9%float false];
                 cluster_nearby := {["Ontario"; "Canada"]};
                 support := 4;
                 confidence := "high" |} 3) as (reps & Hrun & Hlen & _).
  - lia.
  - split.
    + simpl. unfold in_ontario.
      repeat (apply NoDup_cons_2;
              [intros Hx;
               repeat (apply elem_of_cons in Hx as [Hx|Hx]; [discriminate|]);
               by apply elem_of_nil in Hx|]).
      apply NoDup_nil_2.
    + intros a b Ha Hb. simpl in Ha, Hb.
      repeat (apply elem_of_cons in Ha as [->|Ha]);
        try (by apply elem_of_nil in Ha);
        repeat (apply elem_of_cons in Hb as [->|Hb]);
        try (by apply elem_of_nil in Hb);
        vm_compute; congruence.
  - repeat constructor; eexists; vm_compute; reflexivity.
  - exists reps. split; [exact Hrun|]. rewrite Hlen. reflexivity.
Defined.

(** ** The selector on occurrences that are alike *)

(** C6 at a cluster of four occurrences that are alike (four mentions in
    one paragraph) and [max_contexts] 3: the second loop finds each of
    the other three already [in selected], and one occurrence is
    returned where min(3, 4) = 3 are due.  The cluster is the one
    [cluster_contexts] makes of the mention, and a request about the
    mention shows the service that one context. *)
Theorem select_alike_returns_one :
  let R := table_runtime [] in
  let self := engine (Returns [london_on; london_uk])
                     (fun _ => Returns "London, Ontario seems right.") in
  len (cluster_members four_alike) = 4
  /\ select_representative_contexts four_alike 3 = Returns [same_paragraph]
  /\ select_representative_contexts four_alike 4
     = Returns [same_paragraph; same_paragraph; same_paragraph; same_paragraph]
  /\ cluster_contexts default_clusterer london_in_one_paragraph = [four_alike]
  /\ exists r w',
      @disambiguate R self london_in_one_paragraph None None fresh
      = (Returns r, w')
      /\ contexts_used r = [text same_paragraph].
Proof.
  intros R self.
  repeat (split; [vm_compute; reflexivity|]).
  eexists _, _. split; [vm_compute; reflexivity|reflexivity].
Qed.

(* ===================================================================== *)
(** * Further properties of the clusterer                                 *)
(* ===================================================================== *)

(** The Jaccard similarity does not depend on the order of its two
    sets. *)
Theorem similarity_symmetric (set1 set2 : gset string) :
  _cluster_similarity set1 set2 = _cluster_similarity set2 set1.
Proof.
  unfold _cluster_similarity.
  rewrite (andb_comm (bool_decide (set1 = ∅))).
  rewrite (orb_comm (bool_decide (set1 = ∅))).
  assert (set1 ∩ set2 = set2 ∩ set1) as ->
      by apply leibniz_equiv, (comm (∩)).
  assert (set1 ∪ set2 = set2 ∪ set1) as ->
      by apply leibniz_equiv, (comm (∪)).
  reflexivity.
Qed.

(** The clusters come out by support, largest first: no cluster has
    more support than one before it, so the first is a largest. *)
Theorem clusters_by_support_descending (self : ContextClusterer)
        (mention : LocationMention) (i j : nat) (a b : ContextCluster) :
  (i < j)%nat ->
  cluster_contexts self mention !! i = Some a ->
  cluster_contexts self mention !! j = Some b ->
  support b <= support a.
Proof.
  intros Hij Ha Hb.
  pose proof (cluster_contexts_sorted self mention) as Hsorted.
  revert i j Hij Ha Hb.
  induction Hsorted as [|c l _ IH Hc]; intros i j Hij Ha Hb; [done|].
  destruct j as [|j]; [lia|]. simpl in Hb.
  destruct i as [|i]; simpl in Ha.
  - injection Ha as ->. rewrite Forall_forall in Hc. apply Hc.
    by eapply list_elem_of_lookup_2.
  - apply (IH i j); [lia|done..].
Qed.

Lemma clusters_by_support_descending_witness :
  exists a b,
    cluster_contexts default_clusterer london_twice !! 0%nat = Some a
    /\ cluster_contexts default_clusterer london_twice !! 1%nat = Some b
    /\ support a = 4 /\ support b = 1 /\ support b <= support a.
Proof.
  eexists _, _. split; [vm_compute; reflexivity|].
  split; [vm_compute; reflexivity|].
  split; [reflexivity|]. split; [reflexivity|].
  eapply (clusters_by_support_descending default_clusterer london_twice 0 1).
  - lia.
  - vm_compute. reflexivity.
  - vm_compute. reflexivity.
Defined.

(** The total that [detect_multiple_referents] divides by, the sum of
    the supports, is the number of occurrences of the mention. *)
Theorem supports_sum_to_occurrences (self : ContextClusterer)
        (mention : LocationMention) :
  sum_support (detect_multiple_referents self mention).2
  = len (contexts mention).
Proof.
  assert ((detect_multiple_referents self mention).2
          = cluster_contexts self mention) as ->.
  { unfold detect_multiple_referents.
    by destruct (cluster_contexts self mention) as [|? [|? ?]]. }
  apply sum_support_total.
Qed.

Lemma nearby_names_app (l k : list LocationContext) :
  nearby_names (l ++ k) = nearby_names l ∪ nearby_names k.
Proof. unfold nearby_names. rewrite map_app. apply union_list_app_L. Qed.

Lemma nearby_names_one (c : LocationContext) :
  nearby_names [c] = list_to_set (nearby_locations c).
Proof. unfold nearby_names. simpl. apply leibniz_equiv, (right_id ∅ (∪)). Qed.

Lemma place_context_gathers (self : ContextClusterer)
      (clusters : list ContextCluster) (context : LocationContext) :
  Forall gathers clusters ->
  Forall gathers (place_context self clusters context).
Proof.
  intros Hall. unfold place_context.
  destruct (best_cluster_index _ _ _) as [i|].
  - apply Forall_alter; [exact Hall|].
    intros c _ Hc. unfold gathers in *. simpl.
    by rewrite nearby_names_app, nearby_names_one, Hc.
  - apply Forall_app. split; [exact Hall|].
    repeat constructor. unfold gathers. simpl.
    by rewrite nearby_names_one.
Qed.

Lemma fold_place_context_gathers (self : ContextClusterer)
      (l : list LocationContext) (clusters : list ContextCluster) :
  Forall gathers clusters ->
  Forall gathers (fold_left (place_context self) l clusters).
Proof.
  revert clusters. induction l as [|c l IH]; intros clusters Hall; simpl.
  - exact Hall.
  - by apply IH, place_context_gathers.
Qed.

(** The nearby set of every cluster is the union of the names listed
    near its members, neither more nor less. *)
Theorem cluster_nearby_is_union (self : ContextClusterer)
        (mention : LocationMention) :
  Forall (fun c => cluster_nearby c = nearby_names (cluster_members c))
         (cluster_contexts self mention).
Proof.
  unfold cluster_contexts.
  destruct (contexts mention) as [|c [|c' l]] eqn:E.
  - constructor.
  - repeat constructor. simpl. by rewrite nearby_names_one.
  - apply Forall_map.
    assert (Forall gathers
              (sort_desc support_lt
                 (fold_left (place_context self) (c :: c' :: l) []))) as Hs.
    { rewrite sort_desc_perm. apply fold_place_context_gathers. constructor. }
    eapply Forall_impl; [exact Hs|]. intros x Hx. exact Hx.
Qed.

(** ** The selector never hands over more than it may *)

Lemma diversity_pass_first (max_contexts : Z) (sc : float)
      (ctx : LocationContext) (scored : list (float * LocationContext))
      (selected : list LocationContext) (used : gset Z) :
  1 <= max_contexts ->
  diversity_pass max_contexts ((sc, ctx) :: scored) [] ∅
  = Returns (selected, used) ->
  selected <> [].
Proof.
  intros Hk. simpl.
  destruct (Z.geb_spec (len (@nil LocationContext)) max_contexts) as [Hfull|_].
  { unfold len in Hfull. simpl in Hfull. lia. }
  destruct (py_round _) as [bucket|]; [|discriminate]. simpl.
  rewrite (bool_decide_eq_false_2 (bucket ∈ (∅ : gset Z)))
    by apply not_elem_of_empty.
  simpl. intros Hrest.
  apply diversity_pass_spec in Hrest as (extra & -> & _). discriminate.
Qed.

(** For a limit that is not negative and positions that have buckets,
    the selector returns occurrences of the cluster, no more than the
    limit, whatever the occurrences look like; the whole cluster, in
    its order, when that is within the limit; and at least one when the
    limit is at least 1 and the cluster has a member. *)
Theorem select_within_limit (cluster : ContextCluster) (max_contexts : Z) :
  0 <= max_contexts ->
  Forall has_bucket (cluster_members cluster) ->
  exists reps,
    select_representative_contexts cluster max_contexts = Returns reps
    /\ len reps <= max_contexts
    /\ (forall x, x ∈ reps -> x ∈ cluster_members cluster)
    /\ (len (cluster_members cluster) <= max_contexts ->
        reps = cluster_members cluster)
    /\ (1 <= max_contexts -> cluster_members cluster <> [] -> reps <> []).
Proof.
  intros Hk Hbuckets. unfold select_representative_contexts.
  destruct (Z.leb_spec (len (cluster_members cluster)) max_contexts)
    as [Hfew|Hmany].
  { exists (cluster_members cluster). repeat split; [lia|done|done]. }
  set (scored := sort_desc score_lt
                   (map (fun ctx => (_context_informativeness_score ctx, ctx))
                        (cluster_members cluster))).
  assert (scored.*2 ≡ₚ cluster_members cluster) as Hperm.
  { unfold scored. by rewrite sort_desc_perm, scored_contexts. }
  assert (Forall (fun sc => has_bucket sc.2) scored) as Hscored.
  { assert (Forall has_bucket scored.*2) as Hb2 by by rewrite Hperm.
    apply (proj1 (Forall_fmap snd has_bucket scored)) in Hb2. exact Hb2. }
  destruct (diversity_pass_returns max_contexts scored [] ∅ Hscored)
    as [[selected used] Hfirst].
  rewrite Hfirst. simpl.
  pose proof Hfirst as Hfirst'.
  apply diversity_pass_spec in Hfirst as (extra0 & -> & Hsub0 & Hlen0).
  simpl in *.
  destruct (fill_pass_spec max_contexts scored extra0 Hscored)
    as (extra & -> & Hsub & Hlen & _ & _).
  assert (len (extra0 ++ extra) <= max_contexts) as Hle.
  { apply Hlen, Hlen0. unfold len. simpl. lia. }
  assert (py_take max_contexts (extra0 ++ extra) = extra0 ++ extra) as ->.
  { unfold py_take. destruct (Z.ltb_spec max_contexts 0); [lia|].
    apply firstn_all2. unfold len in Hle. lia. }
  exists (extra0 ++ extra). split; [done|]. split; [exact Hle|].
  split; [|split; [lia|]].
  - intros x Hx. rewrite <- Hperm.
    apply elem_of_app in Hx as [Hx|Hx]; [|auto].
    by eapply elem_of_sublist.
  - intros Hk1 _ Hnil. apply app_eq_nil in Hnil as [-> _].
    destruct scored as [|[sc ctx] rest] eqn:Hsc.
    + apply Permutation_nil in Hperm.
      rewrite Hperm in Hmany. unfold len in Hmany. simpl in Hmany. lia.
    + by apply diversity_pass_first in Hfirst'.
Qed.

Lemma select_within_limit_witness :
  exists reps,
    select_representative_contexts four_alike 3 = Returns reps
    /\ len reps <= 3
    /\ reps <> [].
Proof.
  destruct (select_within_limit four_alike 3) as (reps & Hrun & Hle & _ & _ & Hne).
  - lia.
  - repeat constructor; eexists; vm_compute; reflexivity.
  - exists reps. split; [exact Hrun|]. split; [exact Hle|].
    apply Hne; [lia|discriminate].
Defined.

(* ===================================================================== *)
(** * Further properties of a request                                     *)
(* ===================================================================== *)

Section RequestFacts.
Context `{Runtime} (self : MultiContextDisambiguator).

(** A request goes through its stages in order and stops at the first
    that fails. *)
Lemma disambiguate_outcome (mention : LocationMention)
      (source : option (list (string * json))) (cluster_id : option Z)
      (w : World) :
  request_outcome self mention source cluster_id w
                  (disambiguate self mention source cluster_id w).
Proof.
  unfold request_outcome, disambiguate, _disambiguate_with_llm.
  unfold mbind, M_bind, lift, mret, M_ret.
  destruct (detect_multiple_referents _ _) as [has_multiple ?]. cbn [fst].
  destruct (target_of _ _) as [[target|]|]; [|done..].
  destruct (select_representative_contexts _ _) as [reps|]; [|done].
  destruct (neo4j_get_candidates _ _ _) as [candidates|]; [|done].
  destruct candidates as [|c0 candidates].
  { unfold record_zero_match. by destruct (zero_match_tracker self). }
  destruct (attempt_loop_run
              self (c0 :: candidates) (py_range max_retries)
              (_build_multi_context_prompt
                 (name mention) reps (c0 :: candidates)
                 (elements (cluster_nearby target)) source
                 (confidence target)) w)
    as ([sel why] & extra & Hrun & Hlen & Hsel).
  rewrite Hrun. exists (sel, why), extra.
  split; [exact Hlen|]. split; [|reflexivity].
  intros c Hc. destruct (Hsel c Hc) as (i & p & content & decision & _ & _ & _ & Hd).
  simpl in Hc. subst sel.
  by apply decide_selection_some in Hd as (fields & _ & _ & Hin & _).
Qed.

End RequestFacts.

(** ** What a request does to its collaborators *)

(** Whatever the collaborators do, and whether the request returns or
    raises, it sends the reasoning service at most two prompts and
    records at most one zero match, under the name of the mention and
    only when no prompt was sent and a tracker is attached. *)
Theorem at_most_two_requests {R : Runtime}
        (self : MultiContextDisambiguator) (mention : LocationMention)
        (source : option (list (string * json))) (cluster_id : option Z)
        (w : World) :
  exists extra,
    llm_requests (disambiguate self mention source cluster_id w).2
    = llm_requests w ++ extra
    /\ (length extra <= 2)%nat
    /\ (zero_matches (disambiguate self mention source cluster_id w).2
        = zero_matches w
        \/ (extra = [] /\ zero_match_tracker self = true
            /\ exists context,
                zero_matches (disambiguate self mention source cluster_id w).2
                = zero_matches w ++ [(name mention, context)])).
Proof.
  pose proof (disambiguate_outcome self mention source cluster_id w) as Hout.
  unfold request_outcome in Hout.
  assert (exists extra : list string,
             llm_requests w = llm_requests w ++ extra
             /\ (length extra <= 2)%nat
             /\ (zero_matches w = zero_matches w
                 \/ (extra = [] /\ zero_match_tracker self = true
                     /\ exists context,
                         zero_matches w
                         = zero_matches w ++ [(name mention, context)])))
    as Hsame.
  { exists []. rewrite app_nil_r. split; [done|]. split; [simpl; lia|by left]. }
  destruct (target_of _ _) as [[target|]|]; [|by rewrite Hout..].
  destruct (select_representative_contexts _ _) as [reps|];
    [|by rewrite Hout].
  destruct (neo4j_get_candidates _ _ _) as [[|c0 candidates]|];
    [| |by rewrite Hout].
  - rewrite Hout. destruct (zero_match_tracker self) eqn:Htracker; [|done].
    exists []. simpl. rewrite app_nil_r. split; [done|]. split; [lia|].
    right. eauto.
  - destruct Hout as (out & extra & Hlen & _ & ->).
    exists extra. simpl. split; [done|]. split; [exact Hlen|by left].
Qed.

(** ** What a result says *)

(** A candidate in a result is one of the candidates the retriever
    returned for the name of the mention, which are the candidates the
    result lists: the engine selects from the list or not at all. *)
Theorem selection_among_candidates {R : Runtime}
        (self : MultiContextDisambiguator) (mention : LocationMention)
        (source : option (list (string * json))) (cluster_id : option Z)
        (w w' : World) (r : DisambiguationResult) (c : Candidate) :
  disambiguate self mention source cluster_id w = (Returns r, w') ->
  selected_candidate r = Some c ->
  neo4j_get_candidates self (name mention) (max_candidates self)
  = Returns (all_candidates r)
  /\ c ∈ all_candidates r.
Proof.
  intros Hrun Hsel.
  pose proof (disambiguate_outcome self mention source cluster_id w) as Hout.
  unfold request_outcome in Hout. rewrite Hrun in Hout.
  destruct (target_of _ _) as [[target|]|]; [| |discriminate].
  2:{ injection Hout as -> _. discriminate. }
  destruct (select_representative_contexts _ _) as [reps|]; [|discriminate].
  destruct (neo4j_get_candidates _ _ _) as [[|c0 candidates]|];
    [| |discriminate].
  { injection Hout as -> _. discriminate. }
  destruct Hout as (out & extra & _ & Hin & Hr).
  injection Hr as -> _. simpl in *. split; [reflexivity|]. by apply Hin.
Qed.

Lemma selection_among_candidates_witness :
  let text := decision_text "c2" "high" "the Thames is named" in
  let R := table_runtime
             [(text, decision_value "c2" "high" "the Thames is named")] in
  let self := engine (Returns [london_on; london_uk])
                     (fun _ => Returns text) in
  exists r w',
    @disambiguate R self london_once None None fresh = (Returns r, w')
    /\ selected_candidate r = Some london_uk
    /\ london_uk ∈ all_candidates r.
Proof.
  intros text R self. eexists _, _.
  split; [vm_compute; reflexivity|]. split; [reflexivity|].
  eapply (@selection_among_candidates R self london_once None None fresh).
  - vm_compute. reflexivity.
  - reflexivity.
Defined.

(** A result that reports several referents has confidence "low",
    whatever the reasoning service answered; and a result of confidence
    "high" reports a single referent and lists at least one and at most
    five candidates. *)
Theorem multiple_referents_low_confidence {R : Runtime}
        (self : MultiContextDisambiguator) (mention : LocationMention)
        (source : option (list (string * json))) (cluster_id : option Z)
        (w w' : World) (r : DisambiguationResult) :
  disambiguate self mention source cluster_id w = (Returns r, w') ->
  (has_multiple_referents r = true -> result_confidence r = "low")
  /\ (result_confidence r = "high" ->
      has_multiple_referents r = false
      /\ 1 <= len (all_candidates r) <= 5).
Proof.
  intros Hrun.
  pose proof (disambiguate_outcome self mention source cluster_id w) as Hout.
  unfold request_outcome in Hout. rewrite Hrun in Hout.
  destruct (target_of _ _) as [[target|]|]; [| |discriminate].
  2:{ injection Hout as -> _. simpl. split; discriminate. }
  destruct (select_representative_contexts _ _) as [reps|]; [|discriminate].
  destruct (neo4j_get_candidates _ _ _) as [[|c0 candidates]|];
    [| |discriminate].
  { injection Hout as -> _. simpl. split; [done|discriminate]. }
  destruct Hout as (out & extra & _ & _ & Hr).
  injection Hr as -> _. simpl. unfold _calculate_confidence.
  destruct ((detect_multiple_referents (clusterer self) mention).1).
  - rewrite andb_false_r, orb_true_r. simpl. split; [done|discriminate].
  - split; [discriminate|]. intros Hhigh. split; [reflexivity|].
    destruct (Z.leb_spec (len (c0 :: candidates)) 5) as [Hle|Hgt].
    + unfold len in *. simpl in *. lia.
    + rewrite andb_false_r in Hhigh.
      destruct (_ || _ || _); discriminate.
Qed.

Lemma multiple_referents_low_confidence_witness :
  let text := decision_text "c1" "high" "Ontario is named" in
  let R := table_runtime
             [(text, decision_value "c1" "high" "Ontario is named")] in
  let self := engine (Returns [london_on; london_uk])
                     (fun _ => Returns text) in
  exists r w',
    @disambiguate R self london_twice None None fresh = (Returns r, w')
    /\ has_multiple_referents r = true
    /\ selected_candidate r = Some london_on
    /\ result_confidence r = "low".
Proof.
  intros text R self. eexists _, _.
  split; [vm_compute; reflexivity|]. split; [reflexivity|].
  split; [reflexivity|].
  eapply (@multiple_referents_low_confidence
            R self london_twice None None fresh).
  - vm_compute. reflexivity.
  - reflexivity.
Defined.

(** The confidence of a result, the candidates it lists, the contexts
    it used and its count of clusters do not depend on the reasoning
    service: two services that both lead to a result lead to results
    that agree on all four, and on whether several referents were
    found. *)
Theorem confidence_ignores_service {R : Runtime}
        (self : MultiContextDisambiguator)
        (service : nat -> string -> string -> res string)
        (mention : LocationMention)
        (source : option (list (string * json))) (cluster_id : option Z)
        (w1 w1' w2 w2' : World) (r1 r2 : DisambiguationResult) :
  disambiguate self mention source cluster_id w1 = (Returns r1, w1') ->
  disambiguate (with_service self service) mention source cluster_id w2
  = (Returns r2, w2') ->
  result_confidence r1 = result_confidence r2
  /\ all_candidates r1 = all_candidates r2
  /\ contexts_used r1 = contexts_used r2
  /\ clusters_detected r1 = clusters_detected r2
  /\ has_multiple_referents r1 = has_multiple_referents r2.
Proof.
  intros Hrun1 Hrun2.
  pose proof (disambiguate_outcome self mention source cluster_id w1) as Ho1.
  pose proof (disambiguate_outcome (with_service self service)
                                   mention source cluster_id w2) as Ho2.
  unfold request_outcome in Ho1, Ho2. rewrite Hrun1 in Ho1. rewrite Hrun2 in Ho2.
  simpl in Ho2.
  destruct (target_of _ _) as [[target|]|]; [| |discriminate].
  2:{ injection Ho1 as -> _. by injection Ho2 as -> _. }
  destruct (select_representative_contexts _ _) as [reps|]; [|discriminate].
  destruct (neo4j_get_candidates _ _ _) as [[|c0 candidates]|];
    [| |discriminate].
  { injection Ho1 as -> _. by injection Ho2 as -> _. }
  destruct Ho1 as (out1 & extra1 & _ & _ & Hr1).
  destruct Ho2 as (out2 & extra2 & _ & _ & Hr2).
  injection Hr1 as -> _. by injection Hr2 as -> _.
Qed.

Lemma confidence_ignores_service_witness :
  let yes := decision_text "c1" "high" "Ontario is named" in
  let R := table_runtime
             [(yes, decision_value "c1" "high" "Ontario is named")] in
  let self := engine (Returns [london_on; london_uk])
                     (fun _ => Returns yes) in
  let silent := fun (_ : nat) (_ _ : string) =>
                  @Raises string (Exn (OtherException "APITimeoutError")
                                      "Request timed out.") in
  exists r1 w1 r2 w2,
    @disambiguate R self london_once None None fresh = (Returns r1, w1)
    /\ @disambiguate R (with_service self silent) london_once None None fresh
       = (Returns r2, w2)
    /\ selected_candidate r1 = Some london_on
    /\ selected_candidate r2 = None
    /\ result_confidence r1 = result_confidence r2.
Proof.
  intros yes R self silent. eexists _, _, _, _.
  split; [vm_compute; reflexivity|]. split; [vm_compute; reflexivity|].
  split; [reflexivity|]. split; [reflexivity|].
  eapply (@confidence_ignores_service
            R self silent london_once None None fresh _ fresh).
  - vm_compute. reflexivity.
  - vm_compute. reflexivity.
Defined.

(** ** No evidence, no candidates *)

(** A mention without occurrences: for no cluster index or a natural
    one the request returns at once, leaving the collaborators alone
    (the retriever may be one that raises), a result with no candidate,
    confidence "low", the reasoning "No valid contexts found" and no
    cluster counted. *)
Theorem no_occurrences_result {R : Runtime}
        (self : MultiContextDisambiguator) (mention : LocationMention)
        (source : option (list (string * json))) (cluster_id : option Z)
        (w : World) :
  contexts mention = [] ->
  absent_or_natural cluster_id ->
  exists r,
    disambiguate self mention source cluster_id w = (Returns r, w)
    /\ toponym r = name mention
    /\ selected_candidate r = None
    /\ result_confidence r = "low"
    /\ reasoning r = JStr "No valid contexts found"
    /\ clusters_detected r = 0
    /\ has_multiple_referents r = false
    /\ all_candidates r = []
    /\ contexts_used r = [].
Proof.
  intros Hnil Hid.
  pose proof (disambiguate_outcome self mention source cluster_id w) as Hout.
  unfold request_outcome in Hout.
  assert (cluster_contexts (clusterer self) mention = []) as Hclusters.
  { unfold cluster_contexts. by rewrite Hnil. }
  rewrite Hclusters in Hout.
  assert (target_of [] cluster_id = Returns None) as Htarget.
  { destruct cluster_id as [i|]; [|done].
    specialize (Hid i eq_refl). by rewrite target_of_beyond. }
  rewrite Htarget in Hout. exists (no_context_result mention).
  split; [exact Hout|]. by repeat split.
Qed.

Lemma no_occurrences_result_witness :
  let R := table_runtime [] in
  let nowhere := {| name := "Atlantis"; mention_count := 0; contexts := [];
                    document_id := "doc"; all_doc_locations := [] |} in
  let self := engine (Raises (Exn (OtherException "ServiceUnavailable")
                                  "connection refused"))
                     (fun _ => Returns "") in
  exists r,
    @disambiguate R self nowhere None (Some 2) fresh = (Returns r, fresh)
    /\ result_confidence r = "low"
    /\ reasoning r = JStr "No valid contexts found".
Proof.
  intros R nowhere self.
  destruct (@no_occurrences_result R self nowhere None (Some 2) fresh)
    as (r & Hrun & _ & _ & Hlow & Hwhy & _).
  - reflexivity.
  - intros i [= <-]. lia.
  - exists r. by repeat split.
Defined.

(** Scenario B.  When the retriever returns no candidate for a mention
    that has occurrences, the result has no candidate, confidence "low"
    and the reasoning "No candidates found in knowledge graph"; the
    reasoning service is not asked; and a tracker, when one is
    attached, is given the name once, with the text of the first
    representative. *)
Theorem no_candidates_result {R : Runtime}
        (self : MultiContextDisambiguator) (mention : LocationMention)
        (source : option (list (string * json))) (cluster_id : option Z)
        (w : World) :
  contexts mention <> [] ->
  Forall has_bucket (contexts mention) ->
  absent_or_natural cluster_id ->
  neo4j_get_candidates self (name mention) (max_candidates self)
  = Returns [] ->
  exists r target reps,
    target ∈ cluster_contexts (clusterer self) mention
    /\ select_representative_contexts target (max_contexts_per_cluster self)
       = Returns reps
    /\ disambiguate self mention source cluster_id w
       = (Returns r,
          if zero_match_tracker self
          then after_zero_match w (name mention) (text <$> head reps)
          else w)
    /\ selected_candidate r = None
    /\ result_confidence r = "low"
    /\ reasoning r = JStr "No candidates found in knowledge graph"
    /\ all_candidates r = []
    /\ contexts_used r = text <$> reps
    /\ clusters_detected r = len (cluster_contexts (clusterer self) mention).
Proof.
  intros Hne Hbuckets Hid Hcands.
  pose proof (disambiguate_outcome self mention source cluster_id w) as Hout.
  unfold request_outcome in Hout.
  destruct (target_of_some (cluster_contexts (clusterer self) mention)
                           cluster_id)
    as (target & Htarget & Hin);
    [by apply cluster_contexts_nonempty|exact Hid|].
  destruct (select_returns target (max_contexts_per_cluster self))
    as [reps Hreps]; [by eapply cluster_has_buckets|].
  rewrite Htarget, Hreps, Hcands in Hout.
  eexists _, target, reps. split; [exact Hin|]. split; [exact Hreps|].
  split; [exact Hout|]. by repeat split.
Qed.

Lemma no_candidates_result_witness :
  let R := table_runtime [] in
  let self := {| neo4j_get_candidates := fun _ _ => Returns [];
                 llm_create := fun _ _ _ => Returns "";
                 clusterer := default_clusterer;
                 model := "openai/gpt-oss-120b";
                 max_contexts_per_cluster := 3;
                 max_candidates := 10;
                 zero_match_tracker := true |} in
  exists r w',
    @disambiguate R self london_once None None fresh = (Returns r, w')
    /\ llm_requests w' = []
    /\ zero_matches w'
       = [("London", Some "He settled at London in 1826.")]
    /\ selected_candidate r = None
    /\ result_confidence r = "low".
Proof.
  intros R self.
  destruct (@no_candidates_result R self london_once None None fresh)
    as (r & target & reps & _ & _ & Hrun & Hnone & Hlow & _).
  - discriminate.
  - repeat constructor. eexists. vm_compute. reflexivity.
  - intros i [=].
  - reflexivity.
  - exists r. eexists. split; [exact Hrun|].
    assert (@disambiguate R self london_once None None fresh
            = (Returns (no_candidate_result
                          london_once
                          (cluster_contexts default_clusterer london_once)
                          false
                          {| cluster_members := contexts london_once;
                             cluster_nearby :=
                               list_to_set ["Ontario"; "Canada"];
                             support := 1; confidence := "high" |}
                          (contexts london_once)),
               after_zero_match fresh "London"
                                (Some "He settled at London in 1826.")))
      as Hrun' by (vm_compute; reflexivity).
    rewrite Hrun' in Hrun. injection Hrun as _ <-.
    by repeat split.
Defined.

(** ** The exchange, reply by reply *)


Section ReplyFacts.
Context `{Runtime} (self : MultiContextDisambiguator).



End ReplyFacts.







(** ** What a record selects *)

Section SelectionFacts.
Context `{Runtime}.



End SelectionFacts.





(* ===================================================================== *)
(** * Further properties of the reading of a reply                        *)
(* ===================================================================== *)

Lemma split_from_length (sep : string) (skip : nat) (cur s : string) :
  (1 <= length (split_from sep skip cur s))%nat.
Proof.
  revert skip cur. induction s as [|c r IH]; intros skip cur.
  - simpl. lia.
  - cbn [split_from]. destruct skip as [|k]; [|apply IH].
    destruct (String.prefix sep (String c r)); [simpl; lia|apply IH].
Qed.

Lemma split_from_contains (sep : string) (cur s : string) :
  sep <> "" -> py_contains sep s = true ->
  (2 <= length (split_from sep 0 cur s))%nat.
Proof.
  intros Hsep. revert cur. induction s as [|c r IH]; intros cur; simpl.
  - destruct sep; [done|discriminate].
  - intros Hc. destruct sep as [|a sep']; [done|].
    simpl in Hc. simpl.
    destruct (ascii_dec a c) as [->|Hne].
    + destruct (String.prefix sep' r) eqn:Hp.
      * simpl. pose proof (split_from_length (String c sep') (String.length sep') "" r). lia.
      * simpl in Hc. apply IH. exact Hc.
    + simpl in Hc. apply IH. exact Hc.
Qed.

Lemma py_index_within {A} (l : list A) (i : Z) :
  0 <= i < len l ->
  exists a, py_index l i = Returns a /\ l !! Z.to_nat i = Some a.
Proof.
  intros Hi. unfold len in Hi.
  destruct (lookup_lt_is_Some_2 l (Z.to_nat i)) as [a Ha]; [lia|].
  exists a. split; [|done]. apply py_index_natural; [lia|done].
Qed.

Lemma prefix_shorter (x y s : string) :
  String.prefix (x +:+ y) s = true -> String.prefix x s = true.
Proof.
  revert s. induction x as [|a x IH]; intros s; [by destruct s|].
  destruct s as [|b s]; [done|]. simpl.
  destruct (ascii_dec a b); [apply IH|done].
Qed.

Lemma py_contains_shorter (x y s : string) :
  py_contains (x +:+ y) s = true -> py_contains x s = true.
Proof.
  induction s as [|c r IH]; simpl.
  - rewrite !orb_false_r. intros Hp.
    by apply (prefix_shorter x y "").
  - intros Hc. apply orb_true_iff in Hc as [Hp|Hr]; apply orb_true_iff.
    + left. by apply (prefix_shorter x y (String c r)).
    + right. by apply IH.
Qed.

(** Cutting a reply down to what is inside its fence never fails,
    whatever the reply: the two index operations are always in range.
    A reply without three backticks in a row goes to the parser as it
    is, prose included. *)
Theorem extract_json_never_raises (response_text : string) :
  exists out, extract_json response_text = Returns out
    /\ (py_contains fence response_text = false -> out = response_text).
Proof.
  unfold extract_json.
  assert (forall sep s, sep <> "" -> py_contains sep s = true ->
            exists out, (after ← py_index (py_split sep s) 1;
                         inside ← py_index (py_split fence after) 0;
                         Returns (py_strip inside)) = Returns out) as Hcut.
  { intros sep s Hsep Hc.
    destruct (py_index_within (py_split sep s) 1) as (after & -> & _).
    { unfold py_split, len.
      pose proof (split_from_contains sep "" s Hsep Hc). lia. }
    cbn -[py_index py_split py_strip].
    destruct (py_index_within (py_split fence after) 0) as (inside & -> & _).
    { unfold py_split, len.
      pose proof (split_from_length fence 0 "" after). lia. }
    simpl. eauto. }
  destruct (py_contains json_fence response_text) eqn:Hj.
  - destruct (Hcut json_fence response_text) as [out ->]; [done|done|].
    exists out. split; [done|]. intros Hno.
    apply (py_contains_shorter fence "json") in Hj. congruence.
  - destruct (py_contains fence response_text) eqn:Hf.
    + destruct (Hcut fence response_text) as [out ->]; [done|done|].
      exists out. split; [done|]. discriminate.
    + eauto.
Qed.

Lemma string_app_cons (c : ascii) (r s : string) :
  String c r +:+ s = String c (r +:+ s).
Proof. reflexivity. Qed.

Lemma string_app_nil_r (s : string) : s +:+ "" = s.
Proof.
  induction s as [|c r IH]; [done|]. by rewrite string_app_cons, IH.
Qed.

Lemma rev_string_twice (a b s : string) :
  rev_string a (rev_string b s) = rev_string (s +:+ a) b.
Proof.
  revert a b. induction s as [|c r IH]; intros a b; [done|].
  rewrite string_app_cons. simpl. by rewrite IH.
Qed.

Lemma rev_string_involutive (s : string) :
  rev_string "" (rev_string "" s) = s.
Proof. rewrite rev_string_twice. simpl. apply string_app_nil_r. Qed.

Section Fences.
Variables (t : ascii) (sep' : string).

Lemma split_from_skip (x rest cur : string) :
  split_from (String t sep') (String.length x) cur (x +:+ rest)
  = split_from (String t sep') 0 cur rest.
Proof.
  induction x as [|c x IH]; [done|]. rewrite string_app_cons. simpl. exact IH.
Qed.

Lemma prefix_refl_append (x rest : string) :
  String.prefix x (x +:+ rest) = true.
Proof.
  induction x as [|c x IH]; [by destruct rest|].
  rewrite string_app_cons. simpl. by destruct (ascii_dec c c).
Qed.

Lemma split_from_through (body rest cur : string) :
  free_of t body = true ->
  split_from (String t sep') 0 cur (body +:+ rest)
  = split_from (String t sep') 0 (rev_string cur body) rest.
Proof.
  revert cur. induction body as [|c body IH]; intros cur; [done|].
  rewrite string_app_cons. simpl.
  intros Hfree. apply andb_prop in Hfree as [Hc Hbody].
  destruct (ascii_dec t c) as [->|Hne].
  - by rewrite Ascii.eqb_refl in Hc.
  - by apply IH.
Qed.

Lemma split_from_at (rest cur : string) :
  split_from (String t sep') 0 cur (String t sep' +:+ rest)
  = rev_string "" cur :: split_from (String t sep') 0 "" rest.
Proof.
  rewrite string_app_cons. simpl.
  destruct (ascii_dec t t); [|done].
  rewrite prefix_refl_append. f_equal. apply split_from_skip.
Qed.

Lemma split_from_end (body cur : string) :
  free_of t body = true ->
  split_from (String t sep') 0 cur body
  = [rev_string "" (rev_string cur body)].
Proof.
  intros Hfree. rewrite <- (string_app_nil_r body) at 1.
  rewrite split_from_through by done. reflexivity.
Qed.

End Fences.

Lemma py_contains_at (sep pre rest : string) :
  py_contains sep (pre +:+ sep +:+ rest) = true.
Proof.
  induction pre as [|c pre IH].
  - change ("" +:+ sep +:+ rest) with (sep +:+ rest).
    pose proof (prefix_refl_append sep rest) as Hp.
    destruct (sep +:+ rest); cbn [py_contains]; by rewrite Hp.
  - rewrite string_app_cons. cbn [py_contains]. rewrite IH. apply orb_true_r.
Qed.

Lemma py_split_at (t : ascii) (sep' pre rest : string) :
  free_of t pre = true ->
  py_split (String t sep') (pre +:+ String t sep' +:+ rest)
  = pre :: py_split (String t sep') rest.
Proof.
  intros Hfree. unfold py_split.
  rewrite split_from_through by done. rewrite split_from_at.
  by rewrite rev_string_involutive.
Qed.

Lemma py_split_free (t : ascii) (sep' body : string) :
  free_of t body = true -> py_split (String t sep') body = [body].
Proof.
  intros Hfree. unfold py_split. rewrite split_from_end by done.
  by rewrite rev_string_involutive.
Qed.

Lemma prefix_free (t : ascii) (sep' post : string) :
  free_of t post = true -> String.prefix (String t sep') post = false.
Proof.
  destruct post as [|c post]; [done|]. simpl.
  intros Hfree. apply andb_prop in Hfree as [Hc _].
  destruct (ascii_dec t c) as [->|]; [|done].
  by rewrite Ascii.eqb_refl in Hc.
Qed.

Lemma prefix_cons_eq (a : ascii) (x y : string) :
  String.prefix (String a x) (String a y) = String.prefix x y.
Proof. simpl. by destruct (ascii_dec a a). Qed.

Lemma prefix_cons_ne (a b : ascii) (x y : string) :
  a <> b -> String.prefix (String a x) (String b y) = false.
Proof. intros Hne. simpl. by destruct (ascii_dec a b). Qed.

Lemma free_of_cons (t c : ascii) (r : string) :
  free_of t (String c r) = true -> t <> c /\ free_of t r = true.
Proof.
  simpl. intros Hfree. apply andb_prop in Hfree as [Hc Hr].
  split; [|done]. intros ->. by rewrite Ascii.eqb_refl in Hc.
Qed.

Lemma prefix_after_ticks (t : ascii) (sep' post : string) :
  free_of t post = true ->
  String.prefix (String t (String t (String t sep')))
                (String t (String t post)) = false
  /\ String.prefix (String t (String t (String t sep')))
                   (String t post) = false.
Proof.
  intros Hfree. rewrite !prefix_cons_eq.
  destruct post as [|c post]; [done|].
  apply free_of_cons in Hfree as [Hne _].
  by rewrite !prefix_cons_ne.
Qed.

(** The first piece of a text cut at the opening fence, when the text
    begins with a body free of backticks that a closing fence ends. *)
Lemma first_piece_of_body (body post : string) :
  free_of backtick body = true -> free_of backtick post = true ->
  exists after,
    head (py_split json_fence (body +:+ fence +:+ post)) = Some after
    /\ head (py_split fence after) = Some body.
Proof.
  intros Hbody Hpost.
  assert (head (py_split fence (body +:+ fence +:+ post)) = Some body)
    as Hcut.
  { change fence with (String backtick "``"). by rewrite py_split_at. }
  unfold py_split at 1.
  change json_fence
    with (String backtick (String backtick (String backtick "json"))).
  rewrite split_from_through by done.
  change (fence +:+ post)
    with (String backtick (String backtick (String backtick post))).
  destruct (String.prefix
              (String backtick (String backtick (String backtick "json")))
              (String backtick (String backtick (String backtick post))))
    eqn:Hp.
  - cbn [split_from]. rewrite Hp. exists body.
    rewrite rev_string_involutive. split; [done|].
    change fence with (String backtick "``"). by rewrite py_split_free.
  - cbn [split_from]. rewrite Hp.
    destruct (prefix_after_ticks backtick "json" post Hpost) as [-> ->].
    rewrite split_from_end by done.
    exists (body +:+ fence +:+ post). split; [|exact Hcut].
    simpl. f_equal. rewrite rev_string_twice, string_app_nil_r.
    change (rev_string (fence +:+ post) (rev_string "" body)
            = body +:+ fence +:+ post).
    by rewrite rev_string_twice.
Qed.

(** A reply that wraps its record in a fence marked json, with no
    backtick before, inside or after, is cut down to what is inside the
    fence, stripped of the white space around it. *)
Theorem extract_json_unwraps (pre body post : string) :
  free_of backtick pre = true ->
  free_of backtick body = true ->
  free_of backtick post = true ->
  extract_json (pre +:+ json_fence +:+ body +:+ fence +:+ post)
  = Returns (py_strip body).
Proof.
  intros Hpre Hbody Hpost. unfold extract_json.
  rewrite py_contains_at.
  change json_fence with (String backtick "``json") at 1 2.
  rewrite py_split_at by done.
  change (String backtick "``json") with json_fence.
  destruct (first_piece_of_body body post Hbody Hpost)
    as (after & Hafter & Hinside).
  destruct (py_split json_fence _) as [|after' rest]; [done|].
  injection Hafter as ->.
  rewrite (py_index_natural (pre :: after :: rest) 1 after) by (lia || done).
  cbn -[py_index py_split py_strip].
  destruct (py_split fence after) as [|inside rest']; [done|].
  injection Hinside as ->.
  by rewrite (py_index_natural (body :: rest') 0 body) by (lia || done).
Qed.

Lemma extract_json_unwraps_witness :
  extract_json
    ("Here is my answer: " +:+ json_fence +:+ " {} " +:+ fence +:+ " Done.")
  = Returns "{}".
Proof.
  apply (extract_json_unwraps "Here is my answer: " " {} " " Done.");
    reflexivity.
Defined.

(* ===================================================================== *)
(** * The labels of the feature types                                     *)
(* ===================================================================== *)

Lemma ends_with_app (c suffix : string) : ends_with suffix (c +:+ suffix) = true.
Proof.
  induction c as [|a c IH].
  - change ("" +:+ suffix) with suffix.
    destruct suffix; cbn [ends_with]; by rewrite String.eqb_refl.
  - rewrite string_app_cons. cbn [ends_with]. rewrite IH. apply orb_true_r.
Qed.

Lemma string_app_length (x y : string) :
  String.length (x +:+ y) = (String.length x + String.length y)%nat.
Proof.
  induction x as [|a x IH]; [done|]. rewrite string_app_cons. simpl. by rewrite IH.
Qed.

Lemma string_app_inj_l (x y suffix : string) :
  x +:+ suffix = y +:+ suffix -> x = y.
Proof.
  revert y. induction x as [|a x IH]; intros [|b y] Heq.
  - done.
  - apply (f_equal String.length) in Heq.
    rewrite string_app_cons in Heq. simpl in Heq.
    rewrite !string_app_length in Heq. simpl in Heq. lia.
  - apply (f_equal String.length) in Heq.
    rewrite string_app_cons in Heq. simpl in Heq.
    rewrite !string_app_length in Heq. simpl in Heq. lia.
  - rewrite !string_app_cons in Heq. injection Heq as -> Heq.
    f_equal. by apply IH.
Qed.

Lemma explain_unknown (c : string) (k : option string) :
  known_class c = false ->
  _explain_feature_type c k = c +:+ see_classification.
Proof.
  unfold known_class, _explain_feature_type. simpl.
  intros Hno. repeat (apply orb_false_iff in Hno as [-> Hno]). done.
Qed.

Lemma explain_known (c : string) (k : option string) :
  known_class c = true ->
  ends_with see_classification (_explain_feature_type c k) = false.
Proof.
  unfold known_class, _explain_feature_type. cbn [existsb].
  destruct (String.eqb c "P").
  { intros _. destruct (code_is k "PPL" || _); [reflexivity|].
    by destruct (code_is k "PPLC"). }
  destruct (String.eqb c "A").
  { intros _. repeat (destruct (code_is k _); [reflexivity|]). reflexivity. }
  repeat (destruct (String.eqb c _); [intros _; reflexivity|]).
  intros Hno. vm_compute in Hno. discriminate Hno.
Qed.

Lemma class_of_explained (c : string) (k : option string) :
  known_class c = true ->
  class_of_label (_explain_feature_type c k) = Some c.
Proof.
  unfold known_class, _explain_feature_type. cbn [existsb].
  destruct (String.eqb_spec c "P") as [->|_].
  { intros _. destruct (code_is k "PPL" || _); [reflexivity|].
    by destruct (code_is k "PPLC"). }
  destruct (String.eqb_spec c "A") as [->|_].
  { intros _. repeat (destruct (code_is k _); [reflexivity|]). reflexivity. }
  destruct (String.eqb_spec c "H") as [->|_]; [intros _; reflexivity|].
  destruct (String.eqb_spec c "T") as [->|_]; [intros _; reflexivity|].
  destruct (String.eqb_spec c "L") as [->|_]; [intros _; reflexivity|].
  destruct (String.eqb_spec c "S") as [->|_]; [intros _; reflexivity|].
  intros Hno. vm_compute in Hno. discriminate Hno.
Qed.

(** The label written for a candidate tells its feature class: two
    candidates of different classes never get the same label, whatever
    their feature codes, so a populated place is never labelled as an
    administrative division or the other way round. *)
Theorem feature_label_tells_class (c1 c2 : string) (k1 k2 : option string) :
  _explain_feature_type c1 k1 = _explain_feature_type c2 k2 -> c1 = c2.
Proof.
  intros Heq.
  destruct (known_class c1) eqn:H1; destruct (known_class c2) eqn:H2.
  - pose proof (class_of_explained c1 k1 H1) as E1.
    pose proof (class_of_explained c2 k2 H2) as E2.
    rewrite Heq in E1. congruence.
  - pose proof (explain_known c1 k1 H1) as E1.
    rewrite Heq, (explain_unknown c2 k2 H2), ends_with_app in E1. done.
  - pose proof (explain_known c2 k2 H2) as E2.
    rewrite <- Heq, (explain_unknown c1 k1 H1), ends_with_app in E2. done.
  - rewrite (explain_unknown c1 k1 H1), (explain_unknown c2 k2 H2) in Heq.
    by apply string_app_inj_l in Heq.
Qed.

Lemma feature_label_tells_class_witness :
  _explain_feature_type "P" (Some "PPL")
  = _explain_feature_type "P" (Some "PPLA2")
  /\ "P" = "P".
Proof.
  split; [reflexivity|].
  apply (feature_label_tells_class "P" "P" (Some "PPL") (Some "PPLA2")).
  reflexivity.
Defined.

(* ===================================================================== *)
(** * Every cluster in turn                                               *)
(* ===================================================================== *)

Section AllClusters.
Context `{Runtime} (self : MultiContextDisambiguator).



End AllClusters.






(* ===================================================================== *)
(** * The co-occurrence network                                           *)
(* ===================================================================== *)

Lemma times_app n l k : times n (l ++ k) = times n l + times n k.
Proof. unfold times, len. rewrite filter_app, length_app. lia. Qed.

Lemma times_cons n x l : times n (x :: l) = (if bool_decide (x = n) then 1 else 0) + times n l.
Proof.
  unfold times, len. rewrite filter_cons.
  destruct (decide (x = n)) as [->|Hne].
  - rewrite bool_decide_eq_true_2 by done. simpl. lia.
  - rewrite bool_decide_eq_false_2 by done. lia.
Qed.

Lemma times_absent n l : n ∉ l -> times n l = 0.
Proof.
  induction l as [|x l IH]; [done|]. intros Hn.
  apply not_elem_of_cons in Hn as [Hne Hn].
  rewrite times_cons, IH by done. by rewrite bool_decide_eq_false_2.
Qed.

Lemma count_nearby_lookup (nearby : string) (row : gmap string Z)
      (n : string) :
  count_nearby nearby row !! n
  = if bool_decide (n = nearby)
    then Some (default 0 (row !! nearby) + 1)
    else row !! n.
Proof.
  unfold count_nearby.
  destruct (decide (n = nearby)) as [->|Hne].
  - rewrite (bool_decide_eq_true_2 (nearby = nearby)) by done.
    rewrite lookup_alter_eq.
    destruct (row !! nearby) as [k|] eqn:Hk.
    + rewrite bool_decide_eq_true_2 by eauto. by rewrite Hk.
    + rewrite bool_decide_eq_false_2 by (intros [? ?]; done).
      by rewrite lookup_insert_eq.
  - rewrite (bool_decide_eq_false_2 (n = nearby)) by done.
    rewrite lookup_alter_ne by done.
    destruct (bool_decide _); [done|]. by rewrite lookup_insert_ne.
Qed.

(** The row after the names of [l] are counted into it. *)
Lemma count_all_lookup (l : list string) (row : gmap string Z) (n : string) :
  fold_left (fun row nearby => count_nearby nearby row) l row !! n
  = if bool_decide (n ∈ l)
    then Some (default 0 (row !! n) + times n l)
    else row !! n.
Proof.
  revert row. induction l as [|x l IH]; intros row.
  - cbn [fold_left]. case_bool_decide as Hin; [|done].
    by apply elem_of_nil in Hin.
  - cbn [fold_left]. rewrite IH, count_nearby_lookup, times_cons.
    destruct (decide (n = x)) as [->|Hne].
    + rewrite (bool_decide_eq_true_2 (x = x)) by done.
      rewrite (bool_decide_eq_true_2 (x ∈ x :: l)) by apply list_elem_of_here.
      case_bool_decide as Hin.
      * simpl. f_equal; lia.
      * rewrite (times_absent x l) by done. simpl. f_equal; lia.
    + rewrite (bool_decide_eq_false_2 (n = x)) by done.
      rewrite (bool_decide_eq_false_2 (x = n)) by done.
      case_bool_decide as Hin.
      * rewrite bool_decide_eq_true_2 by by apply list_elem_of_further.
        f_equal.
      * rewrite bool_decide_eq_false_2; [done|].
        intros Hin'. apply elem_of_cons in Hin' as [?|?]; done.
Qed.

(** Counting into the row of [m], name by name, is counting them all
    into it. *)
Lemma fold_alter_row (m : string) (l : list string)
      (network : gmap string (gmap string Z)) (m' : string) :
  fold_left (fun network nearby => alter (count_nearby nearby) m network)
            l network !! m'
  = if bool_decide (m' = m)
    then fold_left (fun row nearby => count_nearby nearby row) l
           <$> network !! m
    else network !! m'.
Proof.
  revert network. induction l as [|x l IH]; intros network; simpl.
  - destruct (decide (m' = m)) as [->|Hne].
    + rewrite bool_decide_eq_true_2 by done. by destruct (network !! m).
    + by rewrite bool_decide_eq_false_2.
  - rewrite IH. destruct (decide (m' = m)) as [->|Hne].
    + rewrite bool_decide_eq_true_2 by done. rewrite lookup_alter_eq.
      by destruct (network !! m).
    + rewrite bool_decide_eq_false_2 by done. by rewrite lookup_alter_ne.
Qed.

Lemma fold_contexts_flat {A} (f : A -> string -> A)
      (l : list LocationContext) (a : A) :
  fold_left (fun a context => fold_left f (nearby_locations context) a) l a
  = fold_left f (l ≫= nearby_locations) a.
Proof.
  revert a. induction l as [|c l IH]; intros a; [done|].
  simpl. rewrite fold_left_app. apply IH.
Qed.

Lemma add_mention_lookup (network : gmap string (gmap string Z))
      (mention : LocationMention) (m : string) :
  add_mention network mention !! m
  = if bool_decide (m = name mention)
    then Some (fold_left (fun row nearby => count_nearby nearby row)
                         (contexts mention ≫= nearby_locations)
                         (default ∅ (network !! m)))
    else network !! m.
Proof.
  unfold add_mention.
  rewrite (fold_contexts_flat
             (fun network nearby =>
                alter (count_nearby nearby) (name mention) network)).
  rewrite fold_alter_row.
  destruct (decide (m = name mention)) as [->|Hne].
  - rewrite !bool_decide_eq_true_2 by done.
    destruct (network !! name mention) as [row|] eqn:Hrow.
    + rewrite bool_decide_eq_true_2 by eauto. by rewrite Hrow.
    + rewrite bool_decide_eq_false_2 by (intros [? ?]; done).
      by rewrite lookup_insert_eq.
  - rewrite !bool_decide_eq_false_2 by done.
    destruct (bool_decide _); [done|]. by rewrite lookup_insert_ne.
Qed.

Lemma listed_near_snoc (m : string) (mentions : list LocationMention)
      (mention : LocationMention) :
  listed_near m (mentions ++ [mention])
  = listed_near m mentions
    ++ (if String.eqb (name mention) m
        then contexts mention ≫= nearby_locations else []).
Proof.
  unfold listed_near. rewrite bind_app. simpl. by rewrite app_nil_r.
Qed.

Lemma count_merge (n : string) (old new : list string) :
  (if bool_decide (n ∈ new)
   then Some (default 0 (if bool_decide (n ∈ old)
                         then Some (times n old) else None)
              + times n new)
   else if bool_decide (n ∈ old) then Some (times n old) else None)
  = if bool_decide (n ∈ old ++ new)
    then Some (times n old + times n new)
    else None.
Proof.
  destruct (decide (n ∈ new)) as [Hn|Hn];
    destruct (decide (n ∈ old)) as [Ho|Ho].
  - rewrite !bool_decide_eq_true_2; [done|apply elem_of_app; auto|done..].
  - rewrite (bool_decide_eq_true_2 (n ∈ new)) by done.
    rewrite (bool_decide_eq_false_2 (n ∈ old)) by done.
    rewrite bool_decide_eq_true_2 by (apply elem_of_app; auto).
    by rewrite (times_absent n old).
  - rewrite (bool_decide_eq_false_2 (n ∈ new)) by done.
    rewrite (bool_decide_eq_true_2 (n ∈ old)) by done.
    rewrite bool_decide_eq_true_2 by (apply elem_of_app; auto).
    rewrite (times_absent n new) by done. f_equal; lia.
  - rewrite !bool_decide_eq_false_2; [done| |done..].
    intros Hin. apply elem_of_app in Hin as [?|?]; done.
Qed.

(** The network holds a row for each name mentioned and for no other
    name; the row of a name counts, for every name listed near an
    occurrence of a mention of that name, how many times it is listed,
    repetitions and mentions of the same name taken together, and has
    nothing for a name never listed. *)
Theorem network_counts (mentions : list LocationMention) (m : string) :
  match build_cooccurrence_network mentions !! m with
  | None => m ∉ name <$> mentions
  | Some row =>
      m ∈ name <$> mentions
      /\ forall n,
          row !! n
          = if bool_decide (n ∈ listed_near m mentions)
            then Some (times n (listed_near m mentions))
            else None
  end.
Proof.
  unfold build_cooccurrence_network.
  induction mentions as [|mention mentions IH] using rev_ind.
  - simpl. rewrite lookup_empty. apply not_elem_of_nil.
  - rewrite fold_left_app. cbn [fold_left]. rewrite add_mention_lookup.
    rewrite fmap_app, listed_near_snoc. cbn [fmap list_fmap].
    destruct (decide (m = name mention)) as [->|Hne].
    + rewrite bool_decide_eq_true_2 by done. rewrite String.eqb_refl.
      split; [apply elem_of_app; right; apply list_elem_of_here|].
      intros n. rewrite count_all_lookup, times_app.
      set (old := listed_near (name mention) mentions) in *.
      set (new := contexts mention ≫= nearby_locations).
      assert (default ∅ (fold_left add_mention mentions ∅ !! name mention)
                !! n
              = if bool_decide (n ∈ old) then Some (times n old) else None)
        as ->.
      { destruct (fold_left add_mention mentions ∅ !! name mention)
          as [row|]; simpl.
        - by destruct IH as [_ ->].
        - rewrite lookup_empty. case_bool_decide as Hin; [|done].
          exfalso. apply IH. unfold old, listed_near in Hin.
          apply list_elem_of_bind in Hin as (x & Hn & Hx).
          apply list_elem_of_fmap. exists x. split; [|done].
          destruct (String.eqb_spec (name x) (name mention)); [done|].
          by apply elem_of_nil in Hn. }
      apply count_merge.
    + rewrite bool_decide_eq_false_2 by done.
      destruct (String.eqb_spec (name mention) m) as [Heq|_]; [by subst|].
      rewrite app_nil_r.
      destruct (fold_left add_mention mentions ∅ !! m) as [row|].
      * destruct IH as [Hin Hrow]. split; [|done].
        apply elem_of_app. by left.
      * intros Hin. apply elem_of_app in Hin as [Hin|Hin]; [done|].
        apply list_elem_of_singleton in Hin. done.
Qed.

(* ===================================================================== *)
(** * The zero-match tracker                                              *)
(* ===================================================================== *)

Section TrackerFacts.
Import Tracker.

Lemma on_entry_lookup (t t' : string) (f : ZeroMatch -> ZeroMatch)
      (self : ZeroMatchTracker) :
  entry_of t' (on_entry t f self)
  = if String.eqb t t'
    then Some (f (default new_entry (entry_of t self)))
    else entry_of t' self.
Proof.
  induction self as [|[k v] rest IH]; simpl.
  - by destruct (String.eqb t t').
  - destruct (String.eqb_spec k t) as [->|Hk]; simpl.
    + destruct (String.eqb_spec t t') as [->|Ht]; [done|].
      done.
    + rewrite IH.
      destruct (String.eqb_spec k t') as [->|Hk'];
        destruct (String.eqb_spec t t') as [->|Ht]; done.
Qed.

Lemma record_zero_match_lookup (self : ZeroMatchTracker) (t t' : string)
      (context : option string) :
  entry_of t' (record_zero_match self t context)
  = if String.eqb t t'
    then Some (recorded context (default new_entry (entry_of t self)))
    else entry_of t' self.
Proof.
  unfold record_zero_match, recorded.
  destruct context as [[|a r]|]; simpl.
  - by rewrite on_entry_lookup.
  - rewrite on_entry_lookup, String.eqb_refl. simpl.
    destruct (len _ <? 3).
    + rewrite !on_entry_lookup, String.eqb_refl. simpl.
      by destruct (String.eqb t t').
    + rewrite on_entry_lookup. by destruct (String.eqb t t').
  - by rewrite on_entry_lookup.
Qed.

Lemma replay_snoc (log : list (string * option string)) (t : string)
      (c : option string) :
  replay (log ++ [(t, c)]) = record_zero_match (replay log) t c.
Proof. unfold replay. by rewrite fold_left_app. Qed.

Lemma records_of_snoc (t t0 : string) (c : option string)
      (log : list (string * option string)) :
  records_of t (log ++ [(t0, c)])
  = records_of t log + (if String.eqb t0 t then 1 else 0).
Proof.
  unfold records_of, len. rewrite filter_app, length_app.
  rewrite filter_cons, filter_nil. simpl.
  destruct (String.eqb_spec t0 t) as [->|Hne].
  - rewrite decide_True by done. simpl. lia.
  - rewrite decide_False by done. simpl. lia.
Qed.

Lemma contexts_of_snoc (t t0 : string) (c : option string)
      (log : list (string * option string)) :
  contexts_of t (log ++ [(t0, c)])
  = contexts_of t log
    ++ match c with
       | Some (String a r) =>
           if String.eqb t0 t then [String a r] else []
       | _ => []
       end.
Proof. unfold contexts_of. rewrite bind_app. simpl. by rewrite app_nil_r. Qed.

Lemma unrecorded (t : string) (log : list (string * option string)) :
  t ∉ log.*1 -> records_of t log = 0 /\ contexts_of t log = [].
Proof.
  induction log as [|[t0 c] log IH] using rev_ind; [done|].
  rewrite fmap_app, records_of_snoc, contexts_of_snoc. simpl.
  intros Hout. apply not_elem_of_app in Hout as [Hlog Ht0].
  apply not_elem_of_cons in Ht0 as [Hne _].
  destruct (IH Hlog) as [-> ->].
  destruct (String.eqb_spec t0 t) as [->|_]; [done|].
  split; [done|]. by destruct c as [[|? ?]|].
Qed.

Lemma take_snoc {A} (n : nat) (l : list A) (x : A) :
  take n (l ++ [x])
  = if (length (take n l) <? n)%nat then take n l ++ [x] else take n l.
Proof.
  destruct (Nat.ltb_spec (length (take n l)) n) as [Hlt|Hge].
  - rewrite length_take in Hlt.
    rewrite (take_ge l) by lia. apply take_ge. rewrite length_app. simpl. lia.
  - rewrite length_take in Hge. rewrite take_app_le by lia. done.
Qed.

Lemma replay_entry (log : list (string * option string)) (t : string) :
  entry_of t (replay log)
  = if bool_decide (t ∈ log.*1) then Some (entry_after t log) else None.
Proof.
  induction log as [|[t0 c] log IH] using rev_ind.
  - case_bool_decide as Hin; [by apply elem_of_nil in Hin|done].
  - rewrite replay_snoc, record_zero_match_lookup.
    destruct (String.eqb_spec t0 t) as [->|Hne].
    + rewrite bool_decide_eq_true_2.
      2:{ rewrite fmap_app. apply elem_of_app. right. apply list_elem_of_here. }
      f_equal.
      assert (default new_entry (entry_of t (replay log)) = entry_after t log)
        as ->.
      { rewrite IH. case_bool_decide as Hin; [done|].
        unfold entry_after. by destruct (unrecorded t log Hin) as [-> ->]. }
      unfold recorded, entry_after.
      rewrite records_of_snoc, contexts_of_snoc, String.eqb_refl. simpl.
      f_equal.
      destruct c as [[|a r]|]; rewrite ?app_nil_r; [done| |done].
      rewrite fmap_app. simpl. rewrite take_snoc. unfold len.
      destruct (Nat.ltb_spec (length (take 3 (truncated <$> contexts_of t log))) 3);
        destruct (Z.ltb_spec (Z.of_nat (length (take 3 (truncated <$> contexts_of t log)))) 3);
        (done || lia).
    + rewrite IH. rewrite fmap_app. simpl.
      assert (records_of t (log ++ [(t0, c)]) = records_of t log) as Hr.
      { rewrite records_of_snoc.
        destruct (String.eqb_spec t0 t); [done|lia]. }
      assert (contexts_of t (log ++ [(t0, c)]) = contexts_of t log) as Hc.
      { rewrite contexts_of_snoc.
        destruct (String.eqb_spec t0 t); [done|].
        destruct c as [[|? ?]|]; by rewrite app_nil_r. }
      unfold entry_after. rewrite Hr, Hc.
      case_bool_decide as Hin.
      * rewrite bool_decide_eq_true_2; [done|]. apply elem_of_app. by left.
      * rewrite bool_decide_eq_false_2; [done|].
        intros Hin'. apply elem_of_app in Hin' as [?|Hin']; [done|].
        apply list_elem_of_singleton in Hin'. done.
Qed.

Lemma substring_length (n : nat) (s : string) :
  (String.length (String.substring 0 n s) <= n)%nat.
Proof.
  revert s. induction n as [|n IH]; intros [|a s]; simpl; try lia.
  specialize (IH s). lia.
Qed.

Lemma truncated_length (context : string) :
  (String.length (truncated context) <= 203)%nat.
Proof.
  unfold truncated. destruct (Z.ltb_spec 200 (Z.of_nat (String.length context))).
  - rewrite string_app_length. pose proof (substring_length 200 context).
    simpl. lia.
  - lia.
Qed.

(** After any log of zero matches, the entry of a name holds the
    number of its records and the first three of its contexts that are
    not empty, each cut to 200 characters and marked when longer. *)
Theorem tracker_entry_after_log (log : list (string * option string))
        (t : string) :
  entry_of t (replay log)
  = (if bool_decide (t ∈ log.*1)
     then Some {| count := records_of t log;
                  contexts := take 3 (truncated <$> contexts_of t log) |}
     else None)
  /\ (forall d, entry_of t (replay log) = Some d ->
        1 <= count d
        /\ len (contexts d) <= 3
        /\ Forall (fun s => (String.length s <= 203)%nat) (contexts d)).
Proof.
  split; [apply replay_entry|].
  rewrite replay_entry. case_bool_decide as Hin; [|discriminate].
  intros d [= <-]. unfold entry_after. simpl. split; [|split].
  - apply list_elem_of_fmap in Hin as ([t0 c] & -> & Hin).
    unfold records_of, len.
    assert ((t0, c) ∈ filter (fun r : string * option string => r.1 = (t0, c).1) log)
      as Hf by by apply list_elem_of_filter.
    destruct (filter _ log); [by apply elem_of_nil in Hf|]. simpl. lia.
  - unfold len. rewrite length_take. lia.
  - apply Forall_take, Forall_fmap, Forall_forall.
    intros s _. apply truncated_length.
Qed.

Lemma total_occurrences_from (self : ZeroMatchTracker) (acc : Z) :
  fold_left (fun acc d => acc + count d.2) self acc
  = acc + total_occurrences self.
Proof.
  unfold total_occurrences. revert acc.
  induction self as [|d self IH]; intros acc; cbn [fold_left]; [lia|].
  rewrite (IH (acc + count d.2)), (IH (0 + count d.2)). lia.
Qed.

Lemma total_occurrences_cons (d : string * ZeroMatch) (self : ZeroMatchTracker) :
  total_occurrences (d :: self) = count d.2 + total_occurrences self.
Proof.
  unfold total_occurrences at 1. simpl. by rewrite total_occurrences_from.
Qed.

Lemma on_entry_total (t : string) (f : ZeroMatch -> ZeroMatch) (k : Z)
      (self : ZeroMatchTracker) :
  (forall d, count (f d) = count d + k) ->
  total_occurrences (on_entry t f self) = total_occurrences self + k.
Proof.
  intros Hf. induction self as [|[t0 d] self IH]; simpl.
  - rewrite total_occurrences_cons. simpl. rewrite Hf. unfold total_occurrences. simpl. lia.
  - destruct (String.eqb t0 t); rewrite !total_occurrences_cons; simpl.
    + rewrite Hf. lia.
    + rewrite IH. lia.
Qed.

Lemma record_zero_match_total (self : ZeroMatchTracker) (t : string)
      (c : option string) :
  total_occurrences (record_zero_match self t c) = total_occurrences self + 1.
Proof.
  unfold record_zero_match.
  set (self1 := on_entry t _ self).
  assert (total_occurrences self1 = total_occurrences self + 1) as H1.
  { apply on_entry_total. done. }
  destruct c as [c|]; [|done].
  destruct (_ && _); [|done].
  rewrite (on_entry_total t _ 0); [lia|]. intros d. simpl. lia.
Qed.

Lemma on_entry_keys (t : string) (f : ZeroMatch -> ZeroMatch)
      (self : ZeroMatchTracker) :
  (on_entry t f self).*1
  = if bool_decide (t ∈ self.*1) then self.*1 else self.*1 ++ [t].
Proof.
  induction self as [|[t0 d] self IH].
  - case_bool_decide as Hin; [by apply elem_of_nil in Hin|done].
  - cbn [on_entry].
    destruct (String.eqb_spec t0 t) as [->|Hne]; cbn [fmap list_fmap fst].
    + by rewrite bool_decide_eq_true_2 by apply list_elem_of_here.
    + rewrite IH. case_bool_decide as Hin.
      * by rewrite bool_decide_eq_true_2 by by apply list_elem_of_further.
      * rewrite bool_decide_eq_false_2; [done|].
        intros Hin'. apply elem_of_cons in Hin' as [?|?]; done.
Qed.

Lemma record_zero_match_keys (self : ZeroMatchTracker) (t : string)
      (c : option string) :
  (record_zero_match self t c).*1
  = if bool_decide (t ∈ self.*1) then self.*1 else self.*1 ++ [t].
Proof.
  unfold record_zero_match.
  assert ((on_entry t
             (fun d => {| count := count d + 1; contexts := contexts d |})
             self).*1
          = if bool_decide (t ∈ self.*1) then self.*1 else self.*1 ++ [t])
    as H1 by apply on_entry_keys.
  destruct c as [c|]; [|done].
  destruct (_ && _); [|done].
  rewrite on_entry_keys, H1.
  case_bool_decide as Hin.
  - by rewrite bool_decide_eq_true_2.
  - rewrite bool_decide_eq_true_2; [done|].
    apply elem_of_app. right. apply list_elem_of_here.
Qed.

Lemma replay_keys (log : list (string * option string)) :
  NoDup (replay log).*1 /\ forall t, t ∈ (replay log).*1 <-> t ∈ log.*1.
Proof.
  induction log as [|[t0 c] log [IHn IHk]] using rev_ind.
  - split; [constructor|done].
  - rewrite replay_snoc, record_zero_match_keys, fmap_app. simpl.
    case_bool_decide as Hin.
    + split; [done|]. intros t. rewrite elem_of_app, IHk.
      split; [auto|]. intros [?|Ht]; [done|].
      apply list_elem_of_singleton in Ht as ->. by apply IHk.
    + split.
      * apply NoDup_app. split; [done|]. split; [|apply NoDup_singleton].
        intros x Hx Hx'. apply list_elem_of_singleton in Hx' as ->. done.
      * intros t. rewrite !elem_of_app, IHk. done.
Qed.

(** The statistics after any log: the occurrences add up to the number
    of records, and the names are the different names recorded. *)
Theorem tracker_statistics (log : list (string * option string)) :
  total_occurrences (replay log) = len log
  /\ total_unique_toponyms (replay log)
     = Z.of_nat (size (list_to_set log.*1 : gset string)).
Proof.
  split.
  - induction log as [|[t0 c] log IH] using rev_ind; [done|].
    rewrite replay_snoc, record_zero_match_total, IH.
    unfold len. rewrite length_app. simpl. lia.
  - destruct (replay_keys log) as [Hnodup Hkeys].
    unfold total_unique_toponyms, len. f_equal.
    rewrite <- (length_fmap fst (replay log)).
    rewrite <- (size_list_to_set (C:=gset string) _ Hnodup).
    f_equal. apply set_eq. intros t. by rewrite !elem_of_list_to_set, Hkeys.
Qed.

(** The review report of any tracker: its items come by frequency, the
    most frequent first; they are the entries recorded at least
    [min_frequency] times, each with its count and its contexts; and
    the top [n] are [n] of them, or all when there are fewer. *)
Theorem review_report_sorted (self : ZeroMatchTracker) (min_frequency : Z)
        (n : Z) :
  StronglySorted (above frequency)
                 (generate_review_report self min_frequency)
  /\ (forall item,
        item ∈ generate_review_report self min_frequency <->
        exists d, (item_toponym item, d) ∈ self
                  /\ min_frequency <= count d
                  /\ frequency item = count d
                  /\ item_contexts item = contexts d)
  /\ (0 <= n ->
      len (get_top_n self n)
      = Z.min n (len (generate_review_report self 1))).
Proof.
  split; [|split].
  - apply (sort_desc_sorted frequency).
  - intros item. unfold generate_review_report.
    rewrite sort_desc_perm.
    rewrite list_elem_of_In, in_map_iff. split.
    + intros ([t d] & <- & Hin). apply filter_In in Hin as [Hin Hmin].
      exists d. simpl. split; [by apply list_elem_of_In|].
      split; [lia|done].
    + intros (d & Hin & Hmin & Hf & Hc). exists (item_toponym item, d).
      split; [destruct item; simpl in *; by subst|].
      apply filter_In. split; [by apply list_elem_of_In|]. lia.
  - intros Hn. unfold get_top_n, py_take, len.
    destruct (Z.ltb_spec n 0); [lia|].
    rewrite length_take. lia.
Qed.

End TrackerFacts.

(* ===================================================================== *)
(** * The filter and the document                                         *)
(* ===================================================================== *)

Section FilterFacts.
Import Filter.

Lemma is_groundable_reason (self : ToponymFilter) (toponym : string)
      (context : option string) :
  is_groundable self toponym context = (true, None)
  \/ exists r, is_groundable self toponym context = (false, Some r).
Proof.
  unfold is_groundable.
  repeat (match goal with
          | |- context [if ?b then _ else _] => destruct b; [by eauto|]
          end).
  by left.
Qed.

Lemma filter_step_spec (self : ToponymFilter)
      (groundable : list LocationMention) (filtered : list Filtered)
      (m : LocationMention) :
  exists extra_g extra_f,
    filter_step self (groundable, filtered) m
    = (groundable ++ extra_g, filtered ++ extra_f)
    /\ extra_g = (if passes self m then [m] else [])
    /\ mention <$> extra_f = (if passes self m then [] else [m])
    /\ Forall (fun f => filtered_name f = name (mention f)
                        /\ exists r, reason f = value r) extra_f.
Proof.
  unfold filter_step, passes.
  destruct (is_groundable_reason self (name m) (text <$> head (contexts m)))
    as [->|[r ->]]; simpl.
  - exists [m], []. rewrite app_nil_r. by repeat split.
  - eexists [], [_]. rewrite app_nil_r. split; [done|].
    split; [done|]. split; [done|]. repeat constructor. simpl. eauto.
Qed.

Lemma filter_mentions_from (self : ToponymFilter)
      (mentions groundable : list LocationMention) (filtered : list Filtered) :
  exists extra_g extra_f,
    fold_left (filter_step self) mentions (groundable, filtered)
    = (groundable ++ extra_g, filtered ++ extra_f)
    /\ extra_g = List.filter (passes self) mentions
    /\ mention <$> extra_f
       = List.filter (fun m => negb (passes self m)) mentions
    /\ Forall (fun f => filtered_name f = name (mention f)
                        /\ exists r, reason f = value r) extra_f.
Proof.
  revert groundable filtered.
  induction mentions as [|m mentions IH]; intros groundable filtered.
  - exists [], []. rewrite !app_nil_r. by repeat split.
  - cbn [fold_left].
    destruct (filter_step_spec self groundable filtered m)
      as (g1 & f1 & -> & Hg1 & Hf1 & Hall1).
    destruct (IH (groundable ++ g1) (filtered ++ f1))
      as (g2 & f2 & -> & Hg2 & Hf2 & Hall2).
    exists (g1 ++ g2), (f1 ++ f2). rewrite !app_assoc.
    split; [done|]. split; [|split].
    + rewrite Hg1, Hg2. simpl. by destruct (passes self m).
    + rewrite fmap_app, Hf1, Hf2. simpl. by destruct (passes self m).
    + by apply Forall_app.
Qed.

Lemma filter_mentions_lengths (self : ToponymFilter)
      (mentions : list LocationMention) :
  (filter_mentions self mentions).1 = List.filter (passes self) mentions
  /\ len (filter_mentions self mentions).1
     + len (filter_mentions self mentions).2 = len mentions.
Proof.
  unfold filter_mentions.
  destruct (filter_mentions_from self mentions [] [])
    as (g & f & -> & Hg & Hf & _).
  simpl. split; [done|].
  assert (len f = len (mention <$> f)) as ->
      by (unfold len; by rewrite length_fmap).
  rewrite Hg, Hf. unfold len.
  clear. induction mentions as [|m mentions IH]; [done|].
  simpl. destruct (passes self m); simpl in *; lia.
Qed.

(** [filter_mentions] loses no mention and makes none up: the
    groundable ones are the mentions the filter lets through, in their
    order; the filtered ones are the others, in their order, each
    under its own name and with the value of one of the nine reasons,
    never "unknown"; and the two lists together are as long as the
    list given. *)
Theorem filter_mentions_partition (self : ToponymFilter)
        (mentions : list LocationMention) :
  (filter_mentions self mentions).1 = List.filter (passes self) mentions
  /\ mention <$> (filter_mentions self mentions).2
     = List.filter (fun m => negb (passes self m)) mentions
  /\ len (filter_mentions self mentions).1
     + len (filter_mentions self mentions).2 = len mentions
  /\ Forall (fun f => filtered_name f = name (mention f)
                      /\ exists r, reason f = value r)
            (filter_mentions self mentions).2.
Proof.
  destruct (filter_mentions_lengths self mentions) as [_ Hsum].
  unfold filter_mentions in *.
  destruct (filter_mentions_from self mentions [] [])
    as (g & f & Heq & Hg & Hf & Hall).
  rewrite Heq in *. simpl in *. by repeat split.
Qed.

End FilterFacts.

Section StatisticsFacts.
Import Filter.

Lemma add_example_counted (why name : string)
      (stats : list (string * list string)) :
  foldr (fun row acc => len row.2 + acc) 0 (add_example why name stats)
  = foldr (fun row acc => len row.2 + acc) 0 stats + 1.
Proof.
  induction stats as [|[k names] stats IH]; simpl.
  - unfold len. simpl. lia.
  - destruct (String.eqb k why); simpl.
    + unfold len. rewrite length_app. simpl. lia.
    + rewrite IH. lia.
Qed.

Lemma get_filter_statistics_counted (filtered : list Filtered) :
  names_counted (get_filter_statistics filtered) = len filtered
  /\ Forall (fun row => len row.2.2 <= 10) (get_filter_statistics filtered).
Proof.
  unfold get_filter_statistics, names_counted. split.
  - set (stats := fold_left _ filtered []).
    assert (foldr (fun row acc => len row.2 + acc) 0 stats = len filtered)
      as <-.
    { unfold stats.
      assert (forall acc,
                 foldr (fun row acc => len row.2 + acc) 0
                       (fold_left (fun stats item =>
                                     add_example (reason item)
                                                 (filtered_name item) stats)
                                  filtered acc)
                 = foldr (fun row acc => len row.2 + acc) 0 acc
                   + len filtered) as Hgen.
      { induction filtered as [|item filtered IH]; intros acc; simpl.
        - unfold len. simpl. lia.
        - rewrite IH, add_example_counted. unfold len. simpl. lia. }
      rewrite Hgen. simpl. lia. }
    induction stats as [|[k names] stats IH]; [done|]. simpl. by rewrite IH.
  - apply Forall_forall. intros row Hrow.
    apply list_elem_of_In, in_map_iff in Hrow as ([k names] & <- & _).
    simpl. unfold py_take, len. simpl. rewrite length_take. lia.
Qed.

End StatisticsFacts.

Section DocumentFacts.
Context `{Runtime}.

Lemma disambiguate_toponym (self : MultiContextDisambiguator)
      (mention : LocationMention) (source : option (list (string * json)))
      (cluster_id : option Z) (w w' : World) (r : DisambiguationResult) :
  disambiguate self mention source cluster_id w = (Returns r, w') ->
  toponym r = name mention.
Proof.
  intros Hrun.
  pose proof (disambiguate_outcome self mention source cluster_id w) as Hout.
  unfold request_outcome in Hout. rewrite Hrun in Hout.
  destruct (target_of _ _) as [[target|]|]; [| |discriminate].
  2:{ by injection Hout as -> _. }
  destruct (select_representative_contexts _ _) as [reps|]; [|discriminate].
  destruct (neo4j_get_candidates _ _ _) as [[|c0 candidates]|];
    [| |discriminate].
  { by injection Hout as -> _. }
  destruct Hout as (out & extra & _ & _ & Hr). by injection Hr as -> _.
Qed.

Lemma process_mention_entry (self : MultiContextDisambiguator)
      (mention : LocationMention) (source : option (list (string * json)))
      (w : World) :
  entry_toponym (process_mention self mention source w).1.1 = name mention
  /\ 0 <= (process_mention self mention source w).1.2 <= 1.
Proof.
  unfold process_mention.
  destruct (disambiguate self mention source None w) as [[r|e] w'] eqn:Hrun;
    simpl.
  - split; [by eapply disambiguate_toponym|].
    destruct (has_multiple_referents r); lia.
  - split; [done|lia].
Qed.

Lemma disambiguate_each_returns (self : MultiContextDisambiguator)
      (mention : LocationMention) (source : option (list (string * json)))
      (indices : list Z) (results out : list DisambiguationResult)
      (w w' : World) :
  disambiguate_each self mention source indices results w
  = (Returns out, w') ->
  exists new,
    out = results ++ new
    /\ length new = length indices
    /\ Forall (fun r => toponym r = name mention) new.
Proof.
  revert results w. induction indices as [|i indices IH]; intros results w.
  - simpl. intros [= <- <-]. exists []. by rewrite app_nil_r.
  - cbn [disambiguate_each]. unfold mbind, M_bind.
    destruct (disambiguate self mention source (Some i) w)
      as [[r|e] w1] eqn:Hrun; [|discriminate].
    intros Hrest. apply IH in Hrest as (new & -> & Hlen & Hall).
    exists (r :: new). rewrite <- app_assoc. split; [done|].
    split; [simpl; lia|]. constructor; [|done].
    by eapply disambiguate_toponym.
Qed.

Lemma process_mention_clusters_entries (self : MultiContextDisambiguator)
      (mention : LocationMention) (source : option (list (string * json)))
      (w : World) :
  (process_mention_clusters self mention source w).1.1 <> []
  /\ Forall (fun e => entry_toponym e = name mention)
            (process_mention_clusters self mention source w).1.1
  /\ 0 <= (process_mention_clusters self mention source w).1.2 <= 1.
Proof.
  unfold process_mention_clusters.
  destruct (disambiguate_all_clusters self mention source w)
    as [[rs|e] w'] eqn:Hrun; simpl.
  2:{ split; [done|]. split; [by repeat constructor|lia]. }
  assert (rs <> [] /\ Forall (fun r => toponym r = name mention) rs)
    as [Hne Hall].
  { unfold disambiguate_all_clusters in Hrun.
    assert ((detect_multiple_referents (clusterer self) mention).1 = true ->
            cluster_contexts (clusterer self) mention <> []) as Htwo.
    { unfold detect_multiple_referents.
      by destruct (cluster_contexts (clusterer self) mention)
        as [|c1 [|c2 rest]]. }
    destruct (detect_multiple_referents (clusterer self) mention)
      as [flag ?]. cbn [fst] in Htwo.
    destruct (negb flag || _) eqn:Hbranch.
    - unfold mbind, M_bind, mret, M_ret in Hrun.
      destruct (disambiguate self mention source None w)
        as [[r|e] w1] eqn:Hone; [|discriminate].
      injection Hrun as <- _. split; [done|].
      repeat constructor. by eapply disambiguate_toponym.
    - apply disambiguate_each_returns in Hrun as (new & -> & Hlen & Hall).
      split; [|done]. simpl. intros ->. simpl in Hlen.
      destruct flag; [|done]. specialize (Htwo eq_refl).
      unfold py_range in Hlen. rewrite length_map, length_seq in Hlen.
      unfold len in Hlen.
      destruct (cluster_contexts (clusterer self) mention); [done|].
      simpl in Hlen. lia. }
  split; [by destruct rs|]. split.
  - apply Forall_fmap. eapply Forall_impl; [exact Hall|]. done.
  - destruct (1 <? len rs); lia.
Qed.

Lemma mention_loop (self : OSSGeoparser)
      (source : option (list (string * json))) (all_clusters : bool)
      (mentions : list LocationMention) (results : list Entry) (k : Z)
      (w : World) :
  exists new dk w',
    fold_left (mention_step self source all_clusters) mentions
              (results, k, w)
    = (results ++ new, k + dk, w')
    /\ 0 <= dk <= len mentions
    /\ len mentions <= len new
    /\ (all_clusters = false -> entry_toponym <$> new = name <$> mentions).
Proof.
  revert results k w.
  induction mentions as [|m mentions IH]; intros results k w.
  - exists [], 0, w. rewrite app_nil_r, Z.add_0_r. unfold len. simpl.
    repeat split; lia.
  - cbn [fold_left]. unfold mention_step at 2.
    destruct all_clusters.
    + pose proof (process_mention_clusters_entries
                    (disambiguator self) m source w) as (Hne & _ & Hk).
      destruct (process_mention_clusters (disambiguator self) m source w)
        as [[entries k1] w1]. simpl in Hne, Hk.
      destruct (IH (results ++ entries) (k + k1) w1)
        as (new & dk & w' & -> & Hdk & Hlen & _).
      exists (entries ++ new), (k1 + dk), w'.
      rewrite app_assoc, Z.add_assoc. split; [done|].
      unfold len in *. rewrite length_app. simpl.
      destruct entries; [done|]. simpl.
      repeat split; try lia; try discriminate.
    + pose proof (process_mention_entry (disambiguator self) m source w)
        as (Hname & Hk).
      destruct (process_mention (disambiguator self) m source w)
        as [[entry k1] w1]. simpl in Hname, Hk.
      destruct (IH (results ++ [entry]) (k + k1) w1)
        as (new & dk & w' & -> & Hdk & Hlen & Hnames).
      exists (entry :: new), (k1 + dk), w'.
      rewrite <- app_assoc, Z.add_assoc. split; [done|].
      split; [unfold len in *; simpl; lia|].
      split; [unfold len in *; simpl; lia|].
      intros _. rewrite !fmap_cons, Hname. f_equal. by apply Hnames.
Qed.

End DocumentFacts.

(** Whatever the retriever and the reasoning service do, mention after
    mention, [geoparse_document] returns: a mention that fails costs
    one error entry.  The result counts every mention parsed, as
    filtered or as processed; the statistics count every filtered one;
    there is at least one entry for each processed mention, exactly
    one, under its name and in order, when the clusters are not asked
    for one by one; and no more mentions are counted as having several
    referents than were processed. *)
Theorem geoparse_document_accounts {R : Runtime} (self : OSSGeoparser)
        (document_id : string) (mentions : list LocationMention)
        (source : option (list (string * json))) (all_clusters : bool)
        (w : World) :
  (filter_enabled self = true -> is_Some (filter_ self)) ->
  exists r w',
    geoparse_document self document_id mentions source all_clusters w
    = (Returns r, w')
    /\ total_mentions r = len mentions
    /\ filtered_mentions r + processed_mentions r = total_mentions r
    /\ processed_mentions r = len (processed self mentions)
    /\ match filter_statistics r with
       | Some stats => names_counted stats = filtered_mentions r
       | None => filtered_mentions r = 0
       end
    /\ 0 <= multi_referent_detected r <= processed_mentions r
    /\ processed_mentions r <= len (results r)
    /\ (all_clusters = false ->
        entry_toponym <$> results r = name <$> processed self mentions).
Proof.
  intros Hfilter. unfold geoparse_document.
  destruct mentions as [|m0 mentions0] eqn:Hmentions.
  { eexists _, _. split; [reflexivity|]. simpl.
    unfold processed, len.
    destruct (filter_enabled self); [destruct (filter_ self)|]; simpl;
      repeat split; lia. }
  rewrite <- Hmentions. clear Hmentions m0 mentions0.
  assert (exists stats,
             filter_stage self mentions
             = Returns (processed self mentions,
                        len mentions - len (processed self mentions), stats)
             /\ len (processed self mentions) <= len mentions
             /\ match stats with
                | Some stats =>
                    names_counted stats
                    = len mentions - len (processed self mentions)
                | None => len mentions - len (processed self mentions) = 0
                end) as (stats & -> & Hle & Hstats).
  { unfold filter_stage, processed.
    destruct (filter_enabled self).
    - destruct (Hfilter eq_refl) as [f ->].
      pose proof (filter_mentions_lengths f mentions) as (Hg & Hsum).
      destruct (Filter.filter_mentions f mentions) as [groundable filtered].
      simpl in Hg, Hsum. subst groundable.
      eexists. split; [|split].
      + do 3 f_equal. lia.
      + unfold len in *. lia.
      + destruct (get_filter_statistics_counted filtered) as [-> _]. lia.
    - exists None. rewrite Z.sub_diag. repeat split; lia. }
  destruct (mention_loop self source all_clusters (processed self mentions)
                         [] 0 w)
    as (new & dk & w' & -> & Hdk & Hlen & Hnames).
  eexists _, _. split; [reflexivity|]. simpl.
  repeat split; try lia; try done.
Qed.

Lemma geoparse_document_accounts_witness :
  let R := table_runtime [] in
  let the_river :=
    {| name := "the river"; mention_count := 1;
       contexts := [in_ontario "They camped by the river." 0.2%float false];
       document_id := "doc"; all_doc_locations := ["London"; "the river"] |} in
  let self :=
    {| disambiguator :=
         engine (Raises (Exn (OtherException "ServiceUnavailable")
                             "connection refused"))
                (fun _ => Returns "");
       filter_enabled := true;
       filter_ := Some (Filter.new false None) |} in
  exists r w',
    @geoparse_document R self "doc.xml" [london_once; the_river] None false
                       fresh
    = (Returns r, w')
    /\ total_mentions r = 2
    /\ filtered_mentions r = 1
    /\ processed_mentions r = 1
    /\ entry_toponym <$> results r = ["London"].
Proof.
  intros R the_river self.
  destruct (@geoparse_document_accounts
              R self "doc.xml" [london_once; the_river] None false fresh)
    as (r & w' & Hrun & Htotal & Hsum & Hprocessed & _ & _ & _ & Hnames).
  - intros _. by eexists.
  - exists r, w'. split; [exact Hrun|].
    assert (processed self [london_once; the_river] = [london_once])
      as Hp by (vm_compute; reflexivity).
    rewrite Hp in *. split; [exact Htotal|].
    split; [rewrite Htotal, Hprocessed in Hsum; unfold len in Hsum;
            simpl in Hsum; lia|].
    split; [exact Hprocessed|]. by apply Hnames.
Defined.

(* ===================================================================== *)
(** * Occurrences without nearby names                                    *)
(* ===================================================================== *)

Lemma positive_not_below_zero (t : float) :
  PrimFloat.ltb 0%float t = true -> PrimFloat.leb t 0%float = false.
Proof.
  rewrite ltb_spec, leb_spec. unfold SFltb, SFleb.
  change (Prim2SF 0%float) with (S754_zero false).
  destruct (Prim2SF t) as [s|s| |s m e]; simpl; try discriminate;
    destruct s; simpl; try discriminate; done.
Qed.

Lemma similarity_bare_left (s : gset string) :
  _cluster_similarity ∅ s
  = if bool_decide (s = ∅) then 1.0%float else 0.0%float.
Proof.
  unfold _cluster_similarity.
  rewrite (bool_decide_eq_true_2 ((∅ : gset string) = ∅)) by done.
  simpl. by destruct (bool_decide (s = ∅)).
Qed.

Lemma similarity_bare_right (s : gset string) :
  s <> ∅ -> _cluster_similarity s ∅ = 0.0%float.
Proof.
  intros Hs. unfold _cluster_similarity.
  rewrite (bool_decide_eq_false_2 (s = ∅)) by done.
  rewrite (bool_decide_eq_true_2 ((∅ : gset string) = ∅)) by done.
  reflexivity.
Qed.

Lemma nearby_set_empty (l : list string) :
  (list_to_set l : gset string) = ∅ <-> l = [].
Proof.
  split; [|by intros ->].
  destruct l as [|x l]; [done|]. intros Hempty.
  assert (x ∈ (list_to_set (x :: l) : gset string)) as Hx
      by (apply elem_of_list_to_set, list_elem_of_here).
  rewrite Hempty in Hx. by apply not_elem_of_empty in Hx.
Qed.

Section BestCluster.
Variable self : ContextClusterer.
Hypothesis Hpositive : PrimFloat.ltb 0%float (similarity_threshold self) = true.
Hypothesis Hbelow : PrimFloat.leb (similarity_threshold self) 1%float = true.

(** The cluster chosen is similar enough. *)
Lemma best_step_chosen (s : gset string) (clusters : list ContextCluster)
      (b : option nat) (f : float) (n j : nat) :
  (fold_left (best_step self s) clusters (b, f, n)).1.1 = Some j ->
  b = Some j
  \/ exists c, (n <= j)%nat /\ clusters !! (j - n)%nat = Some c
               /\ PrimFloat.leb (similarity_threshold self)
                                (_cluster_similarity s (cluster_nearby c))
                  = true.
Proof.
  revert b f n. induction clusters as [|c clusters IH]; intros b f n; simpl.
  - auto.
  - destruct (PrimFloat.leb (similarity_threshold self)
                (_cluster_similarity s (cluster_nearby c))) eqn:Hle;
      destruct (PrimFloat.ltb f (_cluster_similarity s (cluster_nearby c)));
      simpl; intros Hj; apply IH in Hj;
      destruct Hj as [Hb|(c' & Hn & Hc' & Hsim)];
      try (right; exists c'; split; [lia|];
           replace (j - n)%nat with (S (j - S n)) by lia; done);
      try (by left).
    injection Hb as <-. right. exists c. rewrite Nat.sub_diag.
    by repeat split.
Qed.

Lemma best_cluster_index_chosen (s : gset string)
      (clusters : list ContextCluster) (i : nat) :
  best_cluster_index self s clusters = Some i ->
  exists c, clusters !! i = Some c
            /\ PrimFloat.leb (similarity_threshold self)
                             (_cluster_similarity s (cluster_nearby c))
               = true.
Proof.
  unfold best_cluster_index. intros Hi.
  apply best_step_chosen in Hi as [?|(c & _ & Hc & Hsim)]; [done|].
  rewrite Nat.sub_0_r in Hc. eauto.
Qed.

Lemma best_step_stays (s : gset string) (clusters : list ContextCluster)
      (b : option nat) (f : float) (n : nat) :
  is_Some b -> is_Some (fold_left (best_step self s) clusters (b, f, n)).1.1.
Proof.
  revert b f n. induction clusters as [|c clusters IH]; intros b f n Hb; simpl.
  - done.
  - destruct (_ && _); apply IH; eauto.
Qed.

(** An occurrence without nearby names finds the cluster of such
    occurrences, when there is one. *)
Lemma best_step_bare (clusters : list ContextCluster)
      (b : option nat) (f : float) (n : nat) :
  (b = None -> f = 0%float) ->
  Exists (fun c => cluster_nearby c = ∅) clusters ->
  is_Some (fold_left (best_step self ∅) clusters (b, f, n)).1.1.
Proof using Hbelow.
  intros Hinv Hex. revert b f n Hinv.
  induction Hex as [c clusters Hc|c clusters _ IH]; intros b f n Hinv; simpl.
  - rewrite similarity_bare_left, (bool_decide_eq_true_2 _ Hc), Hbelow.
    destruct b as [k|].
    + destruct (_ && _); apply best_step_stays; eauto.
    + rewrite (Hinv eq_refl).
      assert (PrimFloat.ltb 0%float 1%float = true) as -> by reflexivity.
      simpl. apply best_step_stays. eauto.
  - destruct (_ && _); apply IH; [done|exact Hinv].
Qed.

End BestCluster.

Lemma empty_clusters_app (l k : list ContextCluster) :
  empty_clusters (l ++ k) = (empty_clusters l + empty_clusters k)%nat.
Proof. unfold empty_clusters. by rewrite filter_app, length_app. Qed.

Lemma empty_clusters_cons (c : ContextCluster) (l : list ContextCluster) :
  empty_clusters (c :: l)
  = ((if bool_decide (cluster_nearby c = ∅) then 1 else 0)
     + empty_clusters l)%nat.
Proof.
  unfold empty_clusters. rewrite filter_cons.
  destruct (decide (cluster_nearby c = ∅)) as [Hc|Hc].
  - by rewrite bool_decide_eq_true_2.
  - by rewrite bool_decide_eq_false_2.
Qed.

Lemma empty_clusters_none (l : list ContextCluster) :
  ~ Exists (fun c => cluster_nearby c = ∅) l -> empty_clusters l = 0%nat.
Proof.
  induction l as [|c l IH]; [done|]. intros Hno.
  rewrite empty_clusters_cons, IH.
  - rewrite bool_decide_eq_false_2; [done|].
    intros Hc. apply Hno. by left.
  - intros Hex. apply Hno. by right.
Qed.

Lemma empty_clusters_alter (f : ContextCluster -> ContextCluster) (i : nat)
      (l : list ContextCluster) :
  (forall c, l !! i = Some c ->
             (cluster_nearby (f c) = ∅ <-> cluster_nearby c = ∅)) ->
  empty_clusters (alter f i l) = empty_clusters l.
Proof.
  unfold alter. revert i. induction l as [|c l IH]; intros i Hf; [done|].
  destruct i as [|i]; simpl.
  - rewrite !empty_clusters_cons. f_equal.
    by rewrite (bool_decide_ext _ _ (Hf c eq_refl)).
  - rewrite !empty_clusters_cons. f_equal. apply IH. intros c' Hc'.
    by apply Hf.
Qed.

Lemma empty_clusters_two (l : list ContextCluster) (i j : nat)
      (a b : ContextCluster) :
  l !! i = Some a -> l !! j = Some b -> i <> j ->
  cluster_nearby a = ∅ -> cluster_nearby b = ∅ ->
  (2 <= empty_clusters l)%nat.
Proof.
  assert (forall l k c, l !! k = Some c -> cluster_nearby c = ∅ ->
                        (1 <= empty_clusters l)%nat) as Hone.
  { clear. induction l as [|c0 l IH]; intros k c Hk Hc; [done|].
    rewrite empty_clusters_cons. destruct k as [|k]; simpl in Hk.
    - injection Hk as ->. rewrite bool_decide_eq_true_2 by done. lia.
    - specialize (IH k c Hk Hc). lia. }
  revert i j. induction l as [|c l IH]; intros i j Ha Hb Hne Pa Pb; [done|].
  rewrite empty_clusters_cons.
  destruct i as [|i]; destruct j as [|j]; simpl in Ha, Hb; [done| | |].
  - injection Ha as ->. rewrite bool_decide_eq_true_2 by done.
    specialize (Hone l j b Hb Pb). lia.
  - injection Hb as ->. rewrite bool_decide_eq_true_2 by done.
    specialize (Hone l i a Ha Pa). lia.
  - assert (2 <= empty_clusters l)%nat by (apply (IH i j); auto). lia.
Qed.

Section KeptApart.
Variable self : ContextClusterer.
Hypothesis Hpositive : PrimFloat.ltb 0%float (similarity_threshold self) = true.
Hypothesis Hbelow : PrimFloat.leb (similarity_threshold self) 1%float = true.

Lemma place_context_sorted_out (clusters : list ContextCluster)
      (context : LocationContext) :
  Forall sorted_out clusters -> (empty_clusters clusters <= 1)%nat ->
  Forall sorted_out (place_context self clusters context)
  /\ (empty_clusters (place_context self clusters context) <= 1)%nat.
Proof using Hpositive Hbelow.
  intros Hall Hone. unfold place_context.
  set (s := list_to_set (nearby_locations context) : gset string).
  destruct (decide (s = ∅)) as [Hs|Hs].
  - (* an occurrence without nearby names *)
    assert (bare context) as Hbare by by apply nearby_set_empty.
    rewrite Hs.
    destruct (best_cluster_index self ∅ clusters) as [i|] eqn:Hbest.
    + destruct (best_cluster_index_chosen self ∅ clusters i Hbest)
        as (c & Hc & Hsim).
      assert (cluster_nearby c = ∅) as Hempty.
      { rewrite similarity_bare_left in Hsim.
        destruct (decide (cluster_nearby c = ∅)) as [|Hne]; [done|].
        rewrite bool_decide_eq_false_2 in Hsim by done.
        by rewrite (positive_not_below_zero _ Hpositive) in Hsim. }
      split.
      * apply Forall_alter; [exact Hall|].
        intros c' Hc' [[Hn Hm]|[Hn Hm]].
        -- left. simpl. split; [rewrite Hn; apply leibniz_equiv, (left_id ∅ (∪))|].
           apply Forall_app. split; [done|]. by apply Forall_singleton.
        -- rewrite Hc in Hc'. injection Hc' as <-. done.
      * rewrite empty_clusters_alter; [done|].
        intros c' Hc'. rewrite Hc in Hc'. injection Hc' as <-. simpl.
        rewrite Hempty. split; [done|]. intros _.
        apply leibniz_equiv, (left_id ∅ (∪)).
    + assert (~ Exists (fun c => cluster_nearby c = ∅) clusters) as Hno.
      { intros Hex.
        destruct (best_step_bare self Hbelow clusters None 0%float 0%nat)
          as [k Hk]; [done|exact Hex|].
        unfold best_cluster_index in Hbest. congruence. }
      split.
      * apply Forall_app. split; [exact Hall|].
        apply Forall_singleton. left. simpl. split; [done|].
        by apply Forall_singleton.
      * rewrite empty_clusters_app, (empty_clusters_none _ Hno).
        rewrite empty_clusters_cons. unfold empty_clusters. simpl.
        destruct (bool_decide _); lia.
  - (* an occurrence with nearby names *)
    assert (~ bare context) as Hbare.
    { intros Hb. apply Hs. by apply nearby_set_empty. }
    destruct (best_cluster_index self s clusters) as [i|] eqn:Hbest.
    + destruct (best_cluster_index_chosen self s clusters i Hbest)
        as (c & Hc & Hsim).
      assert (cluster_nearby c <> ∅) as Hfull.
      { intros Hempty. rewrite Hempty, similarity_bare_right in Hsim by done.
        by rewrite (positive_not_below_zero _ Hpositive) in Hsim. }
      assert (forall x y : gset string, y <> ∅ -> x ∪ y <> ∅) as Hunion.
      { intros x y Hy Hxy. apply Hy. apply leibniz_equiv.
        apply empty_union_L in Hxy as [_ ->]. done. }
      split.
      * apply Forall_alter; [exact Hall|].
        intros c' Hc' [[Hn Hm]|[Hn Hm]].
        -- rewrite Hc in Hc'. injection Hc' as <-. done.
        -- right. simpl. split; [by apply Hunion|].
           apply Forall_app. split; [done|]. by apply Forall_singleton.
      * rewrite empty_clusters_alter; [done|].
        intros c' Hc'. rewrite Hc in Hc'. injection Hc' as <-. simpl.
        split; [intros Hu; by apply Hunion in Hu|done].
    + split.
      * apply Forall_app. split; [exact Hall|].
        apply Forall_singleton. right. simpl. split; [done|].
        by apply Forall_singleton.
      * rewrite empty_clusters_app, empty_clusters_cons.
        rewrite bool_decide_eq_false_2 by done.
        unfold empty_clusters at 2. simpl. lia.
Qed.

Lemma fold_place_context_sorted_out (l : list LocationContext)
      (clusters : list ContextCluster) :
  Forall sorted_out clusters -> (empty_clusters clusters <= 1)%nat ->
  Forall sorted_out (fold_left (place_context self) l clusters)
  /\ (empty_clusters (fold_left (place_context self) l clusters) <= 1)%nat.
Proof using Hpositive Hbelow.
  revert clusters. induction l as [|c l IH]; intros clusters Hall Hone; simpl.
  - done.
  - destruct (place_context_sorted_out clusters c Hall Hone). by apply IH.
Qed.

Lemma cluster_contexts_sorted_out (mention : LocationMention) :
  Forall sorted_out (cluster_contexts self mention)
  /\ (empty_clusters (cluster_contexts self mention) <= 1)%nat.
Proof using Hpositive Hbelow.
  unfold cluster_contexts.
  destruct (contexts mention) as [|c [|c' l]] eqn:E.
  - split; [constructor|]. unfold empty_clusters. simpl. lia.
  - split.
    + apply Forall_singleton. unfold sorted_out. simpl.
      destruct (decide ((list_to_set (nearby_locations c) : gset string) = ∅))
        as [He|He].
      * left. split; [done|]. apply Forall_singleton.
        by apply nearby_set_empty.
      * right. split; [done|]. apply Forall_singleton. intros Hb. apply He.
        by apply nearby_set_empty.
    + rewrite empty_clusters_cons. unfold empty_clusters. simpl.
      destruct (bool_decide _); lia.
  - destruct (fold_place_context_sorted_out (c :: c' :: l) [])
      as [Hall Hone]; [constructor|unfold empty_clusters; simpl; lia|].
    split.
    + apply Forall_map.
      assert (Forall sorted_out
                (sort_desc support_lt
                   (fold_left (place_context self) (c :: c' :: l) []))) as Hs
          by by rewrite sort_desc_perm.
      eapply Forall_impl; [exact Hs|]. intros x Hx. exact Hx.
    + assert (forall total k,
                 empty_clusters (map (assign_confidence total) k)
                 = empty_clusters k) as Hmap.
      { intros total k. induction k as [|x k IH]; [done|]. simpl.
        by rewrite !empty_clusters_cons, IH. }
      rewrite Hmap. unfold empty_clusters in *.
      by rewrite (sort_desc_perm support_lt).
Qed.

End KeptApart.

(** With a threshold above 0 and at most 1, occurrences without nearby
    names never share a cluster with occurrences that have some, and
    never lie in two clusters: they all end up in one cluster, whose
    nearby set is empty. *)
Theorem bare_occurrences_together (self : ContextClusterer)
        (mention : LocationMention) :
  PrimFloat.ltb 0%float (similarity_threshold self) = true ->
  PrimFloat.leb (similarity_threshold self) 1%float = true ->
  Forall (fun c => Forall bare (cluster_members c)
                   \/ Forall (fun x => ~ bare x) (cluster_members c))
         (cluster_contexts self mention)
  /\ (forall i j ci cj x y,
        cluster_contexts self mention !! i = Some ci ->
        cluster_contexts self mention !! j = Some cj ->
        x ∈ cluster_members ci -> bare x ->
        y ∈ cluster_members cj -> bare y ->
        i = j /\ cluster_nearby ci = ∅).
Proof.
  intros Hpositive Hbelow.
  destruct (cluster_contexts_sorted_out self Hpositive Hbelow mention)
    as [Hall Hone].
  split.
  - eapply Forall_impl; [exact Hall|].
    intros c [[_ ?]|[_ ?]]; auto.
  - intros i j ci cj x y Hi Hj Hx Hbx Hy Hby.
    assert (forall k c z, cluster_contexts self mention !! k = Some c ->
                          z ∈ cluster_members c -> bare z ->
                          cluster_nearby c = ∅) as Hempty.
    { intros k c z Hk Hz Hbz.
      rewrite Forall_forall in Hall.
      destruct (Hall c) as [[? _]|[_ Hm]];
        [by eapply list_elem_of_lookup_2|done|].
      rewrite Forall_forall in Hm. by destruct (Hm z Hz). }
    split; [|by eapply Hempty].
    destruct (decide (i = j)) as [|Hne]; [done|].
    pose proof (empty_clusters_two _ i j ci cj Hi Hj Hne
                  (Hempty i ci x Hi Hx Hbx) (Hempty j cj y Hj Hy Hby)).
    lia.
Qed.

Lemma bare_occurrences_together_witness :
  let alone := fun t p =>
    {| text := t; nearby_locations := []; position_in_doc := p |} in
  let mention :=
    {| name := "London"; mention_count := 3;
       contexts := [alone "London." 0.1%float;
                    in_ontario "London, Ontario." 0.5%float false;
                    alone "To London!" 0.9%float];
       document_id := "doc"; all_doc_locations := ["London"; "Ontario"] |} in
  len (cluster_contexts default_clusterer mention) = 2
  /\ Forall (fun c => Forall bare (cluster_members c)
                      \/ Forall (fun x => ~ bare x) (cluster_members c))
            (cluster_contexts default_clusterer mention).
Proof.
  intros alone mention. split; [vm_compute; reflexivity|].
  apply (bare_occurrences_together default_clusterer mention); reflexivity.
Defined.

(* ===================================================================== *)
(** * The count of the mentions with several referents                    *)
(* ===================================================================== *)

Section CountFacts.
Context `{Runtime} (self : MultiContextDisambiguator).




End CountFacts.




